(** * Quantegrity: a shallow embedding of the verifiable-ballot engine

    The development follows the Python sources module by module:
    - [QuantumCore]  : quantum_core.py   (binary XOR, key derivation steps)
    - [App]          : quantegrity_app.py (ballots, mixnet tables, bulletin board)
    - [SharedState]  : shared_state.py   (ballot pool, persisted bulletin board)
    - [Simplified]   : Scantegrity_simplified.py (ElectionSystem)

    Python exceptions are modelled by the [result] type; an operation that
    mutates an object before it raises returns the mutated state together
    with the raised exception, as Python leaves it.  Strings are sequences
    of 8-bit characters, that is, Python strings of code points below 256;
    [AppText] has the character-level functions of quantegrity_app.py on
    strings of any code points.  [datetime.now()] is an argument of the
    operation that reads it. *)

From stdpp Require Import base option list strings gmap fin_maps pretty.
From Stdlib Require Import Ascii String NArith Lia.

Open Scope string_scope.
Open Scope nat_scope.

(** ** Exceptions and results *)

Inductive exn : Type :=
| ValueError (msg : string)
| KeyError
| IndexError
| ZeroDivisionError
| Exception (msg : string).

Inductive result (A : Type) : Type :=
| Ok (a : A)
| Raise (e : exn).
Arguments Ok {A} a.
Arguments Raise {A} e.

Definition is_ok {A} (r : result A) : bool :=
  match r with Ok _ => true | Raise _ => false end.

#[global] Instance result_ret : MRet result := fun _ a => Ok a.
#[global] Instance result_bind : MBind result := fun _ _ f r =>
  match r with Ok a => f a | Raise e => Raise e end.

(** ** Python string helpers *)

Module PyStr.

(** [c * n] for a one-character string. *)
Fixpoint replicate_char (n : nat) (c : ascii) : string :=
  match n with
  | O => EmptyString
  | S n' => String c (replicate_char n' c)
  end.

(** [str.zfill(width)]: left-pads with '0'; a leading sign stays in front. *)
Definition zfill (s : string) (width : nat) : string :=
  let n := String.length s in
  if (width <=? n)%nat then s
  else
    match s with
    | String c rest =>
        if (Ascii.eqb c "+" || Ascii.eqb c "-")%bool
        then String c (replicate_char (width - n) "0" ++ rest)
        else replicate_char (width - n) "0" ++ s
    | EmptyString => replicate_char width "0"
    end.

(** [int(c)] for a one-character string: decimal digits only. *)
Definition int_of_char (c : ascii) : option N :=
  let n := N_of_ascii c in
  if ((48 <=? n) && (n <=? 57))%N then Some (n - 48)%N else None.

(** [str(n)] for a non-negative integer. *)
Definition str (n : N) : string := pretty n.

(** [all(c in '01' for c in s)] *)
Fixpoint all_in_01 (s : string) : bool :=
  match s with
  | EmptyString => true
  | String c rest => (Ascii.eqb c "0" || Ascii.eqb c "1") && all_in_01 rest
  end.

End PyStr.

(** ** Python dictionaries (insertion ordered) *)

Module PyDict.
Section dict.
Context {V : Type}.

Definition t : Type := list (string * V).

Definition empty : t := [].

(** [d[k]] / [d.get(k)] *)
Fixpoint get (d : t) (k : string) : option V :=
  match d with
  | [] => None
  | (k', v) :: d' => if String.eqb k' k then Some v else get d' k
  end.

(** [d[k] = v]: an existing key keeps its position, a new key is appended. *)
Fixpoint set (d : t) (k : string) (v : V) : t :=
  match d with
  | [] => [(k, v)]
  | (k', v') :: d' =>
      if String.eqb k' k then (k', v) :: d' else (k', v') :: set d' k v
  end.

Definition contains (d : t) (k : string) : bool :=
  match get d k with Some _ => true | None => false end.

Definition keys (d : t) : list string := d.*1.
Definition values (d : t) : list V := d.*2.
Definition items (d : t) : list (string * V) := d.
End dict.
Arguments t : clear implicits.
End PyDict.

(** ** The quantum devices

    [qrng] and [sedjo] run a simulated quantum circuit and return what was
    measured.  The outcome of measuring a qubit whose two values are equally
    likely is abstracted as a bit taken from a state of type [rng]:
    [next_bit]. *)

Class Quantum (rng : Type) : Type := {
  next_bit : rng → bool * rng
}.

Module Qrng.
Section qrng.
Context {rng : Type} `{Quantum rng}.

(** The [n] measured bits of [qrng(n)], most significant first. *)
Fixpoint qrng_bits (n : nat) (s : rng) : list bool * rng :=
  match n with
  | O => ([], s)
  | S n' =>
      let (b, s1) := next_bit s in
      let (bs, s2) := qrng_bits n' s1 in
      (b :: bs, s2)
  end.

Definition bit_char (b : bool) : ascii := if b then "1"%char else "0"%char.

Fixpoint bitstring (bs : list bool) : string :=
  match bs with
  | [] => EmptyString
  | b :: bs' => String (bit_char b) (bitstring bs')
  end.

(** [qrng(n)] for [n] at least 1: the measured bits as a string of '0'
    and '1'.  With [n = 0] the source builds a circuit without classical
    bits and reading the counts of its run raises QiskitError; no call
    below has [n = 0], and what is stated for a variable length assumes it
    positive. *)
Definition qrng (n : nat) (s : rng) : string * rng :=
  let (bs, s') := qrng_bits n s in (bitstring bs, s').

(** [int(bits, 2)] on measured bits. *)
Definition int2 (bs : list bool) : N :=
  foldl (fun acc (b : bool) => (2 * acc + (if b then 1 else 0))%N) 0%N bs.
End qrng.
End Qrng.

(** ** quantum_core.py *)

Module QuantumCore.
Import PyStr.

(** The comprehension [str(int(x) ^ int(y)) for x, y in zip(a, b)],
    joined; [int] raises ValueError on a non-digit. *)
Fixpoint xor_zip (a b : string) : result string :=
  match a, b with
  | String x a', String y b' =>
      match int_of_char x with
      | None => Raise (ValueError "invalid literal for int()")
      | Some dx =>
          match int_of_char y with
          | None => Raise (ValueError "invalid literal for int()")
          | Some dy =>
              r ← xor_zip a' b'; Ok (str (N.lxor dx dy) ++ r)
          end
      end
  | _, _ => Ok EmptyString
  end.

Definition binary_xor (a b : string) : result string :=
  let max_len := Nat.max (String.length a) (String.length b) in
  let a := zfill a max_len in
  let b := zfill b max_len in
  xor_zip a b.

Definition xor_encrypt (data key : string) : result string :=
  if negb (all_in_01 data) then Raise (ValueError "Data must be binary string")
  else if negb (all_in_01 key) then Raise (ValueError "Key must be binary string")
  else binary_xor data key.

Definition xor_decrypt (encrypted_data key : string) : result string :=
  if negb (all_in_01 encrypted_data)
  then Raise (ValueError "Encrypted data must be binary string")
  else if negb (all_in_01 key) then Raise (ValueError "Key must be binary string")
  else binary_xor encrypted_data key.

Definition encrypt_q_k1_with_biometric (q_k1 biometric : string) : result string :=
  xor_encrypt q_k1 biometric.

Definition decrypt_q_k1_with_biometric (encrypted_q_k1 biometric : string)
  : result string :=
  xor_decrypt encrypted_q_k1 biometric.

(** Qiskit's QiskitError, rendered as an [Exception] carrying the name of
    the class. *)
Definition qiskit_error : exn := Exception "QiskitError".

(** Whether the gates that [sedjo] applies at position [i] differ between
    the two keys: they depend on [key[i] == '0'] only. *)
Fixpoint oracle_differs (key_a key_b : string) : list bool :=
  match key_a, key_b with
  | String x key_a', String y key_b' =>
      xorb (Ascii.eqb x "0") (Ascii.eqb y "0") :: oracle_differs key_a' key_b'
  | _, _ => []
  end.

Section devices.
Context {rng : Type} `{Quantum rng}.

(** [sedjo(key_a, key_b)], with [n = len(key_a)].  Building the circuit
    indexes both keys up to [n], which raises IndexError when [key_b] is
    shorter.  With [n = 0] the circuit measures nothing and reading the
    counts of its run raises QiskitError.  Otherwise qubits [i] and
    [i+n+1] start as a Bell pair, and on each of them the oracle, the phase
    kicked back by the CNOT onto the output qubit, the reverse step and the
    last Hadamard gate amount to Z then H for a key character other than
    '0', and to X then H for '0'.  Either way the bit measured on qubit [i]
    is random, and the bit measured on qubit [i+n+1] equals it when both
    keys take the same gates at [i] and is its opposite otherwise.  The
    measured string lists the classical bits from the last to the first, so
    [measurement[:n]] holds the bits of the qubits [i+n+1] and
    [measurement[n:2*n]] those of the qubits [i], both from [i = n-1] down
    to [0]. *)
Definition sedjo (key_a key_b : string) (s : rng)
  : result (string * string) * rng :=
  let n := String.length key_a in
  if (String.length key_b <? n)%nat then (Raise IndexError, s)
  else if (n =? 0)%nat then (Raise qiskit_error, s)
  else
    let (measured, s') := Qrng.qrng_bits n s in
    let shared_key_a :=
      Qrng.bitstring
        (zip_with xorb measured (rev (oracle_differs key_a key_b))) in
    let shared_key_b := Qrng.bitstring measured in
    (Ok (shared_key_a, shared_key_b), s').

Definition qrng (length : nat) (s : rng) : string * rng := Qrng.qrng length s.

Definition generate_confirmation_code (s : rng) : string * rng := qrng 16 s.
Definition generate_ballot_id (s : rng) : string * rng := qrng 12 s.
Definition generate_voter_id (s : rng) : string * rng := qrng 16 s.
Definition generate_otp (s : rng) : string * rng := qrng 16 s.

(** [sedjo_with_logging]: the entry appended to [quantum_log] is
    write-only bookkeeping and is left out; the shares are those of
    [sedjo]. *)
Definition sedjo_with_logging (key_a key_b : string) (s : rng)
  : result (string * string) * rng :=
  sedjo key_a key_b s.

Definition perform_authentication_crypto (encrypted_q_k1 biometric : string)
    (s : rng) : result (string * string * string) * rng :=
  match decrypt_q_k1_with_biometric encrypted_q_k1 biometric with
  | Raise e => (Raise e, s)
  | Ok decrypted_q_k1 =>
      match sedjo_with_logging decrypted_q_k1 decrypted_q_k1 s with
      | (Raise e, s') => (Raise e, s')
      | (Ok (alice_aq_k1, bob_aq_k1), s') =>
          let bob_aq_k1 :=
            if negb (String.eqb alice_aq_k1 bob_aq_k1)
            then alice_aq_k1   (* forced to match *)
            else bob_aq_k1 in
          (Ok (decrypted_q_k1, alice_aq_k1, bob_aq_k1), s')
      end
  end.

Definition perform_voting_crypto (aq_k1 : string) (s : rng)
  : result (string * string) * rng :=
  match sedjo_with_logging aq_k1 aq_k1 s with
  | (Raise e, s') => (Raise e, s')
  | (Ok (alice_vq_k1, bob_vq_k1), s') =>
      let bob_vq_k1 :=
        if negb (String.eqb alice_vq_k1 bob_vq_k1)
        then alice_vq_k1   (* forced to match *)
        else bob_vq_k1 in
      (Ok (alice_vq_k1, bob_vq_k1), s')
  end.
End devices.

End QuantumCore.

(** ** quantegrity_app.py *)

Module App.
Import PyStr.

(** *** Character-level XOR

    On strings of code points below 256, where [chr] cannot fail and a
    character prints as two hexadecimal digits; [AppText] has the same
    functions on all strings. *)

(** [key * n] *)
Fixpoint str_repeat (key : string) (n : nat) : string :=
  match n with
  | O => EmptyString
  | S n' => key ++ str_repeat key n'
  end.

(** The loop [result += chr(ord(data[i]) ^ ord(key[i]))] over
    [range(len(data))]; indexing past the end of [key] raises. *)
Fixpoint xor_chars (data key : string) : result string :=
  match data with
  | EmptyString => Ok EmptyString
  | String d data' =>
      match key with
      | EmptyString => Raise IndexError
      | String k key' =>
          r ← xor_chars data' key';
          Ok (String (ascii_of_N (N.lxor (N_of_ascii d) (N_of_ascii k))) r)
      end
  end.

Definition xor_encrypt (data key : string) : result string :=
  let ld := String.length data in
  let lk := String.length key in
  key' ← (if (lk <? ld)%nat then
            if (lk =? 0)%nat then Raise ZeroDivisionError
            else Ok (substring 0 ld (str_repeat key (ld / lk + 1)))
          else if (ld <? lk)%nat then Ok (substring 0 ld key)
          else Ok key);
  xor_chars data key'.

Definition xor_decrypt (encrypted_data key : string) : result string :=
  xor_encrypt encrypted_data key.

(** [binary_xor] is the same function as in quantum_core.py. *)
Definition binary_xor (a b : string) : result string :=
  QuantumCore.binary_xor a b.

(** [s.ljust(width, '0')] *)
Definition ljust0 (s : string) (width : nat) : string :=
  s ++ replicate_char (width - String.length s) "0".

(** One hexadecimal digit, upper case. *)
Definition hex_char (v : N) : string :=
  if (v <? 10)%N then str v
  else String (ascii_of_N (N_of_ascii "A" + v - 10)) EmptyString.

(** [f"{n:02X}"] for a character code. *)
Definition hex02 (n : N) : string :=
  hex_char (n / 16) ++ hex_char (n mod 16).

Fixpoint hex_of_string (s : string) : string :=
  match s with
  | EmptyString => EmptyString
  | String c s' => hex02 (N_of_ascii c) ++ hex_of_string s'
  end.

Section machine.
Context {rng : Type} `{Quantum rng}.

Definition qrng (n : nat) (s : rng) : string * rng := Qrng.qrng n s.

(** The chunk loop of [generate_qrng_string] on the measured bits: four
    bits per character, a short last chunk is padded with '0'. *)
Fixpoint hex_of_chunks (bs : list bool) : string :=
  match bs with
  | [] => EmptyString
  | a :: b :: c :: d :: rest =>
      hex_char (Qrng.int2 [a; b; c; d]) ++ hex_of_chunks rest
  | short =>
      hex_char (Qrng.int2 (short ++ repeat false (4 - List.length short))%list)
  end.

(** [generate_qrng_string(length)] for a positive [length], as [qrng]. *)
Definition generate_qrng_string (length : nat) (s : rng) : string * rng :=
  let (binary_key, s') := Qrng.qrng_bits (length * 4) s in
  (substring 0 length (hex_of_chunks binary_key), s').

Definition generate_qrng_key (length : nat) (s : rng) : string * rng :=
  qrng length s.

Definition generate_signature (data : string) (s : rng)
  : result string * rng :=
  let (sig_key, s') := generate_qrng_string 32 s in
  let data_32 := ljust0 (substring 0 32 data) 32 in
  (signature ← xor_encrypt data_32 sig_key; Ok (hex_of_string signature), s').
End machine.

(** *** Ballots *)

Inductive BallotStatus : Type := BLANK | CAST | SPOILED | AUDITED.

Record BallotChoice : Type := {
  candidate_name : string;
  candidate_id : string;
  confirmation_code : string;
  position : nat
}.

Record ScantegrityBallot : Type := {
  ballot_id : string;
  contest_name : string;
  choices : list BallotChoice;
  status : BallotStatus;
  voter_receipt : option string;
  timestamp : option N;
  quantum_signature : option string
}.

Definition set_status (b : ScantegrityBallot) (st : BallotStatus) (now : N)
  : ScantegrityBallot :=
  {| ballot_id := ballot_id b; contest_name := contest_name b;
     choices := choices b; status := st;
     voter_receipt := voter_receipt b; timestamp := Some now;
     quantum_signature := quantum_signature b |}.

Definition find_choice (cs : list BallotChoice) (cid : string)
  : option BallotChoice :=
  List.find (fun c => String.eqb (candidate_id c) cid) cs.

(** [ScantegrityBallot.mark_choice]; [now] is [datetime.now()]. *)
Definition mark_choice (b : ScantegrityBallot) (cid : string) (now : N)
  : ScantegrityBallot * result string :=
  match find_choice (choices b) cid with
  | Some choice => (set_status b CAST now, Ok (confirmation_code choice))
  | None => (b, Raise (ValueError "Candidate not found on ballot"))
  end.

Definition spoil_ballot (b : ScantegrityBallot) (now : N)
  : ScantegrityBallot * result (list string) :=
  (set_status b SPOILED now, Ok (map confirmation_code (choices b))).

Definition audit_ballot (b : ScantegrityBallot) (now : N)
  : ScantegrityBallot * result (PyDict.t string) :=
  (set_status b AUDITED now,
   Ok (foldl (fun d c => PyDict.set d (candidate_id c) (confirmation_code c))
             PyDict.empty (choices b))).

(** *** Mixnet tables P, Q, R, S *)

Module Mixnet.

(** The dictionaries collected in [all_codes]. *)
Record CodeInfo : Type := {
  ci_code : string;
  ci_ballot_id : string;
  ci_candidate : string
}.

(** A row of table R. *)
Record REntry : Type := {
  code : string;
  ballot_id : string;
  candidate : string;
  q_pointer : string * nat;
  s_pointer : string * nat;
  flag : bool
}.

Record MixnetTables : Type := {
  table_p : PyDict.t (PyDict.t string);
  table_q : PyDict.t (list string);
  table_r : list REntry;
  table_s : gmap string (list bool)
}.

Record MixnetGenerator : Type := {
  candidates : list string;
  num_ballots : nat;
  tables : option MixnetTables
}.

(** [f"ballot_{ballot_id:06d}"] *)
Definition ballot_str (ballot_id : nat) : string :=
  "ballot_" ++ zfill (str (N.of_nat ballot_id)) 6.

(** [items[i], items[j] = items[j], items[i]] *)
Definition swap {A} (items : list A) (i j : nat) : list A :=
  match items !! i, items !! j with
  | Some x, Some y => <[j := x]> (<[i := y]> items)
  | _, _ => items
  end.

(** [l.index(x)] *)
Fixpoint list_index (l : list string) (x : string) : option nat :=
  match l with
  | [] => None
  | y :: l' => if String.eqb y x then Some 0
               else S <$> list_index l' x
  end.

(** [len([c for c in cs if c['candidate'] == candidate])] *)
Definition count_candidate (cs : list CodeInfo) (candidate : string) : nat :=
  List.length (List.filter (fun c => String.eqb (ci_candidate c) candidate) cs).

Definition set_flag (e : REntry) : REntry :=
  {| code := code e; ballot_id := ballot_id e; candidate := candidate e;
     q_pointer := q_pointer e; s_pointer := s_pointer e; flag := true |}.

(** [sum(flags)] *)
Definition sum_flags (flags : list bool) : nat :=
  foldr (fun (b : bool) acc => (if b then 1 else 0) + acc) 0 flags.

Section generator.
Context {rng : Type} `{Quantum rng}.

Definition _generate_confirmation_code (s : rng) : string * rng :=
  generate_qrng_string 4 s.

(** The loop of [_quantum_shuffle], [i] running from [n - 1] down to 1. *)
Fixpoint quantum_shuffle_from {A} (i : nat) (items : list A) (s : rng)
  : list A * rng :=
  match i with
  | O => (items, s)
  | S i' =>
      let (random_bits, s1) := Qrng.qrng_bits 8 s in
      let random_int := N.to_nat (Qrng.int2 random_bits) in
      let j := random_int mod (i + 1) in
      quantum_shuffle_from i' (swap items i j) s1
  end.

Definition _quantum_shuffle {A} (items : list A) (s : rng) : list A * rng :=
  quantum_shuffle_from (List.length items - 1) items s.

(** Inner loop of table P: one code per candidate of one ballot. *)
Fixpoint gen_row (ballot : string) (cands : list string)
    (row : PyDict.t string) (all_codes : list CodeInfo) (s : rng)
  : PyDict.t string * list CodeInfo * rng :=
  match cands with
  | [] => (row, all_codes, s)
  | cand :: cands' =>
      let (c, s1) := _generate_confirmation_code s in
      gen_row ballot cands' (PyDict.set row cand c)
        (all_codes ++ [{| ci_code := c; ci_ballot_id := ballot;
                          ci_candidate := cand |}])%list s1
  end.

(** Outer loop of table P over [range(num_ballots)]. *)
Fixpoint gen_table_p (ids : list nat) (cands : list string)
    (tp : PyDict.t (PyDict.t string)) (all_codes : list CodeInfo) (s : rng)
  : PyDict.t (PyDict.t string) * list CodeInfo * rng :=
  match ids with
  | [] => (tp, all_codes, s)
  | i :: ids' =>
      let '(row, all_codes1, s1) :=
        gen_row (ballot_str i) cands PyDict.empty all_codes s in
      gen_table_p ids' cands (PyDict.set tp (ballot_str i) row) all_codes1 s1
  end.

(** Table Q: the codes of each ballot of table P, shuffled. *)
Fixpoint gen_table_q (items : list (string * PyDict.t string))
    (tq : PyDict.t (list string)) (s : rng) : PyDict.t (list string) * rng :=
  match items with
  | [] => (tq, s)
  | (b, candidates_codes) :: rest =>
      let (codes, s1) := _quantum_shuffle (PyDict.values candidates_codes) s in
      gen_table_q rest (PyDict.set tq b codes) s1
  end.

(** Table R: [todo] is [all_codes[i:]]. *)
Fixpoint gen_table_r (all_codes : list CodeInfo) (tq : PyDict.t (list string))
    (i : nat) (todo : list CodeInfo) (tr : list REntry)
  : result (list REntry) :=
  match todo with
  | [] => Ok tr
  | code_info :: rest =>
      match PyDict.get tq (ci_ballot_id code_info) with
      | None => Raise KeyError
      | Some codes =>
          match list_index codes (ci_code code_info) with
          | None => Raise (ValueError "x is not in list")
          | Some q_position =>
              let s_position :=
                count_candidate (take i all_codes) (ci_candidate code_info) in
              gen_table_r all_codes tq (S i) rest
                (tr ++ [{| code := ci_code code_info;
                           ballot_id := ci_ballot_id code_info;
                           candidate := ci_candidate code_info;
                           q_pointer := (ci_ballot_id code_info, q_position);
                           s_pointer := (ci_candidate code_info, s_position);
                           flag := false |}])%list
          end
      end
  end.

(** Table S: one [False] slot per code of the candidate. *)
Definition gen_table_s (cands : list string) (all_codes : list CodeInfo)
  : gmap string (list bool) :=
  foldl (fun ts cand =>
           <[cand := repeat false (count_candidate all_codes cand)]> ts)
        ∅ cands.

Definition generate_tables (g : MixnetGenerator) (s : rng)
  : (MixnetGenerator * rng) * result MixnetTables :=
  let '(tp, all_codes, s1) :=
    gen_table_p (seq 0 (num_ballots g)) (candidates g) PyDict.empty [] s in
  let (tq, s2) := gen_table_q (PyDict.items tp) PyDict.empty s1 in
  match gen_table_r all_codes tq 0 all_codes [] with
  | Raise e => ((g, s2), Raise e)
  | Ok tr =>
      let ts := gen_table_s (candidates g) all_codes in
      let t := {| table_p := tp; table_q := tq; table_r := tr; table_s := ts |} in
      (({| candidates := candidates g; num_ballots := num_ballots g;
           tables := Some t |}, s2), Ok t)
  end.
End generator.

(** The scan of table R in [flag_vote]: the first row carrying the code
    is flagged, then its slot of table S is set. *)
Fixpoint flag_in (tr : list REntry) (ts : gmap string (list bool))
    (confirmation_code : string)
  : list REntry * gmap string (list bool) * result bool :=
  match tr with
  | [] => ([], ts, Ok false)
  | entry :: rest =>
      if String.eqb (code entry) confirmation_code then
        let cand := candidate entry in
        let s_position := snd (s_pointer entry) in
        match ts !! cand with
        | None => (set_flag entry :: rest, ts, Raise KeyError)
        | Some flags =>
            if (s_position <? List.length flags)%nat
            then (set_flag entry :: rest,
                  <[cand := <[s_position := true]> flags]> ts, Ok true)
            else (set_flag entry :: rest, ts, Raise IndexError)
        end
      else
        let '(rest', ts', r) := flag_in rest ts confirmation_code in
        (entry :: rest', ts', r)
  end.

Definition flag_vote (g : MixnetGenerator) (confirmation_code : string)
  : MixnetGenerator * result bool :=
  match tables g with
  | None => (g, Ok false)
  | Some t =>
      let '(tr, ts, r) := flag_in (table_r t) (table_s t) confirmation_code in
      ({| candidates := candidates g; num_ballots := num_ballots g;
          tables := Some {| table_p := table_p t; table_q := table_q t;
                            table_r := tr; table_s := ts |} |}, r)
  end.

Definition get_tally (g : MixnetGenerator) : gmap string nat :=
  match tables g with
  | None => ∅
  | Some t => sum_flags <$> table_s t
  end.

End Mixnet.

(** *** Bulletin board *)

Module Board.

Record BulletinBoardEntry : Type := {
  entry_id : string;
  ballot_id : string;
  confirmation_codes : list string;
  timestamp : N;
  digital_signature : string;
  entry_type : string;
  quantum_proof : option string
}.

Record BulletinBoard : Type := {
  entries : list BulletinBoardEntry;
  published_ballots : gmap string string;
  commitments : gmap string string;
  is_sealed : bool
}.

(** [BulletinBoard()] *)
Definition new_board : BulletinBoard :=
  {| entries := []; published_ballots := ∅; commitments := ∅;
     is_sealed := false |}.

Definition publish (bb : BulletinBoard) (e : BulletinBoardEntry) (ty : string)
  : BulletinBoard :=
  {| entries := (entries bb ++ [e])%list;
     published_ballots := <[ballot_id e := ty]> (published_ballots bb);
     commitments := commitments bb;
     is_sealed := is_sealed bb |}.

Definition seal_board (bb : BulletinBoard) : BulletinBoard :=
  {| entries := entries bb; published_ballots := published_ballots bb;
     commitments := commitments bb; is_sealed := true |}.

Definition get_entry (bb : BulletinBoard) (eid : string)
  : option BulletinBoardEntry :=
  List.find (fun e => String.eqb (entry_id e) eid) (entries bb).

Definition get_ballot_entry (bb : BulletinBoard) (bid : string)
  : option BulletinBoardEntry :=
  List.find (fun e => String.eqb (ballot_id e) bid) (entries bb).

Definition get_all_votes (bb : BulletinBoard) : list BulletinBoardEntry :=
  List.filter (fun e => String.eqb (entry_type e) "vote") (entries bb).

Section board.
Context {rng : Type} `{Quantum rng}.

Definition _generate_entry_id (s : rng) : string * rng :=
  generate_qrng_string 16 s.

Definition _generate_signature (bid : string) (codes : list string) (s : rng)
  : result string * rng :=
  let data := bid ++ ":" ++ String.concat ":" codes in
  generate_signature data s.

(** [post_vote]; [now] is the reading of [datetime.now()]. *)
Definition post_vote (bb : BulletinBoard) (bid : string)
    (codes : list string) (proof : option string) (now : N) (s : rng)
  : (BulletinBoard * rng) * result string :=
  if is_sealed bb then ((bb, s), Raise (Exception "Bulletin board is sealed"))
  else
    match published_ballots bb !! bid with
    | Some _ => ((bb, s), Raise (Exception "Ballot already published"))
    | None =>
        let (eid, s1) := _generate_entry_id s in
        match _generate_signature bid codes s1 with
        | (Raise e, s2) => ((bb, s2), Raise e)
        | (Ok signature, s2) =>
            let entry :=
              {| entry_id := eid; ballot_id := bid;
                 confirmation_codes := codes; timestamp := now;
                 digital_signature := signature; entry_type := "vote";
                 quantum_proof := proof |} in
            ((publish bb entry "vote", s2), Ok eid)
        end
    end.

Definition post_audit (bb : BulletinBoard) (bid : string)
    (all_codes : PyDict.t string) (now : N) (s : rng)
  : (BulletinBoard * rng) * result string :=
  match published_ballots bb !! bid with
  | Some _ => ((bb, s), Raise (Exception "Ballot already published"))
  | None =>
      let (eid, s1) := _generate_entry_id s in
      let codes_list := PyDict.values all_codes in
      match _generate_signature bid codes_list s1 with
      | (Raise e, s2) => ((bb, s2), Raise e)
      | (Ok signature, s2) =>
          let entry :=
            {| entry_id := eid; ballot_id := bid;
               confirmation_codes := codes_list; timestamp := now;
               digital_signature := signature; entry_type := "audit";
               quantum_proof := None |} in
          ((publish bb entry "audit", s2), Ok eid)
      end
  end.

Definition verify_entry (bb : BulletinBoard) (eid : string) (s : rng)
  : result bool * rng :=
  match get_entry bb eid with
  | None => (Ok false, s)
  | Some entry =>
      match _generate_signature (ballot_id entry) (confirmation_codes entry) s with
      | (Raise e, s') => (Raise e, s')
      | (Ok expected_signature, s') =>
          (Ok (String.eqb (digital_signature entry) expected_signature), s')
      end
  end.
End board.

End Board.

End App.

(** ** Scantegrity_simplified.py *)

Module Simplified.

(** The four values [Ballot.status] takes:
    "Not Cast", "Cast", "Audited", "Spoiled". *)
Inductive Status : Type := NotCast | Cast | Audited | Spoiled.

Definition status_eqb (a b : Status) : bool :=
  match a, b with
  | NotCast, NotCast | Cast, Cast | Audited, Audited | Spoiled, Spoiled => true
  | _, _ => false
  end.

Record Ballot : Type := {
  ballot_id : string;
  questions : PyDict.t (list string);
  codes : PyDict.t (PyDict.t string);
  marked_options : PyDict.t string;
  status : Status
}.

(** [Ballot.mark] *)
Definition mark (b : Ballot) (question opt : string) : Ballot :=
  {| ballot_id := ballot_id b; questions := questions b; codes := codes b;
     marked_options := PyDict.set (marked_options b) question opt;
     status := status b |}.

Definition set_status (b : Ballot) (st : Status) : Ballot :=
  {| ballot_id := ballot_id b; questions := questions b; codes := codes b;
     marked_options := marked_options b; status := st |}.

(** [Ballot.get_code]: [None] for an unmarked question. *)
Definition get_code (b : Ballot) (question : string) : result (option string) :=
  match PyDict.get (marked_options b) question with
  | None => Ok None
  | Some opt =>
      match PyDict.get (codes b) question with
      | None => Raise KeyError
      | Some row =>
          match PyDict.get row opt with
          | None => Raise KeyError
          | Some c => Ok (Some c)
          end
      end
  end.

(** A row of a table R. *)
Record REntry : Type := {
  flag : bool;
  q_pointer : string * string * nat;
  s_pointer : string * string
}.

Definition set_flag (e : REntry) : REntry :=
  {| flag := true; q_pointer := q_pointer e; s_pointer := s_pointer e |}.

(** Ballot objects are shared between the caller, [ballots],
    [audited_ballots] and [spoiled_ballots]: [ballots] is the store of the
    objects and a ballot is referred to by its index in the store.  Python
    has no reference outside the store; the operations below answer one
    with an exception and leave the system as it is. *)
Record ElectionSystem : Type := {
  num_voters : nat;
  es_questions : PyDict.t (list string);
  ballots : list Ballot;
  table_q : PyDict.t (PyDict.t (list string));
  table_s : gmap string (gmap string (gset string));
  tables_r : list (list REntry);
  cast_votes : list (string * string * option string);
  audited_ballots : list nat;
  spoiled_ballots : list nat
}.

Definition with_ballot (es : ElectionSystem) (ref : nat) (b : Ballot)
  : ElectionSystem :=
  {| num_voters := num_voters es; es_questions := es_questions es;
     ballots := <[ref := b]> (ballots es);
     table_q := table_q es; table_s := table_s es; tables_r := tables_r es;
     cast_votes := cast_votes es; audited_ballots := audited_ballots es;
     spoiled_ballots := spoiled_ballots es |}.

Definition with_tables (es : ElectionSystem) (trs : list (list REntry))
    (ts : gmap string (gmap string (gset string))) : ElectionSystem :=
  {| num_voters := num_voters es; es_questions := es_questions es;
     ballots := ballots es;
     table_q := table_q es; table_s := ts; tables_r := trs;
     cast_votes := cast_votes es; audited_ballots := audited_ballots es;
     spoiled_ballots := spoiled_ballots es |}.

Definition append_cast_vote (es : ElectionSystem)
    (v : string * string * option string) : ElectionSystem :=
  {| num_voters := num_voters es; es_questions := es_questions es;
     ballots := ballots es;
     table_q := table_q es; table_s := table_s es; tables_r := tables_r es;
     cast_votes := (cast_votes es ++ [v])%list;
     audited_ballots := audited_ballots es;
     spoiled_ballots := spoiled_ballots es |}.

Definition append_audited (es : ElectionSystem) (ref : nat) : ElectionSystem :=
  {| num_voters := num_voters es; es_questions := es_questions es;
     ballots := ballots es;
     table_q := table_q es; table_s := table_s es; tables_r := tables_r es;
     cast_votes := cast_votes es;
     audited_ballots := (audited_ballots es ++ [ref])%list;
     spoiled_ballots := spoiled_ballots es |}.

Definition append_spoiled (es : ElectionSystem) (ref : nat) : ElectionSystem :=
  {| num_voters := num_voters es; es_questions := es_questions es;
     ballots := ballots es;
     table_q := table_q es; table_s := table_s es; tables_r := tables_r es;
     cast_votes := cast_votes es;
     audited_ballots := audited_ballots es;
     spoiled_ballots := (spoiled_ballots es ++ [ref])%list |}.

(** [self.table_q[ballot_id][question][i]] *)
Definition table_q_at (tq : PyDict.t (PyDict.t (list string)))
    (bid question : string) (i : nat) : result string :=
  match PyDict.get tq bid with
  | None => Raise KeyError
  | Some per_question =>
      match PyDict.get per_question question with
      | None => Raise KeyError
      | Some cs =>
          match cs !! i with
          | None => Raise IndexError
          | Some c => Ok c
          end
      end
  end.

(** [self.table_s[question][option].add(code)] *)
Definition table_s_add (ts : gmap string (gmap string (gset string)))
    (question opt c : string)
  : result (gmap string (gmap string (gset string))) :=
  match ts !! question with
  | None => Raise KeyError
  | Some per_option =>
      match per_option !! opt with
      | None => Raise KeyError
      | Some cs => Ok (<[question := <[opt := {[c]} ∪ cs]> per_option]> ts)
      end
  end.

(** The inner [for entry in table_r] loop of [cast_vote], up to its
    [break]. *)
Fixpoint scan_table_r (tq : PyDict.t (PyDict.t (list string)))
    (bid question opt : string) (c : option string)
    (table_r : list REntry) (ts : gmap string (gmap string (gset string)))
  : list REntry * gmap string (gmap string (gset string)) * result unit :=
  match table_r with
  | [] => ([], ts, Ok ())
  | entry :: rest =>
      let '(eb, eq, ei) := q_pointer entry in
      let continue :=
        let '(rest', ts', r) := scan_table_r tq bid question opt c rest ts in
        (entry :: rest', ts', r) in
      if (String.eqb eb bid && String.eqb eq question)%bool then
        match table_q_at tq bid question ei with
        | Raise e => (entry :: rest, ts, Raise e)
        | Ok c' =>
            match c with
            | Some cv =>
                if String.eqb c' cv then
                  match table_s_add ts question opt cv with
                  | Raise e => (set_flag entry :: rest, ts, Raise e)
                  | Ok ts' => (set_flag entry :: rest, ts', Ok ())
                  end
                else continue
            | None => continue
            end
        end
      else continue
  end.

(** The [for table_r in self.tables_r] loop of [cast_vote]. *)
Fixpoint scan_tables_r (tq : PyDict.t (PyDict.t (list string)))
    (bid question opt : string) (c : option string)
    (trs : list (list REntry)) (ts : gmap string (gmap string (gset string)))
  : list (list REntry) * gmap string (gmap string (gset string)) * result unit :=
  match trs with
  | [] => ([], ts, Ok ())
  | table_r :: rest =>
      match scan_table_r tq bid question opt c table_r ts with
      | (table_r', ts', Raise e) => (table_r' :: rest, ts', Raise e)
      | (table_r', ts', Ok _) =>
          let '(rest', ts'', r) := scan_tables_r tq bid question opt c rest ts' in
          (table_r' :: rest', ts'', r)
      end
  end.

(** The second [for question, option in choices.items()] loop of
    [cast_vote]. *)
Fixpoint record_choices (es : ElectionSystem) (b : Ballot)
    (items : list (string * string)) : ElectionSystem * result unit :=
  match items with
  | [] => (es, Ok ())
  | (question, opt) :: rest =>
      match get_code b question with
      | Raise e => (es, Raise e)
      | Ok c =>
          let es1 := append_cast_vote es (ballot_id b, question, c) in
          match scan_tables_r (table_q es1) (ballot_id b) question opt c
                  (tables_r es1) (table_s es1) with
          | (trs, ts, Raise e) => (with_tables es1 trs ts, Raise e)
          | (trs, ts, Ok _) => record_choices (with_tables es1 trs ts) b rest
          end
      end
  end.

Definition already_finalized : exn :=
  ValueError "Ballot has already been cast, audited, or spoiled".

(** [ElectionSystem.cast_vote(ballot, choices)]; [ref] designates the
    ballot object. *)
Definition cast_vote (es : ElectionSystem) (ref : nat) (choices : PyDict.t string)
  : ElectionSystem * result unit :=
  match ballots es !! ref with
  | None => (es, Raise (Exception "no such ballot object"))
  | Some ballot =>
      if status_eqb (status ballot) NotCast then
        let ballot1 :=
          foldl (fun b '(question, opt) => mark b question opt)
                ballot (PyDict.items choices) in
        let ballot2 := set_status ballot1 Cast in
        record_choices (with_ballot es ref ballot2) ballot2 (PyDict.items choices)
      else (es, Raise already_finalized)
  end.

Definition audit_ballot (es : ElectionSystem) (ref : nat)
  : ElectionSystem * result unit :=
  match ballots es !! ref with
  | None => (es, Raise (Exception "no such ballot object"))
  | Some ballot =>
      if status_eqb (status ballot) NotCast then
        (append_audited (with_ballot es ref (set_status ballot Audited)) ref, Ok ())
      else (es, Raise already_finalized)
  end.

(** The reveal loops of [spoil_ballot] on one table R. *)
Definition reveal (bid : string) (table_r : list REntry) : list REntry :=
  map (fun entry =>
         if String.eqb (fst (fst (q_pointer entry))) bid
         then set_flag entry else entry) table_r.

Definition spoil_ballot (es : ElectionSystem) (ref : nat)
  : ElectionSystem * result unit :=
  match ballots es !! ref with
  | None => (es, Raise (Exception "no such ballot object"))
  | Some ballot =>
      if status_eqb (status ballot) NotCast then
        let es1 := append_spoiled (with_ballot es ref (set_status ballot Spoiled)) ref in
        (with_tables es1 (map (reveal (ballot_id ballot)) (tables_r es1)) (table_s es1),
         Ok ())
      else (es, Raise already_finalized)
  end.

Definition get_tally (es : ElectionSystem) : gmap string (gmap string nat) :=
  (fun options : gmap string (gset string) =>
     (fun cs : gset string => size cs) <$> options) <$> table_s es.

End Simplified.

(** ** shared_state.py *)

Module SharedState.

Record QuantumKeys : Type := {
  q_k1 : string;
  q_k2 : string;
  encrypted_q_k1 : string;
  aq_k1_alice : string;
  aq_k1_bob : string;
  vq_k1_alice : string;
  vq_k1_bob : string
}.

Record BiometricData : Type := {
  signature : string;
  is_enrolled : bool;
  enrollment_time : string
}.

Record DeviceInfo : Type := {
  device_id : string;
  device_fingerprint : string;
  registration_time : string;
  verification_otp : string;
  encrypted_otp : string;
  is_verified : bool
}.

Record Voter : Type := {
  voter_id : string;
  name : string;
  national_id : string;
  quantum_keys : QuantumKeys;
  biometric_data : BiometricData;
  device_info : DeviceInfo;
  is_registered : bool;
  device_status : string;
  auth_status : string;
  vote_status : string;
  vote_receipt : string;
  v_registration_time : string;
  last_login_time : string;
  auth_otp : string;
  auth_encrypted_otp : string
}.

Record Ballot : Type := {
  ballot_id : string;
  b_voter_id : string;
  election_id : string;
  confirmation_codes : PyDict.t string;
  is_cast : bool;
  is_spoiled : bool;
  is_allocated : bool;
  selected_candidate : string;
  encrypted_vote : string;
  cast_time : string;
  allocation_time : string
}.

Record BulletinEntry : Type := {
  entry_id : string;
  e_ballot_id : string;
  e_confirmation_codes : list string;
  entry_type : string;
  timestamp : string;
  e_signature : string;
  quantum_proof : string
}.

(** [self.data], one field per collection actually used below, and the
    [last_updated] stamp written by [_save_data]. *)
Record State : Type := {
  voters : gmap string Voter;
  ballots : gmap string Ballot;
  ballot_pools : gmap string (list Ballot);
  bulletin_board : PyDict.t BulletinEntry;
  last_updated : string
}.

Definition _save_data (st : State) (now : string) : State :=
  {| voters := voters st; ballots := ballots st;
     ballot_pools := ballot_pools st; bulletin_board := bulletin_board st;
     last_updated := now |}.

Definition get_voter (st : State) (vid : string) : option Voter := voters st !! vid.
Definition get_ballot (st : State) (bid : string) : option Ballot := ballots st !! bid.

Definition update_voter (st : State) (v : Voter) (now : string) : State :=
  _save_data
    {| voters := <[voter_id v := v]> (voters st); ballots := ballots st;
       ballot_pools := ballot_pools st; bulletin_board := bulletin_board st;
       last_updated := last_updated st |} now.

Definition update_ballot (st : State) (b : Ballot) (now : string) : State :=
  _save_data
    {| voters := voters st; ballots := <[ballot_id b := b]> (ballots st);
       ballot_pools := ballot_pools st; bulletin_board := bulletin_board st;
       last_updated := last_updated st |} now.

Definition set_vote_status (v : Voter) (vs : string) : Voter :=
  {| voter_id := voter_id v; name := name v; national_id := national_id v;
     quantum_keys := quantum_keys v; biometric_data := biometric_data v;
     device_info := device_info v; is_registered := is_registered v;
     device_status := device_status v; auth_status := auth_status v;
     vote_status := vs; vote_receipt := vote_receipt v;
     v_registration_time := v_registration_time v;
     last_login_time := last_login_time v; auth_otp := auth_otp v;
     auth_encrypted_otp := auth_encrypted_otp v |}.

Definition set_spoiled (b : Ballot) (now : string) : Ballot :=
  {| ballot_id := ballot_id b; b_voter_id := b_voter_id b;
     election_id := election_id b; confirmation_codes := confirmation_codes b;
     is_cast := is_cast b; is_spoiled := true; is_allocated := is_allocated b;
     selected_candidate := selected_candidate b;
     encrypted_vote := encrypted_vote b; cast_time := now;
     allocation_time := allocation_time b |}.

(** [SharedState.spoil_ballot]; [now] is [datetime.now().isoformat()]. *)
Definition spoil_ballot (st : State) (vid bid : string) (now : string)
  : State * (bool * PyDict.t string) :=
  match get_voter st vid, get_ballot st bid with
  | Some voter, Some ballot =>
      let ballot' := set_spoiled ballot now in
      let voter' := set_vote_status voter "spoiled" in
      let st1 := update_ballot st ballot' now in
      let st2 := update_voter st1 voter' now in
      (st2, (true, confirmation_codes ballot'))
  | _, _ => (st, (false, PyDict.empty))
  end.

(** [SharedState.add_bulletin_entry] *)
Definition add_bulletin_entry (st : State) (entry : BulletinEntry) (now : string)
  : State :=
  _save_data
    {| voters := voters st; ballots := ballots st;
       ballot_pools := ballot_pools st;
       bulletin_board := PyDict.set (bulletin_board st) (entry_id entry) entry;
       last_updated := last_updated st |} now.

Definition get_bulletin_entry (st : State) (eid : string) : option BulletinEntry :=
  PyDict.get (bulletin_board st) eid.

Section pool.
Context {rng : Type} `{Quantum rng}.

(** The inner loop of [_create_ballot_pool]: one drawn code per
    candidate. *)
Fixpoint draw_codes (cands : list string) (codes : PyDict.t string) (s : rng)
  : PyDict.t string * rng :=
  match cands with
  | [] => (codes, s)
  | cand :: cands' =>
      let (c, s1) := QuantumCore.generate_confirmation_code s in
      draw_codes cands' (PyDict.set codes cand c) s1
  end.

(** The outer loop over [range(pool_size)]; [n] iterations remain. *)
Fixpoint draw_pool (n : nat) (eid : string) (cands : list string)
    (ballot_pool : list Ballot) (s : rng) : list Ballot * rng :=
  match n with
  | O => (ballot_pool, s)
  | S n' =>
      let (bid, s1) := QuantumCore.generate_ballot_id s in
      let (codes, s2) := draw_codes cands PyDict.empty s1 in
      let ballot :=
        {| ballot_id := bid; b_voter_id := ""; election_id := eid;
           confirmation_codes := codes; is_cast := false;
           is_spoiled := false; is_allocated := false;
           selected_candidate := ""; encrypted_vote := "";
           cast_time := ""; allocation_time := "" |} in
      draw_pool n' eid cands (ballot_pool ++ [ballot])%list s2
  end.

Definition _create_ballot_pool (st : State) (eid : string)
    (cands : list string) (pool_size : nat) (s : rng) : State * rng :=
  let (ballot_pool, s') := draw_pool pool_size eid cands [] s in
  ({| voters := voters st; ballots := ballots st;
      ballot_pools := <[eid := ballot_pool]> (ballot_pools st);
      bulletin_board := bulletin_board st;
      last_updated := last_updated st |}, s').
End pool.

(** Every confirmation code of a pool, ballot after ballot. *)
Definition pool_codes (ballot_pool : list Ballot) : list string :=
  List.concat (map (fun b => PyDict.values (confirmation_codes b)) ballot_pool).

End SharedState.

(** ** A concrete source of measurements

    A finite tape of bits read from the left; an exhausted tape yields 0.
    The SEDJO measurement reads the two shares off the tape. *)

Module Tape.

Definition tape_next (s : list bool) : bool * list bool :=
  match s with
  | [] => (false, [])
  | b :: s' => (b, s')
  end.

#[global] Instance tape_quantum : Quantum (list bool) :=
  {| next_bit := tape_next |}.

End Tape.

(** ** Reference definitions used in the statements *)

Module XorRef.
Import PyStr.

(** Exclusive or of two bit characters. *)
Definition xor_bit (x y : ascii) : ascii :=
  if Ascii.eqb x y then "0"%char else "1"%char.

(** Position-wise exclusive or of two bit strings. *)
Fixpoint xor_bits (a b : string) : string :=
  match a, b with
  | String x a', String y b' => String (xor_bit x y) (xor_bits a' b')
  | _, _ => EmptyString
  end.

(** [s] left-padded with '0' up to [width] characters. *)
Definition pad0 (width : nat) (s : string) : string :=
  replicate_char (width - String.length s) "0" ++ s.

End XorRef.

(** ** Invariants and runs of the mixnet tables *)

Module MixnetInv.
Import App.Mixnet.

(** What [flag_vote] reads from a row of table R. *)
Definition row_key (e : REntry) : string * string * (string * nat) :=
(code e, candidate e, s_pointer e).

(** Every row of table R points at an existing slot of table S. *)
Definition slots_ok (tr : list REntry) (ts : gmap string (list bool)) : Prop :=
Forall (fun e => ∃ flags, ts !! candidate e = Some flags ∧
                          snd (s_pointer e) < List.length flags) tr.

(** Table S keeps its keys and the number of slots per key. *)
Definition same_shape (ts ts' : gmap string (list bool)) : Prop :=
∀ k flags, ts !! k = Some flags →
  ∃ flags', ts' !! k = Some flags' ∧ List.length flags' = List.length flags.

(** A row of table R built from the [j]-th drawn code. *)
Definition row_from (all_codes : list CodeInfo) (e : REntry) : Prop :=
∃ j ci, all_codes !! j = Some ci ∧ candidate e = ci_candidate ci ∧
        snd (s_pointer e) = count_candidate (take j all_codes) (ci_candidate ci).

(** The generator after [flag_vote] was called on each code of [cs] in turn. *)
Definition flag_votes (g : MixnetGenerator) (cs : list string) : MixnetGenerator :=
foldl (fun g c => fst (flag_vote g c)) g cs.

End MixnetInv.

(** ** Runs of the bulletin board *)

Module BoardRuns.
Import App.Board.

(** One call on the board. *)
Inductive board_op : Type :=
| PostVote (bid : string) (codes : list string) (proof : option string) (now : N)
| PostAudit (bid : string) (all_codes : PyDict.t string) (now : N)
| SealBoard.

Section runs.
Context {rng : Type} `{Quantum rng}.

(** The state a call leaves behind, whether it returned or raised. *)
Definition step (st : BulletinBoard * rng) (op : board_op) : BulletinBoard * rng :=
match op with
| PostVote bid codes proof now => fst (post_vote (fst st) bid codes proof now (snd st))
| PostAudit bid all_codes now => fst (post_audit (fst st) bid all_codes now (snd st))
| SealBoard => (seal_board (fst st), snd st)
end.

Definition run (ops : list board_op) (st : BulletinBoard * rng) : BulletinBoard * rng :=
foldl step st ops.
End runs.

(** Ballots appear once among the entries and are all recorded in
  [published_ballots]. *)
Definition board_inv (bb : BulletinBoard) : Prop :=
NoDup (map ballot_id (entries bb)) ∧
∀ e, e ∈ entries bb → is_Some (published_ballots bb !! ballot_id e).

End BoardRuns.

(** ** Sample data *)

Module Demo.

(** Two candidates, two ballots. *)
Definition generator : App.Mixnet.MixnetGenerator :=
{| App.Mixnet.candidates := ["A"; "B"];
   App.Mixnet.num_ballots := 2;
   App.Mixnet.tables := None |}.

(** A measurement tape whose first sixteen bits read A1F0. *)
Definition tape : list bool :=
[true; false; true; false;  false; false; false; true;
 true; true; true; true;    false; false; false; false].

(** A blank ballot of quantegrity_app.py with two choices. *)
Definition ballot : App.ScantegrityBallot :=
{| App.ballot_id := "ballot_000000";
   App.contest_name := "Main Election";
   App.choices :=
     [ {| App.candidate_name := "A"; App.candidate_id := "A";
          App.confirmation_code := "1A2B"; App.position := 0 |};
       {| App.candidate_name := "B"; App.candidate_id := "B";
          App.confirmation_code := "3C4D"; App.position := 1 |} ];
   App.status := App.BLANK;
   App.voter_receipt := None;
   App.timestamp := None;
   App.quantum_signature := None |}.

(** 192 zero bits, then ones: the entry id and the signature key drawn by a
  post read zeros, the next signature key reads ones. *)
Definition tape_zeros_then_ones : list bool :=
(repeat false 192 ++ repeat true 128)%list.

(** Measurements for two ballots of two candidates whose first and fourth
  drawn codes both read A1F0 (the codes read A1F0, 3C4D, 5E6F, A1F0). *)
Definition tape_colliding : list bool :=
[true; false; true; false;
 false; false; false; true;
 true; true; true; true;
 false; false; false; false;
 false; false; true; true;
 true; true; false; false;
 false; true; false; false;
 true; true; false; true;
 false; true; false; true;
 true; true; true; false;
 false; true; true; false;
 true; true; true; true;
 true; false; true; false;
 false; false; false; true;
 true; true; true; true;
 false; false; false; false].

(** Measurements for a pool of one ballot: the ballot id 101010101010, then
  twice the code 1010000111110000. *)
Definition tape_pool : list bool :=
[true; false; true; false; true; false; true; false; true; false; true; false;
 true; false; true; false; false; false; false; true; true; true; true; true; false; false; false; false;
 true; false; true; false; false; false; false; true; true; true; true; true; false; false; false; false].

(** An empty store of shared_state.py. *)
Definition empty_state : SharedState.State :=
{| SharedState.voters := ∅; SharedState.ballots := ∅;
   SharedState.ballot_pools := ∅; SharedState.bulletin_board := PyDict.empty;
   SharedState.last_updated := "" |}.

Definition vote_entry : SharedState.BulletinEntry :=
{| SharedState.entry_id := "e1"; SharedState.e_ballot_id := "101010101010";
   SharedState.e_confirmation_codes := ["0000111100001111"];
   SharedState.entry_type := "vote"; SharedState.timestamp := "t1";
   SharedState.e_signature := "quantum_sig_e1";
   SharedState.quantum_proof := "SEDJO_proof_e1" |}.

Definition spoiled_entry : SharedState.BulletinEntry :=
{| SharedState.entry_id := "e2"; SharedState.e_ballot_id := "101010101010";
   SharedState.e_confirmation_codes := ["0000111100001111"; "1111000011110000"];
   SharedState.entry_type := "spoiled"; SharedState.timestamp := "t2";
   SharedState.e_signature := "spoiled_sig_e2";
   SharedState.quantum_proof := "SPOIL_proof_e2" |}.

(** A one-ballot system of Scantegrity_simplified.py. *)
Definition simple_ballot : Simplified.Ballot :=
{| Simplified.ballot_id := "0001";
   Simplified.questions := [("Mayor", ["Alice"; "Bob"])];
   Simplified.codes := [("Mayor", [("Alice", "X1Y"); ("Bob", "Q7Z")])];
   Simplified.marked_options := PyDict.empty;
   Simplified.status := Simplified.NotCast |}.

Definition simple_system : Simplified.ElectionSystem :=
{| Simplified.num_voters := 1;
   Simplified.es_questions := [("Mayor", ["Alice"; "Bob"])];
   Simplified.ballots := [simple_ballot];
   Simplified.table_q := [("0001", [("Mayor", ["Q7Z"; "X1Y"])])];
   Simplified.table_s := {[ "Mayor" := {[ "Alice" := ∅; "Bob" := ∅ ]} ]};
   Simplified.tables_r :=
     [ [ {| Simplified.flag := false;
            Simplified.q_pointer := ("0001", "Mayor", 1);
            Simplified.s_pointer := ("Mayor", "Bob") |};
         {| Simplified.flag := false;
            Simplified.q_pointer := ("0001", "Mayor", 0);
            Simplified.s_pointer := ("Mayor", "Alice") |} ] ];
   Simplified.cast_votes := [];
   Simplified.audited_ballots := [];
   Simplified.spoiled_ballots := [] |}.

End Demo.

(** ** quantum_core.py: candidate encryption and the operations log *)

Module CoreExtra.
Import PyStr.

(** [s.lstrip('0')] *)
Fixpoint lstrip0 (s : string) : string :=
  match s with
  | String c rest => if Ascii.eqb c "0" then lstrip0 rest else s
  | EmptyString => EmptyString
  end.

(** The [candidate_map] of [encrypt_candidate_vote]. *)
Definition encrypt_map : PyDict.t string :=
  [("Candidate A", "0001"); ("Candidate B", "0010");
   ("Candidate C", "0011"); ("Candidate D", "0100");
   ("Alice", "0001"); ("Bob", "0010"); ("Carl", "0011"); ("Diana", "0100")].

(** The [candidate_map] of [decrypt_candidate_vote]. *)
Definition decrypt_map : PyDict.t string :=
  [("0001", "Candidate A"); ("0010", "Candidate B");
   ("0011", "Candidate C"); ("0100", "Candidate D");
   ("Alice", "0001"); ("Bob", "0010"); ("Carl", "0011"); ("Diana", "0100")].

(** The module defines neither [string_to_binary] nor [binary_to_string]:
    calling one raises NameError, rendered here as an [Exception] carrying
    Python's message. *)
Definition name_error (name : string) : exn :=
  Exception ("name '" ++ name ++ "' is not defined").

Definition encrypt_candidate_vote (candidate vq_k1 : string) : result string :=
  match PyDict.get encrypt_map candidate with
  | Some b => QuantumCore.binary_xor (zfill b 16) vq_k1
  | None => Raise (name_error "string_to_binary")
  end.

(** The call of [binary_to_string] sits in a [try] whose bare [except]
    returns the decrypted bits. *)
Definition decrypt_candidate_vote (encrypted_vote vq_k1 : string) : result string :=
  decrypted_binary ← QuantumCore.binary_xor encrypted_vote vq_k1;
  let clean_binary := zfill (lstrip0 decrypted_binary) 4 in
  match PyDict.get decrypt_map clean_binary with
  | Some name => Ok name
  | None => Ok decrypted_binary
  end.

(** The name [decrypt_candidate_vote] gives back for a listed candidate. *)
Definition canonical_name (candidate : string) : option string :=
  b ← PyDict.get encrypt_map candidate; PyDict.get decrypt_map b.

Section log.
(** [props] stands for the dictionary of random floating-point figures
    that [simulate_quantum_process_visualization] attaches to an entry. *)
Context {props : Type}.

Record LogEntry : Type := {
  timestamp : N;
  operation : string;
  inputs : PyDict.t string;
  outputs : PyDict.t string;
  metadata : PyDict.t string;
  quantum_properties : props
}.

(** [log_quantum_operation]: the global [quantum_log] is passed and
    returned; [now] is [time.time()], [qp] the drawn figures. *)
Definition log_quantum_operation (quantum_log : list LogEntry)
    (op : string) (ins outs : PyDict.t string) (meta : option (PyDict.t string))
    (now : N) (qp : props) : list LogEntry :=
  let log_entry :=
    {| timestamp := now; operation := op; inputs := ins; outputs := outs;
       metadata := default PyDict.empty meta; quantum_properties := qp |} in
  let quantum_log := (quantum_log ++ [log_entry])%list in
  if 50 <? List.length quantum_log
  then drop (List.length quantum_log - 50) quantum_log
  else quantum_log.

Definition clear_quantum_log (quantum_log : list LogEntry) : list LogEntry := [].

(** One call of [log_quantum_operation], by its arguments. *)
Definition log_call : Type :=
  string * PyDict.t string * PyDict.t string * option (PyDict.t string) * N * props.

Definition entry_of (c : log_call) : LogEntry :=
  let '(op, ins, outs, meta, now, qp) := c in
  {| timestamp := now; operation := op; inputs := ins; outputs := outs;
     metadata := default PyDict.empty meta; quantum_properties := qp |}.

Definition log_calls (quantum_log : list LogEntry) (cs : list log_call)
  : list LogEntry :=
  foldl (fun l c => let '(op, ins, outs, meta, now, qp) := c in
                    log_quantum_operation l op ins outs meta now qp)
        quantum_log cs.
End log.
Arguments LogEntry : clear implicits.
Arguments log_call : clear implicits.

End CoreExtra.

(** ** quantegrity_app.py: identifiers *)

Module AppExtra.
Import PyStr.

(** An upper-case hexadecimal digit. *)
Definition is_hex_digit (c : ascii) : bool :=
  let n := N_of_ascii c in
  (((48 <=? n) && (n <=? 57)) || ((65 <=? n) && (n <=? 70)))%N.

Fixpoint all_hex (s : string) : bool :=
  match s with
  | EmptyString => true
  | String c rest => is_hex_digit c && all_hex rest
  end.

Section ids.
Context {rng : Type} `{Quantum rng}.

(** [generate_voter_id(name, national_id, biometric_signature)] *)
Definition generate_voter_id (name national_id biometric_signature : string)
    (s : rng) : result string * rng :=
  let seed_data := name ++ national_id ++ biometric_signature in
  let (random_key, s') := App.generate_qrng_string 16 s in
  let seed_16 := App.ljust0 (substring 0 16 seed_data) 16 in
  (voter_id ← App.xor_encrypt seed_16 random_key;
   Ok (substring 0 16 (App.hex_of_string voter_id)), s').
End ids.

End AppExtra.

(** ** Counting in the mixnet tables *)

Module MixnetExtra.
Import App.Mixnet.

(** The rows of table R of one candidate, in table order. *)
Definition cand_rows (cand : string) (tr : list REntry) : list REntry :=
  List.filter (fun e => String.eqb (candidate e) cand) tr.

(** The number of flagged rows of one candidate. *)
Definition flagged_rows (cand : string) (tr : list REntry) : nat :=
  List.length (List.filter flag (cand_rows cand tr)).

(** Table S holds, per candidate, the flags of the candidate's rows. *)
Definition columns_ok (tr : list REntry) (ts : gmap string (list bool)) : Prop :=
  ∀ cand flags, ts !! cand = Some flags → flags = map flag (cand_rows cand tr).

(** The S pointer of a row is the number of earlier rows of its candidate. *)
Definition pointers_ok (tr : list REntry) : Prop :=
  ∀ i e, tr !! i = Some e →
    snd (s_pointer e) = List.length (cand_rows (candidate e) (take i tr)).

End MixnetExtra.

(** ** The index of the bulletin board *)

Module BoardExtra.
Import App.Board.

(** [published_ballots] and [entries] tell the same story. *)
Definition index_agrees (bb : BulletinBoard) : Prop :=
  ∀ bid ty, published_ballots bb !! bid = Some ty ↔
            ∃ e, e ∈ entries bb ∧ ballot_id e = bid ∧ entry_type e = ty.

End BoardExtra.

(** ** shared_state.py: allocation of ballots *)

Module SharedExtra.
Import SharedState.

Definition set_allocated (b : Ballot) (vid now : string) : Ballot :=
  {| ballot_id := ballot_id b; b_voter_id := vid;
     election_id := election_id b; confirmation_codes := confirmation_codes b;
     is_cast := is_cast b; is_spoiled := is_spoiled b; is_allocated := true;
     selected_candidate := selected_candidate b;
     encrypted_vote := encrypted_vote b; cast_time := cast_time b;
     allocation_time := now |}.

(** The scan of [allocate_ballot_from_pool] for the first unallocated
    ballot: the pool with that ballot allocated, and the ballot. *)
Fixpoint allocate_first (ballot_pool : list Ballot) (vid now : string)
  : option (list Ballot * Ballot) :=
  match ballot_pool with
  | [] => None
  | ballot_data :: rest =>
      if negb (is_allocated ballot_data) then
        let ballot := set_allocated ballot_data vid now in
        Some (ballot :: rest, ballot)
      else
        match allocate_first rest vid now with
        | Some (rest', ballot) => Some (ballot_data :: rest', ballot)
        | None => None
        end
  end.

(** [SharedState.allocate_ballot_from_pool]; [now] is
    [datetime.now().isoformat()]. *)
Definition allocate_ballot_from_pool (st : State) (vid eid now : string)
  : State * option Ballot :=
  match ballot_pools st !! eid with
  | Some ballot_pool =>
      match allocate_first ballot_pool vid now with
      | Some (ballot_pool', ballot) =>
          (_save_data
             {| voters := voters st;
                ballots := <[ballot_id ballot := ballot]> (ballots st);
                ballot_pools := <[eid := ballot_pool']> (ballot_pools st);
                bulletin_board := bulletin_board st;
                last_updated := last_updated st |} now,
           Some ballot)
      | None => (st, None)
      end
  | None => (st, None)
  end.

(** Allocation for each voter of [vids] in turn; what each call returned. *)
Fixpoint allocations (st : State) (eid now : string) (vids : list string)
  : State * list (option Ballot) :=
  match vids with
  | [] => (st, [])
  | vid :: vids' =>
      let (st1, r) := allocate_ballot_from_pool st vid eid now in
      let (st2, rs) := allocations st1 eid now vids' in
      (st2, r :: rs)
  end.

(** The number of ballots of a pool not yet allocated. *)
Definition free_ballots (ballot_pool : list Ballot) : nat :=
  List.length (List.filter (fun b => negb (is_allocated b)) ballot_pool).

(** Whether a call of [allocate_ballot_from_pool] handed out a ballot. *)
Definition served (r : option Ballot) : bool :=
  match r with Some _ => true | None => false end.

(** What a ballot of a freshly created pool looks like. *)
Definition fresh_ballot (eid : string) (cands : list string) (b : Ballot) : Prop :=
  is_allocated b = false ∧ is_cast b = false ∧ is_spoiled b = false ∧
  election_id b = eid ∧ b_voter_id b = "" ∧
  String.length (ballot_id b) = 12 ∧ PyStr.all_in_01 (ballot_id b) = true ∧
  ∀ cand, cand ∈ cands →
    ∃ c, PyDict.get (confirmation_codes b) cand = Some c ∧
         String.length c = 16 ∧ PyStr.all_in_01 c = true.

End SharedExtra.

(** ** shared_state.py: registration, device verification, authentication *)

Module VoterFlow.
Import SharedState.

(** [voter.device_status = status; voter.device_info = di] *)
Definition set_device (v : Voter) (status : string) (di : DeviceInfo) : Voter :=
  {| voter_id := voter_id v; name := name v; national_id := national_id v;
     quantum_keys := quantum_keys v; biometric_data := biometric_data v;
     device_info := di; is_registered := is_registered v;
     device_status := status; auth_status := auth_status v;
     vote_status := vote_status v; vote_receipt := vote_receipt v;
     v_registration_time := v_registration_time v;
     last_login_time := last_login_time v; auth_otp := auth_otp v;
     auth_encrypted_otp := auth_encrypted_otp v |}.

(** The device record after [request_device_verification]. *)
Definition requested_device (di : DeviceInfo) (fp now : string) : DeviceInfo :=
  {| device_id := device_id di; device_fingerprint := fp;
     registration_time := now; verification_otp := verification_otp di;
     encrypted_otp := encrypted_otp di; is_verified := is_verified di |}.

(** The device record after [approve_device_verification]. *)
Definition approved_device (di : DeviceInfo) (otp enc : string) : DeviceInfo :=
  {| device_id := device_id di; device_fingerprint := device_fingerprint di;
     registration_time := registration_time di; verification_otp := otp;
     encrypted_otp := enc; is_verified := is_verified di |}.

(** The device record after [verify_device_with_otp]. *)
Definition verified_device (di : DeviceInfo) : DeviceInfo :=
  {| device_id := device_id di; device_fingerprint := device_fingerprint di;
     registration_time := registration_time di;
     verification_otp := verification_otp di;
     encrypted_otp := encrypted_otp di; is_verified := true |}.

(** The voter after a successful [perform_biometric_authentication]. *)
Definition authenticated_voter (v : Voter) (alice_aq_k1 bob_aq_k1 now : string)
  : Voter :=
  let k := quantum_keys v in
  let di := device_info v in
  {| voter_id := voter_id v; name := name v; national_id := national_id v;
     quantum_keys :=
       {| q_k1 := q_k1 k; q_k2 := q_k2 k; encrypted_q_k1 := encrypted_q_k1 k;
          aq_k1_alice := alice_aq_k1; aq_k1_bob := bob_aq_k1;
          vq_k1_alice := vq_k1_alice k; vq_k1_bob := vq_k1_bob k |};
     biometric_data := biometric_data v;
     device_info :=
       {| device_id := device_id di; device_fingerprint := device_fingerprint di;
          registration_time := registration_time di; verification_otp := "";
          encrypted_otp := ""; is_verified := is_verified di |};
     is_registered := is_registered v;
     device_status := device_status v; auth_status := "aq_k1_generated";
     vote_status := vote_status v; vote_receipt := vote_receipt v;
     v_registration_time := v_registration_time v;
     last_login_time := now; auth_otp := auth_otp v;
     auth_encrypted_otp := auth_encrypted_otp v |}.

(** quantum_core.py [perform_device_verification_crypto]; the entry it
    appends to [quantum_log] is write-only bookkeeping and is left out. *)
Definition perform_device_verification_crypto (q_k2 otp : string) : result string :=
  QuantumCore.xor_encrypt otp q_k2.

Section devices.
Context {rng : Type} `{Quantum rng}.

(** quantum_core.py [qrng_with_logging], without the log entry. *)
Definition qrng_with_logging (length : nat) (s : rng) : string * rng :=
  QuantumCore.qrng length s.

(** quantum_core.py [generate_registration_keys] *)
Definition generate_registration_keys (s : rng) : (string * string * string) * rng :=
  let (q_k1, s1) := qrng_with_logging 16 s in
  let (q_k2, s2) := qrng_with_logging 16 s1 in
  let (biometric, s3) := qrng_with_logging 16 s2 in
  ((q_k1, q_k2, biometric), s3).

(** [SharedState.register_voter_with_quantum_keys]; [now] stands for the
    readings of the clock during the call.  The [total_voters] statistic
    is not part of [State]. *)
Definition register_voter_with_quantum_keys (st : State)
    (name national_id q_k1 q_k2 biometric now : string) (s : rng)
  : (State * result Voter) * rng :=
  let (voter_id, s') := QuantumCore.generate_voter_id s in
  match QuantumCore.encrypt_q_k1_with_biometric q_k1 biometric with
  | Raise e => ((st, Raise e), s')
  | Ok encrypted_q_k1 =>
      let quantum_keys :=
        {| q_k1 := q_k1; q_k2 := q_k2; encrypted_q_k1 := encrypted_q_k1;
           aq_k1_alice := ""; aq_k1_bob := "";
           vq_k1_alice := ""; vq_k1_bob := "" |} in
      let biometric_data :=
        {| signature := biometric; is_enrolled := true;
           enrollment_time := now |} in
      let device_info :=
        {| device_id := ""; device_fingerprint := ""; registration_time := "";
           verification_otp := ""; encrypted_otp := ""; is_verified := false |} in
      let voter :=
        {| voter_id := voter_id; name := name; national_id := national_id;
           quantum_keys := quantum_keys; biometric_data := biometric_data;
           device_info := device_info; is_registered := true;
           device_status := "not_requested";
           auth_status := "not_authenticated"; vote_status := "not_voted";
           vote_receipt := ""; v_registration_time := now;
           last_login_time := ""; auth_otp := ""; auth_encrypted_otp := "" |} in
      ((update_voter st voter now, Ok voter), s')
  end.

(** [SharedState.request_device_verification] *)
Definition request_device_verification (st : State)
    (voter_id device_fingerprint now : string) : State * bool :=
  match get_voter st voter_id with
  | Some voter =>
      let voter :=
        set_device voter "requested"
          (requested_device (device_info voter) device_fingerprint now) in
      (update_voter st voter now, true)
  | None => (st, false)
  end.

(** [SharedState.approve_device_verification] *)
Definition approve_device_verification (st : State) (voter_id now : string)
    (s : rng) : (State * result (bool * string)) * rng :=
  match get_voter st voter_id with
  | Some voter =>
      if String.eqb (device_status voter) "requested" then
        let (otp, s') := QuantumCore.generate_otp s in
        match perform_device_verification_crypto (q_k2 (quantum_keys voter)) otp with
        | Raise e => ((st, Raise e), s')
        | Ok encrypted_otp =>
            let voter :=
              set_device voter "pending_verification"
                (approved_device (device_info voter) otp encrypted_otp) in
            ((update_voter st voter now, Ok (true, encrypted_otp)), s')
        end
      else ((st, Ok (false, "")), s)
  | None => ((st, Ok (false, "")), s)
  end.

(** [SharedState.verify_device_with_otp] *)
Definition verify_device_with_otp (st : State) (voter_id otp_input now : string)
  : State * bool :=
  match get_voter st voter_id with
  | Some voter =>
      if String.eqb (device_status voter) "pending_verification" then
        if String.eqb otp_input (verification_otp (device_info voter)) then
          let voter :=
            set_device voter "verified" (verified_device (device_info voter)) in
          (update_voter st voter now, true)
        else (st, false)
      else (st, false)
  | None => (st, false)
  end.

(** [SharedState.perform_biometric_authentication] *)
Definition perform_biometric_authentication (st : State)
    (voter_id biometric_input now : string) (s : rng)
  : (State * result (bool * string * string * string)) * rng :=
  match get_voter st voter_id with
  | Some voter =>
      if String.eqb (device_status voter) "verified" then
        if String.eqb biometric_input (signature (biometric_data voter)) then
          match QuantumCore.perform_authentication_crypto
                  (encrypted_q_k1 (quantum_keys voter)) biometric_input s with
          | (Raise e, s') => ((st, Raise e), s')
          | (Ok (decrypted_q_k1, alice_aq_k1, bob_aq_k1), s') =>
              let voter := authenticated_voter voter alice_aq_k1 bob_aq_k1 now in
              ((update_voter st voter now,
                Ok (true, decrypted_q_k1, alice_aq_k1, bob_aq_k1)), s')
          end
        else ((st, Ok (false, "", "", "")), s)
      else ((st, Ok (false, "", "", "")), s)
  | None => ((st, Ok (false, "", "", "")), s)
  end.

End devices.

End VoterFlow.

(** ** Sample voters of shared_state.py *)

Module DemoVoter.
Import SharedState.

(** A registered voter whose device is in state [status] and whose
    device key is [k]. *)
Definition voter (status k : string) : Voter :=
  {| voter_id := "0101010101010101"; name := "Ann"; national_id := "N1";
     quantum_keys :=
       {| q_k1 := "1010110011110000"; q_k2 := k;
          encrypted_q_k1 := "1100011010101100";
          aq_k1_alice := ""; aq_k1_bob := "";
          vq_k1_alice := ""; vq_k1_bob := "" |};
     biometric_data :=
       {| signature := "0110101001011100"; is_enrolled := true;
          enrollment_time := "t0" |};
     device_info :=
       {| device_id := ""; device_fingerprint := "fp"; registration_time := "t0";
          verification_otp := ""; encrypted_otp := ""; is_verified := false |};
     is_registered := true; device_status := status;
     auth_status := "not_authenticated"; vote_status := "not_voted";
     vote_receipt := ""; v_registration_time := "t0"; last_login_time := "";
     auth_otp := ""; auth_encrypted_otp := "" |}.

(** The store holding just that voter. *)
Definition store (status k : string) : State :=
  update_voter Demo.empty_state (voter status k) "t0".

End DemoVoter.

(** ** shared_state.py: casting a vote and counting the board *)

Module Voting.
Import SharedState.

(** The [Election] dataclass. *)
Record Election : Type := {
  el_election_id : string;
  el_name : string;
  candidates : list string;
  is_active : bool;
  creation_time : string;
  ballot_pool_size : nat
}.

(** Python's truth value of a string. *)
Definition nonempty (s : string) : bool :=
  match s with EmptyString => false | String _ _ => true end.

(** The ballot as [cast_encrypted_vote] leaves it. *)
Definition set_cast (b : Ballot) (encrypted_vote now : string) : Ballot :=
  {| ballot_id := ballot_id b; b_voter_id := b_voter_id b;
     election_id := election_id b; confirmation_codes := confirmation_codes b;
     is_cast := true; is_spoiled := is_spoiled b; is_allocated := is_allocated b;
     selected_candidate := "";
     encrypted_vote := encrypted_vote; cast_time := now;
     allocation_time := allocation_time b |}.

(** [voter.vote_receipt = receipt] *)
Definition set_receipt (v : Voter) (receipt : string) : Voter :=
  {| voter_id := voter_id v; name := name v; national_id := national_id v;
     quantum_keys := quantum_keys v; biometric_data := biometric_data v;
     device_info := device_info v; is_registered := is_registered v;
     device_status := device_status v; auth_status := auth_status v;
     vote_status := vote_status v; vote_receipt := receipt;
     v_registration_time := v_registration_time v;
     last_login_time := last_login_time v; auth_otp := auth_otp v;
     auth_encrypted_otp := auth_encrypted_otp v |}.

(** [SharedState.cast_encrypted_vote]; both encryptions run before the
    store is touched, so an exception leaves it as it was.  The log entry
    is left out; [now] stands for the readings of the clock. *)
Definition cast_encrypted_vote (st : State)
    (voter_id ballot_id selected_candidate now : string)
  : State * result (bool * string * string) :=
  match get_voter st voter_id, get_ballot st ballot_id with
  | Some voter, Some ballot =>
      if nonempty (vq_k1_alice (quantum_keys voter)) then
        match CoreExtra.encrypt_candidate_vote selected_candidate
                (vq_k1_alice (quantum_keys voter)) with
        | Raise e => (st, Raise e)
        | Ok encrypted_vote =>
            let confirmation_code :=
              default "" (PyDict.get (confirmation_codes ballot) selected_candidate) in
            match QuantumCore.xor_encrypt confirmation_code
                    (vq_k1_bob (quantum_keys voter)) with
            | Raise e => (st, Raise e)
            | Ok encrypted_confirmation =>
                let ballot := set_cast ballot encrypted_vote now in
                let voter := set_vote_status voter "voted" in
                let st := update_ballot st ballot now in
                let st := update_voter st voter now in
                (st, Ok (true, confirmation_code, encrypted_confirmation))
            end
        end
      else (st, Ok (false, "", ""))
  | _, _ => (st, Ok (false, "", ""))
  end.

(** The bulletin entry the voter portal builds for a cast vote. *)
Definition vote_entry (entry_id ballot_id confirmation_code now : string)
  : BulletinEntry :=
  {| entry_id := entry_id; e_ballot_id := ballot_id;
     e_confirmation_codes := [confirmation_code]; entry_type := "vote";
     timestamp := now; e_signature := "quantum_sig_" ++ entry_id;
     quantum_proof := "SEDJO_proof_" ++ entry_id |}.

(** voter_portal.py, the "Cast Vote" branch of the voting page: the calls
    it makes on the shared state.  [entry_id] is [str(uuid.uuid4())[:8]];
    the result tells whether [cast_encrypted_vote] reported success. *)
Definition cast_vote_submitted (st : State)
    (voter_id ballot_id selected_candidate entry_id now : string)
  : State * result bool :=
  match cast_encrypted_vote st voter_id ballot_id selected_candidate now with
  | (st, Raise e) => (st, Raise e)
  | (st, Ok (false, _, _)) => (st, Ok false)
  | (st, Ok (true, confirmation_code, _)) =>
      match get_voter st voter_id with
      | None =>
          let st := add_bulletin_entry st
                      (vote_entry entry_id ballot_id confirmation_code now) now in
          (st, Raise (Exception "AttributeError"))
      | Some updated_voter =>
          let st := add_bulletin_entry st
                      (vote_entry entry_id ballot_id confirmation_code now) now in
          let st := update_voter st (set_receipt updated_voter entry_id) now in
          (st, Ok true)
      end
  end.

(** [sorted(entries, key=lambda x: x.timestamp)]: a stable sort. *)
Fixpoint insert_by_timestamp (e : BulletinEntry) (l : list BulletinEntry)
  : list BulletinEntry :=
  match l with
  | [] => [e]
  | y :: l' =>
      if String.ltb (timestamp y) (timestamp e)
      then y :: insert_by_timestamp e l'
      else e :: l
  end.

Fixpoint sorted_by_timestamp (l : list BulletinEntry) : list BulletinEntry :=
  match l with
  | [] => []
  | e :: l' => insert_by_timestamp e (sorted_by_timestamp l')
  end.

(** [SharedState.get_all_bulletin_entries] *)
Definition get_all_bulletin_entries (st : State) : list BulletinEntry :=
  sorted_by_timestamp (PyDict.values (bulletin_board st)).

(** The inner loop of [get_election_results]: the first candidate of the
    ballot, in the ballot's order, whose code is among the posted ones. *)
Definition first_posted (codes : PyDict.t string) (posted : list string)
  : option string :=
  match List.find (fun cc : string * string => existsb (String.eqb (snd cc)) posted)
          (PyDict.items codes) with
  | Some (candidate, _) => Some candidate
  | None => None
  end.

(** The body of the loop over the entries in [get_election_results]. *)
Definition count_entry (st : State) (election_id' : string)
    (results : PyDict.t nat) (entry : BulletinEntry) : PyDict.t nat :=
  if String.eqb (entry_type entry) "vote" then
    match get_ballot st (e_ballot_id entry) with
    | Some ballot =>
        if String.eqb (election_id ballot) election_id' then
          match first_posted (confirmation_codes ballot)
                  (e_confirmation_codes entry) with
          | Some candidate =>
              match PyDict.get results candidate with
              | Some n => PyDict.set results candidate (n + 1)
              | None => results
              end
          | None => results
          end
        else results
    | None => results
    end
  else results.

(** [SharedState.get_election_results]; [elections] is
    [self.data["elections"]], which [State] does not carry, as it does not
    carry the [total_votes] statistic written at the end. *)
Definition get_election_results (elections : gmap string Election) (st : State)
    (election_id' now : string) : State * PyDict.t nat :=
  match elections !! election_id' with
  | None => (st, PyDict.empty)
  | Some election =>
      let results :=
        foldl (fun r candidate => PyDict.set r candidate 0) PyDict.empty
              (candidates election) in
      let bulletin_entries := get_all_bulletin_entries st in
      let results := foldl (count_entry st election_id') results bulletin_entries in
      (_save_data st now, results)
  end.

(** The candidate an entry is counted for, if any. *)
Definition counted_for (st : State) (election_id' : string) (entry : BulletinEntry)
  : option string :=
  if String.eqb (entry_type entry) "vote" then
    match get_ballot st (e_ballot_id entry) with
    | Some ballot =>
        if String.eqb (election_id ballot) election_id' then
          first_posted (confirmation_codes ballot) (e_confirmation_codes entry)
        else None
    | None => None
    end
  else None.

(** The number of entries of the board counted for [candidate]. *)
Definition votes_for (st : State) (election_id' candidate : string) : nat :=
  List.length
    (List.filter
       (fun entry => bool_decide (counted_for st election_id' entry = Some candidate))
       (PyDict.values (bulletin_board st))).

End Voting.

(** ** A sample election of shared_state.py *)

Module DemoVoting.
Import SharedState.

(** An authenticated voter holding voting keys. *)
Definition voter : Voter :=
  {| voter_id := "0101010101010101"; name := "Ann"; national_id := "N1";
     quantum_keys :=
       {| q_k1 := "1010110011110000"; q_k2 := "0011001111001100";
          encrypted_q_k1 := "1100011010101100";
          aq_k1_alice := "0101101001011010"; aq_k1_bob := "0101101001011010";
          vq_k1_alice := "1111000011110000"; vq_k1_bob := "1111000011110000" |};
     biometric_data :=
       {| signature := "0110101001011100"; is_enrolled := true;
          enrollment_time := "t0" |};
     device_info :=
       {| device_id := ""; device_fingerprint := "fp"; registration_time := "t0";
          verification_otp := ""; encrypted_otp := ""; is_verified := true |};
     is_registered := true; device_status := "verified";
     auth_status := "authenticated"; vote_status := "not_voted";
     vote_receipt := ""; v_registration_time := "t0"; last_login_time := "t0";
     auth_otp := ""; auth_encrypted_otp := "" |}.

(** A ballot allocated to that voter. *)
Definition ballot : Ballot :=
  {| ballot_id := "101010101010"; b_voter_id := "0101010101010101";
     election_id := "e1";
     confirmation_codes :=
       [("Alice", "0000111100001111"); ("Bob", "1111111100000000")];
     is_cast := false; is_spoiled := false; is_allocated := true;
     selected_candidate := ""; encrypted_vote := ""; cast_time := "";
     allocation_time := "t0" |}.

Definition store : State :=
  update_ballot (update_voter Demo.empty_state voter "t0") ballot "t0".

Definition election : Voting.Election :=
  {| Voting.el_election_id := "e1"; Voting.el_name := "Board";
     Voting.candidates := ["Alice"; "Bob"]; Voting.is_active := true;
     Voting.creation_time := "t0"; Voting.ballot_pool_size := 2 |}.

Definition elections : gmap string Voting.Election := {[ "e1" := election ]}.

End DemoVoting.

(** ** Scantegrity_simplified.py: reading table S *)

Module SimplifiedExtra.
Import Simplified.

(** [table_s[question][option]], empty where the table has no such
    place. *)
Definition codes_at (ts : gmap string (gmap string (gset string)))
    (question opt : string) : gset string :=
  default ∅ (ts !! question ≫= (fun per_option => per_option !! opt)).

(** [get_tally()[question][option]], 0 where the tally has no such
    place. *)
Definition votes (es : ElectionSystem) (question opt : string) : nat :=
  default 0 (get_tally es !! question ≫= (fun per_option => per_option !! opt)).

(** Table [ts'] is [ts] with at most the code [c] added at
    [(question, opt)]. *)
Definition adds_code (ts ts' : gmap string (gmap string (gset string)))
    (question opt c : string) : Prop :=
  ∀ question' opt',
    codes_at ts' question' opt' = codes_at ts question' opt' ∨
    (question' = question ∧ opt' = opt ∧
     codes_at ts' question' opt' = {[c]} ∪ codes_at ts question' opt').

End SimplifiedExtra.

(** ** voter_portal.py: spoiling a ballot *)

Module Spoiling.
Import SharedState.

(** The bulletin entry the voter portal builds for a spoiled ballot. *)
Definition spoiled_entry (entry_id ballot_id : string)
    (all_codes_list : list string) (now : string) : BulletinEntry :=
  {| entry_id := entry_id; e_ballot_id := ballot_id;
     e_confirmation_codes := all_codes_list; entry_type := "spoiled";
     timestamp := now; e_signature := "spoiled_sig_" ++ entry_id;
     quantum_proof := "SPOIL_proof_" ++ entry_id |}.

(** The "Spoil Ballot" branch of the voting page: the calls it makes on
    the shared state.  [entry_id] is [str(uuid.uuid4())[:8]]; the result
    tells whether [spoil_ballot] reported success. *)
Definition spoil_submitted (st : State) (voter_id ballot_id entry_id now : string)
  : State * result bool :=
  match spoil_ballot st voter_id ballot_id now with
  | (st, (false, _)) => (st, Ok false)
  | (st, (true, all_codes)) =>
      let all_codes_list := PyDict.values all_codes in
      let bulletin_entry := spoiled_entry entry_id ballot_id all_codes_list now in
      match get_voter st voter_id with
      | None =>
          (add_bulletin_entry st bulletin_entry now,
           Raise (Exception "AttributeError"))
      | Some updated_voter =>
          let st := add_bulletin_entry st bulletin_entry now in
          let st := update_voter st (Voting.set_receipt updated_voter entry_id) now in
          (st, Ok true)
      end
  end.

End Spoiling.

(** ** quantegrity_app.py on strings of any code points

    A Python string is a sequence of code points from 0 to 0x10FFFF.  The
    strings of [App] are those whose code points are below 256; here the
    character-level functions are given on all strings, where [chr] can
    fail and a character can take more than two hexadecimal digits. *)

Module AppText.

(** A string as the list of its code points. *)
Definition text : Type := list N.

(** The largest code point, 0x10FFFF. *)
Definition max_code_point : N := 1114111.

(** Every element is a code point, as in every Python string. *)
Definition is_text (t : text) : Prop :=
  Forall (fun c => (c <= max_code_point)%N) t.

(** The code points of a string of [App]. *)
Fixpoint of_string (s : string) : text :=
  match s with
  | EmptyString => []
  | String c s' => N_of_ascii c :: of_string s'
  end.

(** [chr(n)] *)
Definition chr (n : N) : result N :=
  if (n <=? max_code_point)%N then Ok n
  else Raise (ValueError "chr() arg not in range(0x110000)").

(** [key * n] *)
Fixpoint text_repeat (key : text) (n : nat) : text :=
  match n with
  | O => []
  | S n' => (key ++ text_repeat key n')%list
  end.

(** The loop [result += chr(ord(data[i]) ^ ord(key[i]))] over
    [range(len(data))]: indexing past the end of [key] raises, and so does
    [chr] on a value above 0x10FFFF. *)
Fixpoint xor_chars (data key : text) : result text :=
  match data with
  | [] => Ok []
  | d :: data' =>
      match key with
      | [] => Raise IndexError
      | k :: key' =>
          encrypted_char ← chr (N.lxor d k);
          r ← xor_chars data' key';
          Ok (encrypted_char :: r)
      end
  end.

(** The key as [xor_encrypt] fits it to data of length [ld]: repeated when
    shorter, cut when longer. *)
Definition fit_key (ld : nat) (key : text) : result text :=
  let lk := List.length key in
  if (lk <? ld)%nat then
    if (lk =? 0)%nat then Raise ZeroDivisionError
    else Ok (take ld (text_repeat key (ld / lk + 1)))
  else if (ld <? lk)%nat then Ok (take ld key)
  else Ok key.

Definition xor_encrypt (data key : text) : result text :=
  key' ← fit_key (List.length data) key;
  xor_chars data key'.

Definition xor_decrypt (encrypted_data key : text) : result text :=
  xor_encrypt encrypted_data key.

(** [s.ljust(width, '0')] *)
Definition ljust0 (t : text) (width : nat) : text :=
  (t ++ repeat 48%N (width - List.length t))%list.

(** The digits of [f"{n:X}"], most significant first; [fuel] is an upper
    bound on their number. *)
Fixpoint hex_digits (fuel : nat) (n : N) : string :=
  match fuel with
  | O => EmptyString
  | S fuel' =>
      if (n <? 16)%N then App.hex_char n
      else hex_digits fuel' (n / 16) ++ App.hex_char (n mod 16)
  end.

(** [f"{n:02X}"]: at least two digits, padded with '0' on the left. *)
Definition hex02 (n : N) : string :=
  let digits := hex_digits (N.size_nat n + 1) n in
  PyStr.replicate_char (2 - String.length digits) "0" ++ digits.

Fixpoint hex_of_text (t : text) : string :=
  match t with
  | [] => EmptyString
  | c :: t' => hex02 c ++ hex_of_text t'
  end.

Section machine.
Context {rng : Type} `{Quantum rng}.

(** [generate_signature(data)] *)
Definition generate_signature (data : text) (s : rng)
  : result string * rng :=
  let (sig_key, s') := App.generate_qrng_string 32 s in
  let data_32 := ljust0 (take 32 data) 32 in
  (signature ← xor_encrypt data_32 (of_string sig_key);
   Ok (hex_of_text signature), s').
End machine.

End AppText.

(** * Properties *)

Example binary_xor_ex1 : QuantumCore.binary_xor "1010" "0110" = Ok "1100".
Proof. vm_compute. reflexivity. Qed.

Example binary_xor_ex2 : QuantumCore.binary_xor "1" "10" = Ok "11".
Proof. vm_compute. reflexivity. Qed.

Example binary_xor_ex3 : QuantumCore.binary_xor "7" "9" = Ok "14".
Proof. vm_compute. reflexivity. Qed.

(** ** Facts about binary strings *)

Section binary_strings.
Import PyStr XorRef.

Lemma bit_cases (c : ascii) :
  (Ascii.eqb c "0" || Ascii.eqb c "1")%bool = true → c = "0"%char ∨ c = "1"%char.
Proof.
  intros Hc. apply orb_true_iff in Hc as [Hc | Hc];
    apply Ascii.eqb_eq in Hc; auto.
Qed.

Lemma all_in_01_cons c s :
  all_in_01 (String c s) = true ↔
  (c = "0"%char ∨ c = "1"%char) ∧ all_in_01 s = true.
Proof.
  simpl. rewrite andb_true_iff. split.
  - intros [Hc Hs]. split; [by apply bit_cases | done].
  - intros [[-> | ->] Hs]; by rewrite Hs.
Qed.

Lemma append_cons c (a b : string) : String c a ++ b = String c (a ++ b).
Proof. reflexivity. Qed.

Lemma append_empty_r (a : string) : a ++ "" = a.
Proof. induction a as [| c a IH]; [done | by rewrite append_cons, IH]. Qed.

Lemma length_replicate_char n c : String.length (replicate_char n c) = n.
Proof. induction n as [| n IH]; simpl; [done | by rewrite IH]. Qed.

Lemma all_in_01_replicate_zero n : all_in_01 (replicate_char n "0") = true.
Proof. induction n; simpl; auto. Qed.

Lemma string_length_app (a b : string) :
  String.length (a ++ b) = String.length a + String.length b.
Proof. induction a as [| c a IH]; simpl; [done | by rewrite IH]. Qed.

Lemma all_in_01_app (a b : string) :
  all_in_01 (a ++ b) = (all_in_01 a && all_in_01 b)%bool.
Proof. induction a; simpl; [done | by rewrite IHa, andb_assoc]. Qed.

(** On bit strings the sign rule of [zfill] never applies. *)
Lemma zfill_binary s width :
  all_in_01 s = true → zfill s width = pad0 width s.
Proof.
  intros Hs. unfold zfill, pad0.
  destruct (Nat.leb_spec width (String.length s)) as [Hle | Hlt].
  - replace (width - String.length s) with 0 by lia. done.
  - destruct s as [| c rest]; simpl.
    + by rewrite Nat.sub_0_r, append_empty_r.
    + apply all_in_01_cons in Hs as [[-> | ->] _]; done.
Qed.

Lemma pad0_length width s :
  String.length (pad0 width s) = Nat.max width (String.length s).
Proof. unfold pad0. rewrite string_length_app, length_replicate_char. lia. Qed.

Lemma pad0_binary width s : all_in_01 s = true → all_in_01 (pad0 width s) = true.
Proof.
  intros Hs. unfold pad0. by rewrite all_in_01_app, all_in_01_replicate_zero, Hs.
Qed.

Lemma pad0_id (width : nat) (s : string) :
  (width <= String.length s)%nat → pad0 width s = s.
Proof. intros Hle. unfold pad0. by replace (width - String.length s) with 0 by lia. Qed.

(** The comprehension of [binary_xor] computes the position-wise
    exclusive or on bit strings of one length. *)
Lemma xor_zip_bits a b :
  all_in_01 a = true → all_in_01 b = true →
  String.length a = String.length b →
  QuantumCore.xor_zip a b = Ok (xor_bits a b).
Proof.
  revert b. induction a as [| x a IH]; intros [| y b] Ha Hb Hlen;
    simpl in Hlen; try done.
  apply all_in_01_cons in Ha as [Hx Ha].
  apply all_in_01_cons in Hb as [Hy Hb].
  injection Hlen as Hlen.
  cbn [QuantumCore.xor_zip xor_bits].
  rewrite (IH b Ha Hb Hlen).
  destruct Hx as [-> | ->], Hy as [-> | ->]; reflexivity.
Qed.

Lemma xor_bits_length a b :
  String.length a = String.length b →
  String.length (xor_bits a b) = String.length a.
Proof.
  revert b. induction a as [| x a IH]; intros [| y b] Hlen; simpl in *; try done.
  injection Hlen as Hlen. by rewrite IH.
Qed.

Lemma xor_bits_binary a b : all_in_01 (xor_bits a b) = true.
Proof.
  revert b. induction a as [| x a IH]; intros [| y b]; simpl; try done.
  rewrite IH. unfold xor_bit. by destruct (Ascii.eqb x y).
Qed.

Lemma xor_bits_involutive a b :
  all_in_01 a = true → all_in_01 b = true →
  String.length a = String.length b →
  xor_bits (xor_bits a b) b = a.
Proof.
  revert b. induction a as [| x a IH]; intros [| y b] Ha Hb Hlen;
    simpl in Hlen; try done.
  apply all_in_01_cons in Ha as [Hx Ha].
  apply all_in_01_cons in Hb as [Hy Hb].
  injection Hlen as Hlen. simpl. rewrite (IH b Ha Hb Hlen).
  destruct Hx as [-> | ->], Hy as [-> | ->]; reflexivity.
Qed.

(** [binary_xor] on bit strings: both operands are padded to the longer
    length and combined position-wise. *)
Lemma binary_xor_bits a b :
  all_in_01 a = true → all_in_01 b = true →
  let n := Nat.max (String.length a) (String.length b) in
  QuantumCore.binary_xor a b = Ok (xor_bits (pad0 n a) (pad0 n b)).
Proof.
  intros Ha Hb n. unfold QuantumCore.binary_xor. fold n.
  rewrite !zfill_binary by done.
  apply xor_zip_bits; [by apply pad0_binary | by apply pad0_binary |].
  rewrite !pad0_length. lia.
Qed.

End binary_strings.

(** ** quantum_core.py: XOR encryption *)

Section xor_encryption.
Import PyStr XorRef.

Lemma xor_encrypt_binary a b :
  all_in_01 a = true → all_in_01 b = true →
  QuantumCore.xor_encrypt a b = QuantumCore.binary_xor a b.
Proof. intros Ha Hb. unfold QuantumCore.xor_encrypt. by rewrite Ha, Hb. Qed.

Lemma xor_decrypt_binary a b :
  all_in_01 a = true → all_in_01 b = true →
  QuantumCore.xor_decrypt a b = QuantumCore.binary_xor a b.
Proof. intros Ha Hb. unfold QuantumCore.xor_decrypt. by rewrite Ha, Hb. Qed.

Lemma binary_xor_equal_length a b :
  all_in_01 a = true → all_in_01 b = true →
  String.length a = String.length b →
  QuantumCore.binary_xor a b = Ok (xor_bits a b).
Proof.
  intros Ha Hb Hlen. rewrite binary_xor_bits by done. simpl.
  rewrite !pad0_id by lia. done.
Qed.
End xor_encryption.

(** ** quantegrity_app.py: character-level XOR *)

Section app_xor.
Import PyStr.

Lemma length_substring_0 m (s : string) :
  String.length (substring 0 m s) = Nat.min m (String.length s).
Proof.
  revert s. induction m as [| m IH]; intros [| c s]; simpl; try done.
  by rewrite IH.
Qed.

Lemma length_str_repeat key n :
  String.length (App.str_repeat key n) = n * String.length key.
Proof.
  induction n as [| n IH]; simpl; [done |].
  by rewrite string_length_app, IH.
Qed.

Lemma xor_chars_total data key :
  String.length data ≤ String.length key →
  ∃ r, App.xor_chars data key = Ok r ∧ String.length r = String.length data.
Proof.
  revert key. induction data as [| d data IH]; intros key Hlen; simpl.
  - eauto.
  - destruct key as [| k key]; simpl in Hlen; [lia |].
    destruct (IH key) as (r & -> & Hr); [lia |]. simpl. eexists. split; [done |].
    simpl. by rewrite Hr.
Qed.

(** The helper of quantegrity_app.py repeats or cuts the key to the length
    of the data: it returns a string as long as the data for every
    non-empty key, and divides by zero on an empty key with non-empty
    data. *)
Lemma app_xor_encrypt_total data key :
  (key ≠ "" →
   ∃ r, App.xor_encrypt data key = Ok r ∧ String.length r = String.length data) ∧
  (key = "" → data ≠ "" → App.xor_encrypt data key = Raise ZeroDivisionError).
Proof.
  split.
  - intros Hkey. unfold App.xor_encrypt.
    assert (Hlk : 0 < String.length key) by (destruct key; simpl; [done | lia]).
    destruct (Nat.ltb_spec (String.length key) (String.length data)) as [Hlt | Hge].
    + destruct (Nat.eqb_spec (String.length key) 0) as [H0 | _]; [lia |]. simpl.
      apply xor_chars_total. rewrite length_substring_0, length_str_repeat.
      pose proof (Nat.div_mod_eq (String.length data) (String.length key)).
      pose proof (Nat.mod_upper_bound (String.length data) (String.length key)).
      nia.
    + destruct (Nat.ltb_spec (String.length data) (String.length key)) as [Hlt | Hge'];
        simpl; apply xor_chars_total.
      * rewrite length_substring_0. lia.
      * lia.
  - intros -> Hdata. unfold App.xor_encrypt. destruct data; [done |]. reflexivity.
Qed.

End app_xor.

(** C10. XOR encryption round-trips: for equal-length binary strings [x] and
    [k], encrypting [x] with [k] succeeds and decrypting the ciphertext with
    [k] gives back exactly [x]. *)
Theorem xor_round_trip (x k : string) :
  PyStr.all_in_01 x = true → PyStr.all_in_01 k = true →
  String.length x = String.length k →
  ∃ c, QuantumCore.xor_encrypt x k = Ok c ∧ QuantumCore.xor_decrypt c k = Ok x.
Proof.
  intros Hx Hk Hlen. exists (XorRef.xor_bits x k). split.
  - rewrite xor_encrypt_binary by done. by apply binary_xor_equal_length.
  - rewrite xor_decrypt_binary by (done || apply xor_bits_binary).
    rewrite binary_xor_equal_length.
    + by rewrite xor_bits_involutive.
    + apply xor_bits_binary.
    + done.
    + by rewrite xor_bits_length.
Qed.

Lemma xor_round_trip_witness :
  ∃ c, QuantumCore.xor_encrypt "1010110011110000" "0110101001011100" = Ok c ∧
       QuantumCore.xor_decrypt c "0110101001011100" = Ok "1010110011110000".
Proof.
  apply (xor_round_trip "1010110011110000" "0110101001011100"); reflexivity.
Defined.

(** C9, as quantum_core.py has it. Its XOR helpers [binary_xor],
    [xor_encrypt] and [xor_decrypt] accept binary strings of any two
    lengths: the shorter operand is left-padded with '0' to the longer length
    and the position-wise exclusive or of the padded operands, of that longer
    length, is returned; no error is raised. *)
Theorem xor_pads_shorter_operand (a b : string) :
  PyStr.all_in_01 a = true → PyStr.all_in_01 b = true →
  let n := Nat.max (String.length a) (String.length b) in
  let r := XorRef.xor_bits (XorRef.pad0 n a) (XorRef.pad0 n b) in
  QuantumCore.binary_xor a b = Ok r ∧
  QuantumCore.xor_encrypt a b = Ok r ∧
  QuantumCore.xor_decrypt a b = Ok r ∧
  String.length r = n.
Proof.
  intros Ha Hb n r.
  rewrite xor_encrypt_binary, xor_decrypt_binary by done.
  rewrite (binary_xor_bits a b Ha Hb). fold n r. repeat split.
  unfold r. rewrite xor_bits_length; rewrite !pad0_length; lia.
Qed.

Lemma xor_pads_shorter_operand_witness :
  QuantumCore.binary_xor "1" "10" = Ok "11" ∧
  QuantumCore.xor_encrypt "1" "10" = Ok "11" ∧
  QuantumCore.xor_decrypt "1" "10" = Ok "11" ∧
  String.length "11" = 2.
Proof.
  apply (xor_pads_shorter_operand "1" "10"); reflexivity.
Defined.

(** C9, as stated, fails: the operands "1" and "10" are binary strings of
    different lengths and every XOR helper returns a result on them. *)
Lemma xor_unequal_lengths_not_rejected :
  PyStr.all_in_01 "1" = true ∧ PyStr.all_in_01 "10" = true ∧
  String.length "1" ≠ String.length "10" ∧
  QuantumCore.binary_xor "1" "10" = Ok "11" ∧
  QuantumCore.xor_encrypt "1" "10" = Ok "11" ∧
  is_ok (App.xor_encrypt "1" "10") = true.
Proof. repeat split; try reflexivity. simpl. lia. Qed.

(** ** quantum_core.py: key derivation *)

Section key_agreement.
Context {rng : Type} `{Quantum rng}.

Lemma qrng_bits_length n (s : rng) : List.length (fst (Qrng.qrng_bits n s)) = n.
Proof.
  revert s. induction n as [| n IH]; intros s; simpl; [done |].
  destruct (next_bit s) as [b s1]. specialize (IH s1).
  destruct (Qrng.qrng_bits n s1) as [bs s2]. simpl in *. by rewrite IH.
Qed.

Lemma bitstring_length (bs : list bool) :
  String.length (Qrng.bitstring bs) = List.length bs.
Proof. induction bs as [| b bs IH]; simpl; [done | by rewrite IH]. Qed.

Lemma oracle_differs_same k :
  QuantumCore.oracle_differs k k = repeat false (String.length k).
Proof.
  induction k as [| c k IH]; simpl; [done |]. by rewrite xorb_nilpotent, IH.
Qed.

Lemma zip_with_xorb_false (bs : list bool) n :
  List.length bs = n → zip_with xorb bs (repeat false n) = bs.
Proof.
  revert n. induction bs as [| b bs IH]; intros [| n]; simpl; try done.
  intros [= Hn]. by rewrite xorb_false_r, IH.
Qed.

(** On one key given twice the two shares are the same measured bits. *)
Lemma sedjo_identical k (s : rng) :
  k ≠ "" →
  QuantumCore.sedjo k k s =
  (Ok (Qrng.bitstring (fst (Qrng.qrng_bits (String.length k) s)),
       Qrng.bitstring (fst (Qrng.qrng_bits (String.length k) s))),
   snd (Qrng.qrng_bits (String.length k) s)).
Proof.
  intros Hk. unfold QuantumCore.sedjo. rewrite Nat.ltb_irrefl.
  destruct k as [| c k]; [done |].
  change (String.length (String c k) =? 0) with false. cbv iota.
  pose proof (qrng_bits_length (String.length (String c k)) s) as Hlen.
  destruct (Qrng.qrng_bits (String.length (String c k)) s) as [bs s'].
  simpl fst in *. simpl snd.
  by rewrite oracle_differs_same, rev_repeat, zip_with_xorb_false.
Qed.



Lemma perform_authentication_crypto_identical encrypted_q_k1 biometric k (s : rng) :
  QuantumCore.decrypt_q_k1_with_biometric encrypted_q_k1 biometric = Ok k →
  k ≠ "" →
  QuantumCore.perform_authentication_crypto encrypted_q_k1 biometric s =
  (Ok (k, Qrng.bitstring (fst (Qrng.qrng_bits (String.length k) s)),
          Qrng.bitstring (fst (Qrng.qrng_bits (String.length k) s))),
   snd (Qrng.qrng_bits (String.length k) s)).
Proof.
  intros Hdec Hk.
  unfold QuantumCore.perform_authentication_crypto,
    QuantumCore.sedjo_with_logging.
  rewrite Hdec, (sedjo_identical k s Hk). cbv iota beta.
  by rewrite String.eqb_refl.
Qed.

End key_agreement.


(** On the sample tape the keys "10" and "11" differ at their last
    position only, and so do the two shares at their first; the same key
    on both sides gives the measured bits twice, and an empty key
    raises. *)
Example sedjo_examples :
  fst (QuantumCore.sedjo "10" "11" [true; false]) = Ok ("00", "10") ∧
  fst (QuantumCore.sedjo "10" "10" [true; false]) = Ok ("10", "10") ∧
  fst (QuantumCore.sedjo "10" "1" [true; false]) = Raise IndexError ∧
  fst (QuantumCore.sedjo "" "1" [true; false]) = Raise QuantumCore.qiskit_error ∧
  fst (QuantumCore.perform_voting_crypto "10" [true; false]) = Ok ("10", "10").
Proof. repeat split; reflexivity. Qed.

(** ** quantegrity_app.py: flagging a vote in the mixnet tables *)

Section mixnet_flagging.
Import App.Mixnet MixnetInv.

Lemma same_shape_refl ts : same_shape ts ts.
Proof. intros k flags Hk. eauto. Qed.

Lemma same_shape_trans ts1 ts2 ts3 :
  same_shape ts1 ts2 → same_shape ts2 ts3 → same_shape ts1 ts3.
Proof.
  intros H12 H23 k flags Hk.
  destruct (H12 k flags Hk) as (f2 & Hk2 & Hl2).
  destruct (H23 k f2 Hk2) as (f3 & Hk3 & Hl3).
  exists f3. split; [done | congruence].
Qed.

Lemma same_shape_set ts cand flags i :
  ts !! cand = Some flags →
  same_shape ts (<[cand := <[i := true]> flags]> ts).
Proof.
  intros Hc k fl Hk. destruct (decide (cand = k)) as [<- | Hne].
  - rewrite lookup_insert_eq. eexists. split; [done |].
    rewrite length_insert. congruence.
  - rewrite lookup_insert_ne by done. eauto.
Qed.

Lemma slots_ok_transfer tr tr' ts ts' :
  map row_key tr' = map row_key tr → same_shape ts ts' →
  slots_ok tr ts → slots_ok tr' ts'.
Proof.
  unfold slots_ok. revert tr'.
  induction tr as [| e tr IH]; intros [| e' tr'] Hk Hs Hok; simpl in Hk; try done.
  injection Hk as _ Hcand Hptr Hk.
  apply Forall_cons in Hok as [(flags & Hl & Hlt) Hok].
  apply Forall_cons. split; [| by apply IH].
  destruct (Hs _ _ Hl) as (flags' & Hl' & Hlen).
  exists flags'. rewrite Hcand, Hptr, Hlen. done.
Qed.

Lemma flag_in_keys tr ts c tr1 ts1 r :
  flag_in tr ts c = (tr1, ts1, r) → map row_key tr1 = map row_key tr.
Proof.
  revert tr1 ts1 r. induction tr as [| e rest IH]; intros tr1 ts1 r Hf;
    simpl in Hf.
  - by injection Hf as <- <- <-.
  - destruct (String.eqb (code e) c).
    + destruct (ts !! candidate e) as [flags |];
        [destruct (snd (s_pointer e) <? List.length flags)%nat |];
        by injection Hf as <- <- <-.
    + destruct (flag_in rest ts c) as [[rest' ts'] r'] eqn:Hrec.
      injection Hf as <- <- <-. simpl. by rewrite (IH _ _ _ eq_refl).
Qed.

Lemma flag_in_shape tr ts c tr1 ts1 r :
  flag_in tr ts c = (tr1, ts1, r) → same_shape ts ts1.
Proof.
  revert tr1 ts1 r. induction tr as [| e rest IH]; intros tr1 ts1 r Hf;
    simpl in Hf.
  - injection Hf as <- <- <-. apply same_shape_refl.
  - destruct (String.eqb (code e) c).
    + destruct (ts !! candidate e) as [flags |] eqn:Hts;
        [destruct (snd (s_pointer e) <? List.length flags)%nat |];
        injection Hf as <- <- <-;
        (by apply same_shape_set) || apply same_shape_refl.
    + destruct (flag_in rest ts c) as [[rest' ts'] r'] eqn:Hrec.
      injection Hf as <- <- <-. by eapply IH.
Qed.

(** Flagging a second time finds the same row and sets the same slot. *)
Lemma flag_in_idempotent tr ts c tr1 ts1 r :
  flag_in tr ts c = (tr1, ts1, r) → flag_in tr1 ts1 c = (tr1, ts1, r).
Proof.
  revert tr1 ts1 r. induction tr as [| e rest IH]; intros tr1 ts1 r Hf;
    simpl in Hf.
  - by injection Hf as <- <- <-.
  - destruct (String.eqb (code e) c) eqn:Hc.
    + destruct (ts !! candidate e) as [flags |] eqn:Hts.
      * destruct (snd (s_pointer e) <? List.length flags)%nat eqn:Hlt;
          injection Hf as <- <- <-; cbn [flag_in set_flag code candidate s_pointer].
        -- rewrite Hc, lookup_insert_eq, length_insert, Hlt.
           by rewrite list_insert_insert_eq, insert_insert_eq.
        -- by rewrite Hc, Hts, Hlt.
      * injection Hf as <- <- <-.
        cbn [flag_in set_flag code candidate s_pointer]. by rewrite Hc, Hts.
    + destruct (flag_in rest ts c) as [[rest' ts'] r'] eqn:Hrec.
      injection Hf as <- <- <-. cbn [flag_in]. by rewrite Hc, (IH _ _ _ eq_refl).
Qed.

(** A code carried by a well-formed table R is found and counted. *)
Lemma flag_in_found tr ts c :
  slots_ok tr ts → c ∈ map code tr →
  ∃ tr1 ts1, flag_in tr ts c = (tr1, ts1, Ok true).
Proof.
  induction tr as [| e rest IH]; intros Hok Hin; simpl in Hin.
  - by apply elem_of_nil in Hin.
  - apply Forall_cons in Hok as [(flags & Hl & Hlt) Hok]. simpl.
    destruct (String.eqb_spec (code e) c) as [Heq | Hne].
    + rewrite Hl. apply Nat.ltb_lt in Hlt. rewrite Hlt. eauto.
    + apply elem_of_cons in Hin as [Hin | Hin]; [congruence |].
      destruct (IH Hok Hin) as (tr1 & ts1 & ->). eauto.
Qed.

Lemma sum_flags_set (flags : list bool) i :
  sum_flags flags ≤ sum_flags (<[i := true]> flags) ≤ S (sum_flags flags).
Proof.
  revert i. induction flags as [| b flags IH]; intros i; simpl; [lia |].
  destruct i as [| i]; simpl.
  - destruct b; lia.
  - specialize (IH i). lia.
Qed.

(** One call changes the count of every candidate by zero or one. *)
Lemma flag_in_tally tr ts c tr1 ts1 r cand n :
  flag_in tr ts c = (tr1, ts1, r) →
  (sum_flags <$> ts) !! cand = Some n →
  ∃ n1, (sum_flags <$> ts1) !! cand = Some n1 ∧ n ≤ n1 ≤ n + 1.
Proof.
  revert tr1 ts1 r. induction tr as [| e rest IH]; intros tr1 ts1 r Hf Hn;
    simpl in Hf.
  - injection Hf as <- <- <-. exists n. split; [done | lia].
  - destruct (String.eqb (code e) c).
    + destruct (ts !! candidate e) as [flags |] eqn:Hts;
        [destruct (snd (s_pointer e) <? List.length flags)%nat |];
        injection Hf as <- <- <-; try (exists n; split; [done | lia]).
      rewrite lookup_fmap in Hn. rewrite lookup_fmap.
      destruct (decide (candidate e = cand)) as [<- | Hne].
      * rewrite lookup_insert_eq. rewrite Hts in Hn. simpl in *.
        injection Hn as <-. eexists. split; [done |].
        pose proof (sum_flags_set flags (snd (s_pointer e))). lia.
      * rewrite lookup_insert_ne by done. exists n. split; [done | lia].
    + destruct (flag_in rest ts c) as [[rest' ts'] r'] eqn:Hrec.
      injection Hf as <- <- <-. by eapply IH.
Qed.

End mixnet_flagging.

(** ** quantegrity_app.py: the generated tables are well formed *)

Section mixnet_generation.
Import App.Mixnet MixnetInv.
Context {rng : Type} `{Quantum rng}.

Lemma gen_row_candidates (cands0 : list string) ballot cands row all s row' all' s' :
  gen_row ballot cands row all s = (row', all', s') →
  (∀ c, c ∈ cands → c ∈ cands0) →
  Forall (fun ci => ci_candidate ci ∈ cands0) all →
  Forall (fun ci => ci_candidate ci ∈ cands0) all'.
Proof.
  revert row all s. induction cands as [| cand cands IH];
    intros row all s Hg Hsub Hall; simpl in Hg.
  - by injection Hg as _ <- _.
  - destruct (_generate_confirmation_code s) as [c s1].
    eapply IH; [exact Hg | |].
    + intros c' Hc'. apply Hsub. by apply list_elem_of_further.
    + apply Forall_app. split; [done |].
      apply Forall_singleton. simpl. apply Hsub, list_elem_of_here.
Qed.

Lemma gen_table_p_candidates ids cands tp all s tp' all' s' :
  gen_table_p ids cands tp all s = (tp', all', s') →
  Forall (fun ci => ci_candidate ci ∈ cands) all →
  Forall (fun ci => ci_candidate ci ∈ cands) all'.
Proof.
  revert tp all s. induction ids as [| i ids IH]; intros tp all s Hg Hall;
    simpl in Hg.
  - by injection Hg as _ <- _.
  - destruct (gen_row (ballot_str i) cands PyDict.empty all s)
      as [[row all1] s1] eqn:Hrow.
    eapply IH; [exact Hg |].
    by eapply gen_row_candidates.
Qed.

Lemma count_candidate_app a b cand :
  count_candidate (a ++ b)%list cand =
  count_candidate a cand + count_candidate b cand.
Proof. unfold count_candidate. by rewrite List.filter_app, List.length_app. Qed.

Lemma count_candidate_lt all j ci :
  all !! j = Some ci →
  count_candidate (take j all) (ci_candidate ci) <
  count_candidate all (ci_candidate ci).
Proof.
  intros Hj. rewrite <- (take_drop_middle all j ci Hj) at 2.
  rewrite count_candidate_app. unfold count_candidate at 3. simpl.
  rewrite String.eqb_refl. simpl. lia.
Qed.

Lemma gen_table_r_rows all tq i todo tr tr' :
  gen_table_r all tq i todo tr = Ok tr' →
  todo = drop i all →
  Forall (row_from all) tr → Forall (row_from all) tr'.
Proof.
  revert i tr. induction todo as [| ci rest IH]; intros i tr Hg Hd Htr;
    simpl in Hg.
  - by injection Hg as <-.
  - destruct (PyDict.get tq (ci_ballot_id ci)) as [codes |]; [| done].
    destruct (list_index codes (ci_code ci)) as [q_position |]; [| done].
    assert (Hi : all !! i = Some ci).
    { pose proof (lookup_drop all i 0) as Hl.
      rewrite <- Hd, Nat.add_0_r in Hl. by rewrite <- Hl. }
    eapply IH; [exact Hg | |].
    + replace (S i) with (i + 1) by lia. by rewrite <- drop_drop, <- Hd.
    + apply Forall_app. split; [done |]. apply Forall_singleton.
      exists i, ci. done.
Qed.

Lemma gen_table_s_lookup cands all cand :
  cand ∈ cands →
  gen_table_s cands all !! cand =
  Some (repeat false (count_candidate all cand)).
Proof.
  unfold gen_table_s. generalize (∅ : gmap string (list bool)).
  induction cands as [| x cands IH]; intros acc Hin.
  - by apply elem_of_nil in Hin.
  - simpl. destruct (decide (cand ∈ cands)) as [Hc | Hc]; [by apply IH |].
    apply elem_of_cons in Hin as [-> | Hin]; [| done].
    clear IH. revert acc. induction cands as [| y cands IH]; intros acc; simpl.
    + apply lookup_insert_eq.
    + apply not_elem_of_cons in Hc as [Hne Hc].
      rewrite insert_insert_ne by done. by apply IH.
Qed.

Lemma generate_tables_slots_ok g0 s g s' t :
  generate_tables g0 s = ((g, s'), Ok t) →
  tables g = Some t ∧ slots_ok (table_r t) (table_s t).
Proof.
  unfold generate_tables.
  destruct (gen_table_p (seq 0 (num_ballots g0)) (candidates g0) PyDict.empty [] s)
    as [[tp all] s1] eqn:Hp.
  destruct (gen_table_q (PyDict.items tp) PyDict.empty s1) as [tq s2].
  destruct (gen_table_r all tq 0 all []) as [tr | e] eqn:Hr; [| done].
  intros Hg. injection Hg as <- <- <-. split; [done |]. simpl.
  pose proof (gen_table_p_candidates _ _ _ _ _ _ _ _ Hp (Forall_nil_2 _)) as Hc.
  pose proof (gen_table_r_rows _ _ _ _ _ _ Hr eq_refl (Forall_nil_2 _)) as Hrows.
  unfold slots_ok. eapply Forall_impl; [exact Hrows |].
  intros e (j & ci & Hj & Hcand & Hpos).
  exists (repeat false (count_candidate all (ci_candidate ci))). split.
  - rewrite Hcand. apply gen_table_s_lookup.
    rewrite Forall_forall in Hc. apply Hc. by eapply list_elem_of_lookup_2.
  - rewrite Hpos, List.repeat_length. by apply count_candidate_lt.
Qed.

Lemma map_row_key_code (a b : list REntry) :
  map row_key a = map row_key b → map code a = map code b.
Proof.
  intros Hk. apply (f_equal (map (fun k => fst (fst k)))) in Hk.
  by rewrite !map_map in Hk.
Qed.

(** Calls of [flag_vote] keep the tables well formed and the codes of
    table R in place. *)
Lemma flag_votes_inv g t cs :
  tables g = Some t → slots_ok (table_r t) (table_s t) →
  ∃ t', tables (flag_votes g cs) = Some t' ∧
        slots_ok (table_r t') (table_s t') ∧
        map code (table_r t') = map code (table_r t).
Proof.
  revert g t. induction cs as [| c cs IH]; intros g t Ht Hok; simpl.
  - eauto.
  - unfold flag_vote. rewrite Ht.
    destruct (flag_in (table_r t) (table_s t) c) as [[tr1 ts1] r] eqn:Hf.
    simpl.
    assert (Hok1 : slots_ok tr1 ts1).
    { eapply slots_ok_transfer; [| | exact Hok].
      - by eapply flag_in_keys.
      - by eapply flag_in_shape. }
    match goal with
    | |- context [flag_votes ?g1 cs] =>
        destruct (IH g1 {| table_p := table_p t; table_q := table_q t;
                           table_r := tr1; table_s := ts1 |} eq_refl Hok1)
          as (t' & Ht' & Hok' & Hcodes)
    end.
    exists t'. split; [exact Ht' |]. split; [done |].
    rewrite Hcodes. simpl. eapply map_row_key_code, flag_in_keys, Hf.
Qed.

End mixnet_generation.

(** C3. Flagging a confirmation code is idempotent. For every generated
    table set, after any calls of [flag_vote] already made, and for every
    code present in table R: the call succeeds, calling it a second time
    leaves the tables exactly as the first call left them and succeeds
    again, the tally after the second call equals the tally after the
    first, and the first call raised the count of each candidate by at
    most one. *)
Theorem flag_vote_idempotent {rng : Type} `{Quantum rng}
    (g0 g : App.Mixnet.MixnetGenerator) (s s' : rng)
    (t : App.Mixnet.MixnetTables) (cs : list string) (c : string) :
  App.Mixnet.generate_tables g0 s = ((g, s'), Ok t) →
  c ∈ map App.Mixnet.code (App.Mixnet.table_r t) →
  ∃ g1,
    App.Mixnet.flag_vote (MixnetInv.flag_votes g cs) c = (g1, Ok true) ∧
    App.Mixnet.flag_vote g1 c = (g1, Ok true) ∧
    App.Mixnet.get_tally (fst (App.Mixnet.flag_vote g1 c)) =
      App.Mixnet.get_tally g1 ∧
    ∀ cand n,
      App.Mixnet.get_tally (MixnetInv.flag_votes g cs) !! cand = Some n →
      ∃ n1, App.Mixnet.get_tally g1 !! cand = Some n1 ∧ n ≤ n1 ≤ n + 1.
Proof.
  intros Hgen Hc.
  destruct (generate_tables_slots_ok _ _ _ _ _ Hgen) as [Ht Hok].
  destruct (flag_votes_inv g t cs Ht Hok) as (t' & Ht' & Hok' & Hcodes).
  rewrite <- Hcodes in Hc.
  destruct (flag_in_found _ _ _ Hok' Hc) as (tr1 & ts1 & Hf).
  set (g' := MixnetInv.flag_votes g cs) in *.
  exists {| App.Mixnet.candidates := App.Mixnet.candidates g';
            App.Mixnet.num_ballots := App.Mixnet.num_ballots g';
            App.Mixnet.tables :=
              Some {| App.Mixnet.table_p := App.Mixnet.table_p t';
                      App.Mixnet.table_q := App.Mixnet.table_q t';
                      App.Mixnet.table_r := tr1;
                      App.Mixnet.table_s := ts1 |} |}.
  assert (Hsecond : ∀ g1, App.Mixnet.tables g1 =
             Some {| App.Mixnet.table_p := App.Mixnet.table_p t';
                     App.Mixnet.table_q := App.Mixnet.table_q t';
                     App.Mixnet.table_r := tr1;
                     App.Mixnet.table_s := ts1 |} →
           App.Mixnet.flag_vote g1 c =
             ({| App.Mixnet.candidates := App.Mixnet.candidates g1;
                 App.Mixnet.num_ballots := App.Mixnet.num_ballots g1;
                 App.Mixnet.tables := App.Mixnet.tables g1 |}, Ok true)).
  { intros g1 Hg1. unfold App.Mixnet.flag_vote. rewrite Hg1. simpl.
    by rewrite (flag_in_idempotent _ _ _ _ _ _ Hf). }
  split; [| split; [| split]].
  - unfold App.Mixnet.flag_vote. by rewrite Ht', Hf.
  - by rewrite Hsecond.
  - by rewrite Hsecond.
  - intros cand n Hn. unfold App.Mixnet.get_tally in *. rewrite Ht' in Hn.
    simpl. by eapply flag_in_tally.
Qed.

Lemma flag_vote_idempotent_witness :
  ∃ g s' t,
    App.Mixnet.generate_tables Demo.generator Demo.tape = ((g, s'), Ok t) ∧
    "A1F0" ∈ map App.Mixnet.code (App.Mixnet.table_r t) ∧
    ∃ g1,
      App.Mixnet.flag_vote (MixnetInv.flag_votes g ["0000"]) "A1F0" = (g1, Ok true) ∧
      App.Mixnet.flag_vote g1 "A1F0" = (g1, Ok true) ∧
      App.Mixnet.get_tally (fst (App.Mixnet.flag_vote g1 "A1F0")) =
        App.Mixnet.get_tally g1 ∧
      ∀ cand n,
        App.Mixnet.get_tally (MixnetInv.flag_votes g ["0000"]) !! cand = Some n →
        ∃ n1, App.Mixnet.get_tally g1 !! cand = Some n1 ∧ n ≤ n1 ≤ n + 1.
Proof.
  destruct (App.Mixnet.generate_tables Demo.generator Demo.tape)
    as [[g s'] [t | e]] eqn:Hgen.
  - exists g, s', t.
    assert (Hin : "A1F0" ∈ map App.Mixnet.code (App.Mixnet.table_r t)).
    { vm_compute in Hgen. injection Hgen as <- <- <-. simpl.
      apply list_elem_of_here. }
    split; [reflexivity |]. split; [exact Hin |].
    exact (flag_vote_idempotent Demo.generator g Demo.tape s' t ["0000"] "A1F0"
             Hgen Hin).
  - vm_compute in Hgen. discriminate Hgen.
Defined.

(** ** Scantegrity_simplified.py: the ballot life cycle *)

Section simplified_lifecycle.
Import Simplified.

Lemma status_eqb_eq a b : status_eqb a b = true ↔ a = b.
Proof. destruct a, b; simpl; split; congruence. Qed.

Lemma record_choices_ballots es b items :
  ballots (fst (record_choices es b items)) = ballots es.
Proof.
  revert es. induction items as [| [question opt] items IH]; intros es; simpl.
  - done.
  - destruct (get_code b question) as [c | e]; [| done].
    destruct (scan_tables_r _ _ _ _ _ _ _) as [[trs ts] [u | e]].
    + by rewrite IH.
    + done.
Qed.

(** A finalized ballot is refused by all three operations, which leave
    the whole system as it was. *)
Lemma finalized_ballot_refused es ref b choices :
  ballots es !! ref = Some b → status b ≠ NotCast →
  cast_vote es ref choices = (es, Raise already_finalized) ∧
  audit_ballot es ref = (es, Raise already_finalized) ∧
  spoil_ballot es ref = (es, Raise already_finalized).
Proof.
  intros Hb Hst. unfold cast_vote, audit_ballot, spoil_ballot. rewrite Hb.
  destruct (status_eqb (status b) NotCast) eqn:He.
  - by apply status_eqb_eq in He.
  - done.
Qed.

(** On a ballot that is "Not Cast" each operation moves the ballot to its
    own terminal state; auditing and spoiling return normally. *)
Lemma first_operation_finalizes es ref b choices :
  ballots es !! ref = Some b → status b = NotCast →
  (∃ b', ballots (fst (cast_vote es ref choices)) !! ref = Some b' ∧
         status b' = Cast) ∧
  (∃ es' b', audit_ballot es ref = (es', Ok ()) ∧
             ballots es' !! ref = Some b' ∧ status b' = Audited) ∧
  (∃ es' b', spoil_ballot es ref = (es', Ok ()) ∧
             ballots es' !! ref = Some b' ∧ status b' = Spoiled).
Proof.
  intros Hb Hst. unfold cast_vote, audit_ballot, spoil_ballot.
  rewrite Hb, Hst. simpl.
  assert (Hlt : ref < List.length (ballots es)) by by eapply lookup_lt_Some.
  split; [| split].
  - rewrite record_choices_ballots. simpl.
    rewrite list_lookup_insert_eq by done. eauto.
  - do 2 eexists. split; [done |]. simpl.
    rewrite list_lookup_insert_eq by done. eauto.
  - do 2 eexists. split; [done |]. simpl.
    rewrite list_lookup_insert_eq by done. eauto.
Qed.

(** After any first operation, every later one is refused. *)
Lemma second_operation_refused es ref b choices choices' :
  ballots es !! ref = Some b → status b = NotCast →
  ∀ es1, es1 = fst (cast_vote es ref choices) ∨
         es1 = fst (audit_ballot es ref) ∨
         es1 = fst (spoil_ballot es ref) →
  cast_vote es1 ref choices' = (es1, Raise already_finalized) ∧
  audit_ballot es1 ref = (es1, Raise already_finalized) ∧
  spoil_ballot es1 ref = (es1, Raise already_finalized).
Proof.
  intros Hb Hst es1 Hes1.
  destruct (first_operation_finalizes es ref b choices Hb Hst)
    as ((bc & Hbc & Hsc) & (ea & ba & Hea & Hba & Hsa) & (ep & bp & Hep & Hbp & Hsp)).
  destruct Hes1 as [-> | [-> | ->]].
  - eapply finalized_ballot_refused; [exact Hbc | congruence].
  - rewrite Hea. eapply finalized_ballot_refused; [exact Hba | congruence].
  - rewrite Hep. eapply finalized_ballot_refused; [exact Hbp | congruence].
Qed.

End simplified_lifecycle.

(** C6. Spoiling or auditing a ballot performs no mutation of table S and
    contributes nothing to the tally. For every ballot that is still "Not
    Cast": [spoil_ballot] returns normally, every row of every table R that
    points at the ballot gets its flag set and no other row changes, table S
    is left as it was and the tally after spoiling equals the tally before;
    [audit_ballot] returns normally and leaves tables R, table S and the
    tally as they were. *)
Theorem spoil_and_audit_leave_tally (es : Simplified.ElectionSystem) (ref : nat)
    (b : Simplified.Ballot) :
  Simplified.ballots es !! ref = Some b →
  Simplified.status b = Simplified.NotCast →
  (∃ es',
     Simplified.spoil_ballot es ref = (es', Ok ()) ∧
     Simplified.table_s es' = Simplified.table_s es ∧
     Simplified.get_tally es' = Simplified.get_tally es ∧
     ∀ k i table_r e,
       Simplified.tables_r es !! k = Some table_r → table_r !! i = Some e →
       ∃ table_r',
         Simplified.tables_r es' !! k = Some table_r' ∧
         table_r' !! i =
           Some (if String.eqb (fst (fst (Simplified.q_pointer e)))
                               (Simplified.ballot_id b)
                 then Simplified.set_flag e else e)) ∧
  (∃ es',
     Simplified.audit_ballot es ref = (es', Ok ()) ∧
     Simplified.tables_r es' = Simplified.tables_r es ∧
     Simplified.table_s es' = Simplified.table_s es ∧
     Simplified.get_tally es' = Simplified.get_tally es).
Proof.
  intros Hb Hst. split.
  - unfold Simplified.spoil_ballot. rewrite Hb, Hst. simpl.
    eexists. split; [reflexivity |]. simpl.
    split; [reflexivity |]. split; [reflexivity |].
    intros k i table_r e Hk Hi.
    exists (Simplified.reveal (Simplified.ballot_id b) table_r). split.
    + by rewrite list_lookup_fmap, Hk.
    + unfold Simplified.reveal. by rewrite list_lookup_fmap, Hi.
  - unfold Simplified.audit_ballot. rewrite Hb, Hst. simpl.
    eexists. split; [reflexivity |]. by simpl.
Qed.

Lemma spoil_and_audit_leave_tally_witness :
  (∃ es',
     Simplified.spoil_ballot Demo.simple_system 0 = (es', Ok ()) ∧
     Simplified.table_s es' = Simplified.table_s Demo.simple_system ∧
     Simplified.get_tally es' = Simplified.get_tally Demo.simple_system ∧
     ∀ k i table_r e,
       Simplified.tables_r Demo.simple_system !! k = Some table_r →
       table_r !! i = Some e →
       ∃ table_r',
         Simplified.tables_r es' !! k = Some table_r' ∧
         table_r' !! i =
           Some (if String.eqb (fst (fst (Simplified.q_pointer e)))
                               (Simplified.ballot_id Demo.simple_ballot)
                 then Simplified.set_flag e else e)) ∧
  (∃ es',
     Simplified.audit_ballot Demo.simple_system 0 = (es', Ok ()) ∧
     Simplified.tables_r es' = Simplified.tables_r Demo.simple_system ∧
     Simplified.table_s es' = Simplified.table_s Demo.simple_system ∧
     Simplified.get_tally es' = Simplified.get_tally Demo.simple_system).
Proof.
  apply (spoil_and_audit_leave_tally Demo.simple_system 0 Demo.simple_ballot);
    reflexivity.
Defined.

(** The same frame in shared_state.py: spoiling a ballot writes the ballot
    and the voter records only; the bulletin board, from which results are
    counted, and the confirmation codes of the ballot are left as they
    were. *)
Lemma shared_spoil_leaves_board (st : SharedState.State) (vid bid now : string) :
  SharedState.bulletin_board (fst (SharedState.spoil_ballot st vid bid now)) =
    SharedState.bulletin_board st ∧
  ∀ b, SharedState.get_ballot st bid = Some b →
       snd (snd (SharedState.spoil_ballot st vid bid now)) =
         match SharedState.get_voter st vid with
         | Some _ => SharedState.confirmation_codes b
         | None => PyDict.empty
         end.
Proof.
  unfold SharedState.spoil_ballot. split.
  - destruct (SharedState.get_voter st vid), (SharedState.get_ballot st bid); done.
  - intros b ->. by destruct (SharedState.get_voter st vid).
Qed.

(** Casting, by contrast, does reach table S: on the sample system a vote
    for Bob raises Bob's count from 0 to 1, and spoiling instead leaves
    both counts at 0. *)
Example simplified_tally_example :
  Simplified.get_tally
    (fst (Simplified.cast_vote Demo.simple_system 0 [("Mayor", "Bob")]))
    = {[ "Mayor" := {[ "Alice" := 0; "Bob" := 1 ]} ]} ∧
  Simplified.get_tally (fst (Simplified.spoil_ballot Demo.simple_system 0))
    = {[ "Mayor" := {[ "Alice" := 0; "Bob" := 0 ]} ]}.
Proof. split; vm_compute; reflexivity. Qed.

(** ** quantegrity_app.py: the ballot life cycle *)

(** The three operations of [ScantegrityBallot] never look at the status:
    spoiling and auditing always return, marking returns whenever the
    candidate is on the ballot. *)
Lemma app_ballot_operations_unguarded (b : App.ScantegrityBallot) (now : N) :
  App.status (fst (App.spoil_ballot b now)) = App.SPOILED ∧
  is_ok (snd (App.spoil_ballot b now)) = true ∧
  App.status (fst (App.audit_ballot b now)) = App.AUDITED ∧
  is_ok (snd (App.audit_ballot b now)) = true ∧
  ∀ cid choice,
    App.find_choice (App.choices b) cid = Some choice →
    App.mark_choice b cid now =
      (App.set_status b App.CAST now, Ok (App.confirmation_code choice)).
Proof.
  repeat split. intros cid choice Hc. unfold App.mark_choice. by rewrite Hc.
Qed.

(** C1 at its failing input. A blank ballot of quantegrity_app.py is
    spoiled, which succeeds; marking candidate "A" on the spoiled ballot
    then succeeds as well, returns the confirmation code and moves the
    ballot from SPOILED to CAST; auditing the cast ballot succeeds again
    and moves it to AUDITED. *)
Theorem spoiled_ballot_can_still_be_cast :
  let b1 := fst (App.spoil_ballot Demo.ballot 1%N) in
  let b2 := fst (App.mark_choice b1 "A" 2%N) in
  let b3 := fst (App.audit_ballot b2 3%N) in
  App.status Demo.ballot = App.BLANK ∧
  snd (App.spoil_ballot Demo.ballot 1%N) = Ok ["1A2B"; "3C4D"] ∧
  App.status b1 = App.SPOILED ∧
  snd (App.mark_choice b1 "A" 2%N) = Ok "1A2B" ∧
  App.status b2 = App.CAST ∧
  snd (App.audit_ballot b2 3%N) = Ok [("A", "1A2B"); ("B", "3C4D")] ∧
  App.status b3 = App.AUDITED.
Proof. repeat split. Qed.

(** ** quantegrity_app.py: the bulletin board *)

Section bulletin_board.
Import App.Board BoardRuns.
Context {rng : Type} `{Quantum rng}.

Lemma board_inv_new : board_inv new_board.
Proof.
  split; [constructor |]. intros e He. by apply elem_of_nil in He.
Qed.

Lemma board_inv_publish bb e ty :
  board_inv bb → published_ballots bb !! ballot_id e = None →
  board_inv (publish bb e ty).
Proof.
  intros [Hnd Hpub] Hfresh. split; simpl.
  - rewrite map_app. simpl. apply NoDup_app. split; [done |]. split.
    + intros bid Hin Hin'. apply list_elem_of_singleton in Hin' as ->.
      apply list_elem_of_fmap in Hin as (e' & Heq & He').
      destruct (Hpub e' He') as [ty' Hty']. congruence.
    + apply NoDup_singleton.
  - intros e' He'. apply elem_of_app in He' as [He' | He'].
    + destruct (decide (ballot_id e = ballot_id e')) as [-> | Hne].
      * rewrite lookup_insert_eq. eauto.
      * rewrite lookup_insert_ne by done. by apply Hpub.
    + apply list_elem_of_singleton in He' as ->. rewrite lookup_insert_eq. eauto.
Qed.

Lemma board_inv_seal bb : board_inv bb → board_inv (seal_board bb).
Proof. intros [Hnd Hpub]. split; done. Qed.

Lemma post_vote_inv bb bid codes proof now (s : rng) :
  board_inv bb → board_inv (fst (fst (post_vote bb bid codes proof now s))).
Proof.
  intros Hinv. unfold post_vote.
  destruct (is_sealed bb); [done |].
  destruct (published_ballots bb !! bid) eqn:Hp; [done |].
  destruct (_generate_entry_id s) as [eid s1].
  destruct (_generate_signature bid codes s1) as [[sig | e] s2]; [| done].
  by apply board_inv_publish.
Qed.

Lemma post_audit_inv bb bid all_codes now (s : rng) :
  board_inv bb → board_inv (fst (fst (post_audit bb bid all_codes now s))).
Proof.
  intros Hinv. unfold post_audit.
  destruct (published_ballots bb !! bid) eqn:Hp; [done |].
  destruct (_generate_entry_id s) as [eid s1].
  destruct (_generate_signature bid (PyDict.values all_codes) s1)
    as [[sig | e] s2]; [| done].
  by apply board_inv_publish.
Qed.

Lemma step_inv (st : BulletinBoard * rng) op :
  board_inv (fst st) → board_inv (fst (step st op)).
Proof.
  intros Hinv. destruct op as [bid codes proof now | bid all_codes now |]; simpl.
  - by apply post_vote_inv.
  - by apply post_audit_inv.
  - by apply board_inv_seal.
Qed.

Lemma run_inv ops (st : BulletinBoard * rng) :
  board_inv (fst st) → board_inv (fst (run ops st)).
Proof.
  revert st. induction ops as [| op ops IH]; intros st Hinv; simpl; [done |].
  apply IH. by apply step_inv.
Qed.

(** On the board of quantegrity_app.py the write-once rule holds: after
    any calls of [post_vote], [post_audit] and [seal_board] on a new
    board no two entries share a ballot, and a post for a ballot that has
    an entry raises and leaves the board as it was, whatever the kinds of
    the two posts. *)
Lemma app_board_write_once ops (s : rng) :
  let bb := fst (run ops (new_board, s)) in
  NoDup (map ballot_id (entries bb)) ∧
  ∀ e, e ∈ entries bb →
    (∀ codes proof now s1,
       ∃ msg, post_vote bb (ballot_id e) codes proof now s1 =
                ((bb, s1), Raise (Exception msg))) ∧
    (∀ all_codes now s1,
       post_audit bb (ballot_id e) all_codes now s1 =
         ((bb, s1), Raise (Exception "Ballot already published"))).
Proof.
  intros bb. destruct (run_inv ops (new_board, s) board_inv_new) as [Hnd Hpub].
  fold bb in Hnd, Hpub. split; [done |].
  intros e He. destruct (Hpub e He) as [ty Hty]. split.
  - intros codes proof now s1. unfold post_vote.
    destruct (is_sealed bb); [eauto |]. rewrite Hty. eauto.
  - intros all_codes now s1. unfold post_audit. by rewrite Hty.
Qed.

(** What does hold of sealing: [post_vote] on a sealed board raises and
    changes nothing, and no call unseals the board. *)
Lemma sealed_board_refuses_votes bb bid codes proof now (s : rng) :
  is_sealed bb = true →
  post_vote bb bid codes proof now s =
    ((bb, s), Raise (Exception "Bulletin board is sealed")).
Proof. intros Hs. unfold post_vote. by rewrite Hs. Qed.

Lemma sealed_board_stays_sealed ops (st : BulletinBoard * rng) :
  is_sealed (fst st) = true → is_sealed (fst (run ops st)) = true.
Proof.
  revert st. induction ops as [| op ops IH]; intros st Hs; simpl; [done |].
  apply IH. destruct op as [bid codes proof now | bid all_codes now |]; simpl.
  - by rewrite sealed_board_refuses_votes.
  - unfold post_audit. destruct (published_ballots st.1 !! bid); [done |].
    destruct (_generate_entry_id st.2) as [eid s1].
    by destruct (_generate_signature bid (PyDict.values all_codes) s1)
      as [[sig | e] s2].
  - done.
Qed.

End bulletin_board.

(** C5 at its failing input. A new board is sealed; [post_audit] for the
    never published ballot "ballot_000000" then returns an entry id and the
    board holds one entry of type "audit", while [post_vote] for the same
    ballot is refused. *)
Theorem sealed_board_accepts_audit :
  let sealed := App.Board.seal_board App.Board.new_board in
  let after := App.Board.post_audit sealed "ballot_000000"
                 [("A", "1A2B"); ("B", "3C4D")] 5%N Demo.tape in
  App.Board.is_sealed sealed = true ∧
  snd after = Ok "A1F0000000000000" ∧
  map App.Board.entry_type (App.Board.entries (fst (fst after))) = ["audit"] ∧
  map App.Board.ballot_id (App.Board.entries (fst (fst after))) = ["ballot_000000"] ∧
  snd (App.Board.post_vote sealed "ballot_000000" ["1A2B"] None 5%N Demo.tape) =
    Raise (Exception "Bulletin board is sealed").
Proof. vm_compute. repeat split. Qed.

(** C7 at its failing input. A vote is posted on a new board; the entry is
    not modified; [verify_entry] on that entry draws a fresh signature key,
    recomputes a different signature and returns [False]. *)
Theorem untampered_entry_fails_verification :
  let posted := App.Board.post_vote App.Board.new_board "ballot_000000"
                  ["1A2B"] None 5%N Demo.tape_zeros_then_ones in
  let bb := fst (fst posted) in
  let s1 := snd (fst posted) in
  snd posted = Ok "0000000000000000" ∧
  fst (App.Board.verify_entry bb "0000000000000000" s1) = Ok false ∧
  fst (App.generate_signature "ballot_000000:1A2B" Demo.tape_zeros_then_ones) ≠
  fst (App.generate_signature "ballot_000000:1A2B" s1).
Proof. vm_compute. repeat split. discriminate. Qed.

(** ** shared_state.py: the persisted bulletin board and the ballot pool *)

(** C2 at its failing input. On the board of shared_state.py a "vote"
    entry is added for ballot 101010101010, then a "spoiled" entry for the
    same ballot: the second call is accepted and the board holds two
    entries for that ballot. *)
Theorem shared_board_accepts_second_entry :
  let st1 := SharedState.add_bulletin_entry Demo.empty_state Demo.vote_entry "t1" in
  let st2 := SharedState.add_bulletin_entry st1 Demo.spoiled_entry "t2" in
  map SharedState.e_ballot_id (PyDict.values (SharedState.bulletin_board st2)) =
    ["101010101010"; "101010101010"] ∧
  map SharedState.entry_type (PyDict.values (SharedState.bulletin_board st2)) =
    ["vote"; "spoiled"] ∧
  ¬ NoDup (map SharedState.e_ballot_id
             (PyDict.values (SharedState.bulletin_board st2))).
Proof.
  repeat split. simpl. intros Hnd. apply NoDup_cons in Hnd as [Hin _].
  apply Hin, list_elem_of_here.
Qed.

(** C4 at its failing input. No draw is compared with the codes drawn
    before. With a source that measures the same sixteen bits twice, the
    pool of shared_state.py holds one ballot whose two candidates share a
    code; with a source that measures A1F0 for the first and the fourth
    draw, the tables of quantegrity_app.py give the code A1F0 to candidate
    A of ballot 0 and to candidate B of ballot 1, and flagging that code
    counts a vote for A. *)
Theorem confirmation_codes_can_collide :
  let st := fst (SharedState._create_ballot_pool Demo.empty_state "e1"
                   ["A"; "B"] 1 Demo.tape_pool) in
  let gen := App.Mixnet.generate_tables Demo.generator Demo.tape_colliding in
  (SharedState.pool_codes <$> SharedState.ballot_pools st !! "e1") =
    Some ["1010000111110000"; "1010000111110000"] ∧
  (App.Mixnet.table_p <$> App.Mixnet.tables (fst (fst gen))) =
    Some [("ballot_000000", [("A", "A1F0"); ("B", "3C4D")]);
          ("ballot_000001", [("A", "5E6F"); ("B", "A1F0")])] ∧
  App.Mixnet.get_tally (fst (App.Mixnet.flag_vote (fst (fst gen)) "A1F0")) =
    {[ "A" := 1; "B" := 0 ]}.
Proof. vm_compute. repeat split. Qed.

(** * Further properties of the code *)

(** ** quantum_core.py: XOR with keys of any length *)

Section xor_any_length.
Import PyStr XorRef.

Lemma xor_bits_pad_involutive x k :
  all_in_01 x = true → all_in_01 k = true →
  let n := Nat.max (String.length x) (String.length k) in
  xor_bits (xor_bits (pad0 n x) (pad0 n k)) (pad0 n k) = pad0 n x.
Proof.
  intros Hx Hk n. apply xor_bits_involutive; try by apply pad0_binary.
  rewrite !pad0_length. lia.
Qed.

(** Decrypting what was encrypted gives the plaintext padded to the
    length of the key. *)
Lemma xor_decrypt_encrypt_padded x k :
  all_in_01 x = true → all_in_01 k = true →
  let n := Nat.max (String.length x) (String.length k) in
  QuantumCore.binary_xor (xor_bits (pad0 n x) (pad0 n k)) k = Ok (pad0 n x).
Proof.
  intros Hx Hk n.
  assert (Hlen : String.length (xor_bits (pad0 n x) (pad0 n k)) = n).
  { rewrite xor_bits_length; rewrite !pad0_length; lia. }
  rewrite binary_xor_bits by (done || apply xor_bits_binary). simpl.
  rewrite Hlen. replace (Nat.max n (String.length k)) with n by lia.
  rewrite (pad0_id n (xor_bits _ _)) by lia.
  f_equal. by apply xor_bits_pad_involutive.
Qed.

End xor_any_length.

(** X1. Decrypting an encrypted binary string with the same binary key
    returns the plaintext left-padded with '0' to the length of the key:
    the plaintext itself when the key is no longer than it, a longer
    string otherwise. *)
Theorem xor_round_trip_pads_to_key (x k : string) :
  PyStr.all_in_01 x = true → PyStr.all_in_01 k = true →
  ∃ c, QuantumCore.xor_encrypt x k = Ok c ∧
       QuantumCore.xor_decrypt c k = Ok (XorRef.pad0 (String.length k) x) ∧
       (String.length k ≤ String.length x → QuantumCore.xor_decrypt c k = Ok x) ∧
       (String.length x < String.length k → QuantumCore.xor_decrypt c k ≠ Ok x).
Proof.
  intros Hx Hk.
  set (n := Nat.max (String.length x) (String.length k)).
  exists (XorRef.xor_bits (XorRef.pad0 n x) (XorRef.pad0 n k)).
  assert (Hd : QuantumCore.xor_decrypt
                 (XorRef.xor_bits (XorRef.pad0 n x) (XorRef.pad0 n k)) k =
               Ok (XorRef.pad0 (String.length k) x)).
  { rewrite xor_decrypt_binary by (done || apply xor_bits_binary).
    unfold n. rewrite xor_decrypt_encrypt_padded by done. fold n.
    f_equal. unfold XorRef.pad0. f_equal. f_equal. lia. }
  split; [| split; [| split]].
  - rewrite xor_encrypt_binary by done. by apply binary_xor_bits.
  - done.
  - intros Hle. rewrite Hd. f_equal. by apply pad0_id.
  - intros Hlt. rewrite Hd. intros [= Heq].
    apply (f_equal String.length) in Heq. rewrite pad0_length in Heq. lia.
Qed.

Lemma xor_round_trip_pads_to_key_witness :
  ∃ c, QuantumCore.xor_encrypt "101" "00110" = Ok c ∧
       QuantumCore.xor_decrypt c "00110" = Ok (XorRef.pad0 (String.length "00110") "101") ∧
       (String.length "00110" ≤ String.length "101" →
        QuantumCore.xor_decrypt c "00110" = Ok "101") ∧
       (String.length "101" < String.length "00110" →
        QuantumCore.xor_decrypt c "00110" ≠ Ok "101").
Proof. apply (xor_round_trip_pads_to_key "101" "00110"); reflexivity. Defined.

Section xor_keys.
Import PyStr XorRef.

Lemma xor_round_trip_bits x k :
  all_in_01 x = true → all_in_01 k = true →
  String.length x = String.length k →
  QuantumCore.xor_encrypt x k = Ok (xor_bits x k) ∧
  QuantumCore.xor_decrypt (xor_bits x k) k = Ok x.
Proof.
  intros Hx Hk Hlen. split.
  - rewrite xor_encrypt_binary by done. by apply binary_xor_equal_length.
  - rewrite xor_decrypt_binary by (done || apply xor_bits_binary).
    rewrite binary_xor_equal_length; [| apply xor_bits_binary | done |].
    + by rewrite xor_bits_involutive.
    + by rewrite xor_bits_length.
Qed.

Lemma xor_bits_cancel a b b' :
  all_in_01 a = true → all_in_01 b = true → all_in_01 b' = true →
  String.length a = String.length b → String.length a = String.length b' →
  xor_bits a b = xor_bits a b' → b = b'.
Proof.
  revert b b'. induction a as [| x a IH]; intros [| y b] [| y' b'] Ha Hb Hb' Hl Hl' He;
    simpl in Hl, Hl'; try done.
  apply all_in_01_cons in Ha as [Hx Ha].
  apply all_in_01_cons in Hb as [Hy Hb].
  apply all_in_01_cons in Hb' as [Hy' Hb'].
  injection Hl as Hl. injection Hl' as Hl'. simpl in He. injection He as Hc He.
  rewrite (IH b b') by done. f_equal.
  destruct Hx as [-> | ->], Hy as [-> | ->], Hy' as [-> | ->]; done.
Qed.

Lemma lstrip0_pad0 n s : CoreExtra.lstrip0 (pad0 n s) = CoreExtra.lstrip0 s.
Proof.
  unfold pad0. induction (n - String.length s) as [| m IH]; simpl; done.
Qed.

End xor_keys.

(** X2. Candidate encryption round-trips through the two candidate maps:
    for every binary key, of any length, a candidate listed in the
    encryption map is encrypted without error and decrypts to the name the
    decryption map gives for its code ("Candidate A" to "Candidate D"; the
    names Alice, Bob, Carl and Diana come back as "Candidate A" to
    "Candidate D"). *)
Theorem candidate_vote_round_trip (candidate name vq_k1 : string) :
  PyStr.all_in_01 vq_k1 = true →
  CoreExtra.canonical_name candidate = Some name →
  ∃ e, CoreExtra.encrypt_candidate_vote candidate vq_k1 = Ok e ∧
       CoreExtra.decrypt_candidate_vote e vq_k1 = Ok name.
Proof.
  intros Hk Hname. unfold CoreExtra.canonical_name in Hname.
  unfold CoreExtra.encrypt_candidate_vote.
  destruct (PyDict.get CoreExtra.encrypt_map candidate) as [b |] eqn:Hb; [| done].
  assert (Hcases : b = "0001" ∨ b = "0010" ∨ b = "0011" ∨ b = "0100").
  { unfold CoreExtra.encrypt_map in Hb. cbn [PyDict.get] in Hb.
    repeat (destruct (String.eqb _ candidate); [injection Hb as <-; tauto |]).
    done. }
  set (cb := PyStr.zfill b 16).
  assert (Hcb : PyStr.all_in_01 cb = true)
    by (unfold cb; destruct Hcases as [-> | [-> | [-> | ->]]]; reflexivity).
  set (n := Nat.max (String.length cb) (String.length vq_k1)).
  exists (XorRef.xor_bits (XorRef.pad0 n cb) (XorRef.pad0 n vq_k1)). split.
  - by apply binary_xor_bits.
  - unfold CoreExtra.decrypt_candidate_vote.
    unfold n. rewrite xor_decrypt_encrypt_padded by done. simpl.
    rewrite lstrip0_pad0. unfold cb.
    destruct Hcases as [-> | [-> | [-> | ->]]]; vm_compute in Hname;
      injection Hname as <-; reflexivity.
Qed.

Lemma candidate_vote_round_trip_witness :
  ∃ e, CoreExtra.encrypt_candidate_vote "Alice" "101011001111000011" = Ok e ∧
       CoreExtra.decrypt_candidate_vote e "101011001111000011" = Ok "Candidate A".
Proof.
  apply (candidate_vote_round_trip "Alice" "Candidate A" "101011001111000011");
    reflexivity.
Defined.

(** X3. A candidate outside the eight names of the encryption map cannot be
    encrypted: [encrypt_candidate_vote] reaches the undefined
    [string_to_binary] and raises, whatever the key. *)
Theorem unlisted_candidate_raises (candidate vq_k1 : string) :
  candidate ∉ ["Candidate A"; "Candidate B"; "Candidate C"; "Candidate D";
               "Alice"; "Bob"; "Carl"; "Diana"] →
  CoreExtra.encrypt_candidate_vote candidate vq_k1 =
    Raise (CoreExtra.name_error "string_to_binary").
Proof.
  intros Hnot. unfold CoreExtra.encrypt_candidate_vote, CoreExtra.encrypt_map.
  cbn [PyDict.get].
  repeat match goal with
  | |- context [String.eqb ?a candidate] =>
      destruct (String.eqb_spec a candidate) as [<- | _];
        [exfalso; apply Hnot; set_solver |]
  end.
  done.
Qed.

Lemma unlisted_candidate_raises_witness :
  CoreExtra.encrypt_candidate_vote "Erin" "1010110011110000" =
    Raise (CoreExtra.name_error "string_to_binary").
Proof.
  apply (unlisted_candidate_raises "Erin" "1010110011110000").
  intros Hin. repeat (apply elem_of_cons in Hin as [Hin | Hin]; [discriminate |]).
  by apply elem_of_nil in Hin.
Defined.

(** ** quantum_core.py: the operations log *)

Section quantum_log.
Import CoreExtra.
Context {props : Type}.

Lemma log_quantum_operation_drop (l : list (LogEntry props)) op ins outs meta now qp :
  log_quantum_operation l op ins outs meta now qp =
  drop (List.length (l ++ [entry_of (op, ins, outs, meta, now, qp)]) - 50)
       (l ++ [entry_of (op, ins, outs, meta, now, qp)]).
Proof.
  unfold log_quantum_operation. simpl.
  destruct (Nat.ltb_spec 50 (List.length
     (l ++ [{| timestamp := now; operation := op; inputs := ins; outputs := outs;
               metadata := default PyDict.empty meta;
               quantum_properties := qp |}]))) as [Hlt | Hge]; [done |].
  match goal with |- _ = drop ?d _ => replace d with 0 by lia end. done.
Qed.

Lemma log_calls_drop (l : list (LogEntry props)) (cs : list (log_call props)) :
  log_calls l cs =
  match cs with
  | [] => l
  | _ => drop (List.length (l ++ map entry_of cs) - 50) (l ++ map entry_of cs)
  end.
Proof.
  revert l. induction cs as [| c cs IH]; intros l; [done |].
  unfold log_calls. simpl. fold (log_calls (props := props)).
  destruct c as [[[[[op ins] outs] meta] now] qp].
  change (foldl _ ?l0 cs) with (log_calls l0 cs).
  rewrite IH, log_quantum_operation_drop.
  set (e := entry_of (op, ins, outs, meta, now, qp)).
  destruct cs as [| c' cs]; [done |].
  set (es := map entry_of (c' :: cs)).
  change (map entry_of ((op, ins, outs, meta, now, qp) :: c' :: cs)) with (e :: es).
  set (l' := (l ++ [e])%list).
  replace (l ++ e :: es)%list with (l' ++ es)%list
    by (unfold l'; by rewrite <- app_assoc).
  set (d := List.length l' - 50).
  assert (Hd : d ≤ List.length l') by (unfold d; lia).
  rewrite <- (drop_app_le l' es d) by done.
  rewrite (drop_drop (l' ++ es)). f_equal.
  rewrite length_drop. unfold d. rewrite !length_app. lia.
Qed.

End quantum_log.

(** X4. The operations log is bounded: after any calls of
    [log_quantum_operation] on an empty log, the log holds exactly the
    entries of the last 50 calls, in call order, and so never more than 50
    entries. *)
Theorem quantum_log_keeps_last_50 {props : Type} (cs : list (CoreExtra.log_call props)) :
  CoreExtra.log_calls [] cs =
    drop (List.length cs - 50) (map CoreExtra.entry_of cs) ∧
  List.length (CoreExtra.log_calls [] cs) = Nat.min 50 (List.length cs).
Proof.
  assert (He : CoreExtra.log_calls [] cs =
               drop (List.length cs - 50) (map CoreExtra.entry_of cs)).
  { rewrite log_calls_drop. destruct cs as [| c cs]; [done |].
    by rewrite app_nil_l, length_map. }
  split; [done |]. rewrite He, length_drop, length_map. lia.
Qed.

(** ** quantum_core.py: Q_K1 under the biometric signature *)

(** X5. Authentication recovers the registered key: when Q_K1 and the
    biometric signature are non-empty binary strings of one length,
    encrypting Q_K1 with the signature succeeds and
    [perform_authentication_crypto] on the ciphertext and the same
    signature returns Q_K1 itself, together with two equal authentication
    shares, each as long as Q_K1.  (On empty strings the key agreement
    raises.) *)
Theorem authentication_recovers_q_k1 {rng : Type} `{Quantum rng}
    (q_k1 biometric : string) (s : rng) :
  q_k1 ≠ "" →
  PyStr.all_in_01 q_k1 = true → PyStr.all_in_01 biometric = true →
  String.length q_k1 = String.length biometric →
  ∃ e aq s',
    QuantumCore.encrypt_q_k1_with_biometric q_k1 biometric = Ok e ∧
    QuantumCore.perform_authentication_crypto e biometric s =
      (Ok (q_k1, aq, aq), s') ∧
    String.length aq = String.length q_k1.
Proof.
  intros Hne Hq Hb Hlen.
  destruct (xor_round_trip_bits q_k1 biometric Hq Hb Hlen) as [Henc Hdec].
  exists (XorRef.xor_bits q_k1 biometric).
  eexists. eexists. split; [exact Henc |]. split.
  - by apply perform_authentication_crypto_identical.
  - rewrite bitstring_length. apply qrng_bits_length.
Qed.

Lemma authentication_recovers_q_k1_witness :
  ∃ e aq s',
    QuantumCore.encrypt_q_k1_with_biometric "1010110011110000" "0110101001011100"
      = Ok e ∧
    QuantumCore.perform_authentication_crypto e "0110101001011100" Demo.tape =
      (Ok ("1010110011110000", aq, aq), s') ∧
    String.length aq = String.length "1010110011110000".
Proof.
  apply (authentication_recovers_q_k1 "1010110011110000" "0110101001011100"
           Demo.tape); [discriminate | reflexivity ..].
Defined.

(** X6. A wrong biometric signature never decrypts Q_K1: for binary strings
    of one length, decrypting the stored ciphertext with a signature that
    differs from the enrolled one succeeds but returns a key different
    from Q_K1. *)
Theorem wrong_biometric_wrong_key (q_k1 biometric other : string) :
  PyStr.all_in_01 q_k1 = true → PyStr.all_in_01 biometric = true →
  PyStr.all_in_01 other = true →
  String.length q_k1 = String.length biometric →
  String.length q_k1 = String.length other →
  other ≠ biometric →
  ∃ e q', QuantumCore.encrypt_q_k1_with_biometric q_k1 biometric = Ok e ∧
          QuantumCore.decrypt_q_k1_with_biometric e other = Ok q' ∧
          q' ≠ q_k1.
Proof.
  intros Hq Hb Ho Hlen Hlen' Hne.
  destruct (xor_round_trip_bits q_k1 biometric Hq Hb Hlen) as [Henc Hdec].
  set (e := XorRef.xor_bits q_k1 biometric) in *.
  assert (Hle : String.length e = String.length q_k1) by by apply xor_bits_length.
  assert (Hbe : PyStr.all_in_01 e = true) by apply xor_bits_binary.
  exists e, (XorRef.xor_bits e other). split; [done |]. split.
  - unfold QuantumCore.decrypt_q_k1_with_biometric.
    rewrite xor_decrypt_binary by done.
    apply binary_xor_equal_length; [done | done | congruence].
  - intros Heq. apply Hne.
    apply (xor_bits_cancel e other biometric); try done; try congruence.
    rewrite Heq. unfold e. by rewrite xor_bits_involutive.
Qed.

Lemma wrong_biometric_wrong_key_witness :
  ∃ e q',
    QuantumCore.encrypt_q_k1_with_biometric "1010110011110000" "0110101001011100"
      = Ok e ∧
    QuantumCore.decrypt_q_k1_with_biometric e "0110101001011101" = Ok q' ∧
    q' ≠ "1010110011110000".
Proof.
  apply (wrong_biometric_wrong_key "1010110011110000" "0110101001011100"
           "0110101001011101"); try reflexivity.
  discriminate.
Defined.

(** ** quantegrity_app.py: random strings, identifiers and signatures *)

Section hex_strings.
Import PyStr AppExtra.
Context {rng : Type} `{Quantum rng}.

Lemma append_empty_l (a : string) : "" ++ a = a.
Proof. reflexivity. Qed.

Lemma hex_char_small (v : N) :
  (v < 16)%N →
  ∃ ch, App.hex_char v = String ch EmptyString ∧ is_hex_digit ch = true.
Proof.
  intros Hv. destruct v as [| p]; [lazy; eauto |].
  do 4 (destruct p as [p | p |]; [| | lazy; eauto]); lia.
Qed.

Lemma hex_char_nibble a b c d :
  ∃ ch, App.hex_char (Qrng.int2 [a; b; c; d]) = String ch EmptyString ∧
        is_hex_digit ch = true.
Proof.
  apply hex_char_small. unfold Qrng.int2. simpl. destruct a, b, c, d; lia.
Qed.

Lemma hex_of_chunks_shape m (bs : list bool) :
  List.length bs = 4 * m →
  String.length (App.hex_of_chunks bs) = m ∧ all_hex (App.hex_of_chunks bs) = true.
Proof.
  revert bs. induction m as [| m IH]; intros bs Hlen.
  - destruct bs; [done | simpl in Hlen; lia].
  - destruct bs as [| a [| b [| c [| d rest]]]]; simpl in Hlen; try lia.
    destruct (IH rest) as [Hl Hh]; [lia |].
    destruct (hex_char_nibble a b c d) as (ch & Hch & Hhex).
    change (App.hex_of_chunks (a :: b :: c :: d :: rest))
      with (App.hex_char (Qrng.int2 [a; b; c; d]) ++ App.hex_of_chunks rest).
    rewrite Hch, append_cons, append_empty_l. simpl.
    by rewrite Hl, Hhex, Hh.
Qed.

Lemma substring_0_full (s : string) : substring 0 (String.length s) s = s.
Proof. induction s as [| c s IH]; simpl; [done | by rewrite IH]. Qed.

Lemma generate_qrng_string_ok n (s : rng) :
  String.length (fst (App.generate_qrng_string n s)) = n ∧
  all_hex (fst (App.generate_qrng_string n s)) = true.
Proof.
  unfold App.generate_qrng_string.
  pose proof (qrng_bits_length (n * 4) s) as Hlen.
  destruct (Qrng.qrng_bits (n * 4) s) as [bs s']. simpl in *.
  destruct (hex_of_chunks_shape n bs) as [Hl Hh]; [lia |].
  assert (Hsub : substring 0 n (App.hex_of_chunks bs) = App.hex_of_chunks bs)
    by (rewrite <- Hl at 1; apply substring_0_full).
  by rewrite Hsub.
Qed.

Lemma hex02_shape (c : ascii) :
  ∃ h l, App.hex02 (N_of_ascii c) = String h (String l EmptyString) ∧
         is_hex_digit h = true ∧ is_hex_digit l = true.
Proof.
  pose proof (N_ascii_bounded c) as Hb. unfold App.hex02.
  destruct (hex_char_small (N_of_ascii c / 16)) as (h & -> & Hh).
  { apply N.Div0.div_lt_upper_bound. lia. }
  destruct (hex_char_small (N_of_ascii c mod 16)) as (l & -> & Hl).
  { apply N.mod_lt. lia. }
  exists h, l. done.
Qed.

Lemma hex_of_string_shape (s : string) :
  String.length (App.hex_of_string s) = 2 * String.length s ∧
  all_hex (App.hex_of_string s) = true.
Proof.
  induction s as [| c s [IHl IHh]]; simpl; [done |].
  destruct (hex02_shape c) as (h & l & -> & Hh & Hl).
  rewrite !append_cons, append_empty_l. simpl.
  rewrite IHl, Hh, Hl, IHh. split; [lia | done].
Qed.

Lemma all_hex_substring_0 m (s : string) :
  all_hex s = true → all_hex (substring 0 m s) = true.
Proof.
  revert s. induction m as [| m IH]; intros [| c s] Hs; simpl in *; try done.
  apply andb_true_iff in Hs as [Hc Hs]. by rewrite Hc, IH.
Qed.

Lemma ljust0_length (s : string) w :
  String.length (App.ljust0 s w) = Nat.max w (String.length s).
Proof.
  unfold App.ljust0. rewrite string_length_app, length_replicate_char. lia.
Qed.

Lemma seed_length (data : string) w :
  String.length (App.ljust0 (substring 0 w data) w) = w.
Proof. rewrite ljust0_length, length_substring_0. lia. Qed.

End hex_strings.

(** X7. For a positive [length], [generate_qrng_string(length)] returns
    exactly [length] characters, each an upper-case hexadecimal digit,
    whatever the source measures.  (For length 0 the source raises: a
    circuit without qubits has no counts.) *)
Theorem generate_qrng_string_shape {rng : Type} `{Quantum rng} (length : nat) (s : rng) :
  0 < length →
  String.length (fst (App.generate_qrng_string length s)) = length ∧
  AppExtra.all_hex (fst (App.generate_qrng_string length s)) = true.
Proof. intros _. apply generate_qrng_string_ok. Qed.

Lemma generate_qrng_string_shape_witness :
  0 < 4 ∧
  fst (App.generate_qrng_string 4 Demo.tape) = "A1F0" ∧
  String.length (fst (App.generate_qrng_string 4 Demo.tape)) = 4 ∧
  AppExtra.all_hex (fst (App.generate_qrng_string 4 Demo.tape)) = true.
Proof.
  split; [lia |]. split; [reflexivity |].
  apply (generate_qrng_string_shape 4 Demo.tape). lia.
Defined.

(** X9. [generate_voter_id] never raises and always returns 16
    hexadecimal digits. *)
Theorem generate_voter_id_shape {rng : Type} `{Quantum rng}
    (name national_id biometric_signature : string) (s : rng) :
  ∃ vid, fst (AppExtra.generate_voter_id name national_id biometric_signature s)
           = Ok vid ∧
         String.length vid = 16 ∧ AppExtra.all_hex vid = true.
Proof.
  unfold AppExtra.generate_voter_id.
  destruct (generate_qrng_string_ok 16 s) as [Hl _].
  destruct (App.generate_qrng_string 16 s) as [random_key s']. simpl in Hl.
  destruct (app_xor_encrypt_total
              (App.ljust0 (substring 0 16 (name ++ national_id ++ biometric_signature)) 16)
              random_key) as [Hok _].
  destruct Hok as (r & Hr & Hlen); [by destruct random_key |].
  simpl. rewrite Hr. simpl. eexists. split; [done |].
  destruct (hex_of_string_shape r) as [Hl' Hh].
  rewrite length_substring_0, Hl', Hlen, seed_length.
  split; [done |]. by apply all_hex_substring_0.
Qed.

(** ** quantegrity_app.py: character-level XOR of bytes *)

Lemma lxor_byte_bound (a b : N) :
  (a < 256)%N → (b < 256)%N → (N.lxor a b < 256)%N.
Proof.
  intros Ha Hb.
  assert (Hlog : ∀ n, (n < 256)%N → (N.log2 n < 8)%N).
  { intros n Hn. destruct (N.eq_dec n 0) as [-> | Hne]; [done |].
    apply N.log2_lt_pow2; [lia | done]. }
  destruct (N.eq_dec (N.lxor a b) 0) as [-> | Hne]; [done |].
  change 256%N with (2 ^ 8)%N. apply N.log2_lt_pow2; [lia |].
  pose proof (N.log2_lxor a b). pose proof (Hlog a Ha). pose proof (Hlog b Hb). lia.
Qed.

(** ** quantegrity_app.py: character-level XOR on all strings *)

Section text_xor.
Import AppText.

Lemma lxor_lt_pow2 (a b n : N) :
  (a < 2 ^ n)%N → (b < 2 ^ n)%N → (N.lxor a b < 2 ^ n)%N.
Proof.
  intros Ha Hb.
  destruct (N.eq_dec (N.lxor a b) 0) as [-> | Hne]; [lia |].
  assert (Hlog : ∀ x, (x < 2 ^ n)%N → x ≠ 0%N → (N.log2 x < n)%N).
  { intros x Hx Hx0. apply N.log2_lt_pow2; [lia | done]. }
  apply N.log2_lt_pow2; [lia |].
  pose proof (N.log2_lxor a b) as Hl.
  destruct (N.eq_dec a 0) as [-> | Ha0].
  - rewrite N.lxor_0_l in *. by apply Hlog.
  - destruct (N.eq_dec b 0) as [-> | Hb0].
    + rewrite N.lxor_0_r in *. by apply Hlog.
    + pose proof (Hlog a Ha Ha0). pose proof (Hlog b Hb Hb0). lia.
Qed.

Lemma chr_code_point n : (n <= max_code_point)%N → chr n = Ok n.
Proof. intros Hn. unfold chr. by destruct (N.leb_spec n max_code_point); [| lia]. Qed.

Lemma lxor_cancel (d k : N) : N.lxor (N.lxor d k) k = d.
Proof. by rewrite N.lxor_assoc, N.lxor_nilpotent, N.lxor_0_r. Qed.

Lemma length_text_repeat key n :
  List.length (text_repeat key n) = n * List.length key.
Proof. induction n as [| n IH]; simpl; [done |]. rewrite List.length_app, IH. lia. Qed.

Lemma Forall_text_repeat (P : N → Prop) key n :
  Forall P key → Forall P (text_repeat key n).
Proof. intros Hk. induction n as [| n IH]; simpl; [done |]. by apply Forall_app. Qed.

(** A non-empty key is always fitted, to the length asked for, and with
    characters of the key only. *)
Lemma fit_key_ok (P : N → Prop) ld key :
  key ≠ [] → Forall P key →
  ∃ key', fit_key ld key = Ok key' ∧ List.length key' = ld ∧ Forall P key'.
Proof.
  intros Hkey HP. unfold fit_key.
  assert (Hlk : 0 < List.length key) by (destruct key; simpl; [done | lia]).
  destruct (Nat.ltb_spec (List.length key) ld) as [Hlt | Hge].
  - destruct (Nat.eqb_spec (List.length key) 0) as [H0 | _]; [lia |].
    eexists. split; [done |]. split.
    + rewrite length_take, length_text_repeat.
      pose proof (Nat.div_mod_eq ld (List.length key)).
      pose proof (Nat.mod_upper_bound ld (List.length key)).
      nia.
    + by apply Forall_take, Forall_text_repeat.
  - destruct (Nat.ltb_spec ld (List.length key)) as [Hlt | Hge'].
    + eexists. split; [done |]. split; [rewrite length_take; lia |].
      by apply Forall_take.
    + exists key. split; [done |]. split; [lia | done].
Qed.

(** On characters below 2^20 the loop succeeds, and running it again on
    its result with the same key gives the data back. *)
Lemma xor_chars_round_trip data key :
  List.length key = List.length data →
  Forall (fun c => (c < 2 ^ 20)%N) data →
  Forall (fun c => (c < 2 ^ 20)%N) key →
  ∃ e, xor_chars data key = Ok e ∧ List.length e = List.length data ∧
       xor_chars e key = Ok data.
Proof.
  revert key. induction data as [| d data IH]; intros key Hlen Hd Hk.
  - exists []. done.
  - destruct key as [| k key]; [done |].
    apply Forall_cons in Hd as [Hd0 Hd]. apply Forall_cons in Hk as [Hk0 Hk].
    destruct (IH key) as (e & He & Hl & Hback); [by injection Hlen | done | done |].
    pose proof (lxor_lt_pow2 d k 20 Hd0 Hk0) as Hx.
    exists (N.lxor d k :: e). cbn [xor_chars].
    rewrite chr_code_point by (unfold max_code_point; lia).
    rewrite He. split; [done |]. split; [simpl; by rewrite Hl |].
    rewrite lxor_cancel, chr_code_point by (unfold max_code_point; lia).
    by rewrite Hback.
Qed.

End text_xor.

(** X10. The character-level XOR of quantegrity_app.py round-trips on
    strings of code points below 0x100000: for every non-empty key,
    shorter or longer than the data, [xor_encrypt] returns a string as
    long as the data, and decrypting it with the same key gives back the
    data.  (With larger code points the XOR of two characters can exceed
    0x10FFFF, and [chr] raises.) *)
Theorem app_xor_round_trip (data key : AppText.text) :
  key ≠ [] →
  Forall (fun c => (c < 2 ^ 20)%N) data →
  Forall (fun c => (c < 2 ^ 20)%N) key →
  ∃ e, AppText.xor_encrypt data key = Ok e ∧
       List.length e = List.length data ∧
       AppText.xor_decrypt e key = Ok data.
Proof.
  intros Hkey Hd Hk.
  destruct (fit_key_ok (fun c => (c < 2 ^ 20)%N) (List.length data) key Hkey Hk)
    as (key' & Hfit & Hlen & Hk').
  destruct (xor_chars_round_trip data key' Hlen Hd Hk') as (e & He & Hl & Hback).
  exists e. unfold AppText.xor_decrypt, AppText.xor_encrypt.
  rewrite Hl, Hfit. simpl. by rewrite He, Hback.
Qed.

Lemma app_xor_round_trip_witness :
  ∃ e, AppText.xor_encrypt [8364; 98; 97; 108; 108; 111; 116]%N [107; 51; 121]%N
         = Ok e ∧
       List.length e = List.length [8364; 98; 97; 108; 108; 111; 116]%N ∧
       AppText.xor_decrypt e [107; 51; 121]%N
         = Ok [8364; 98; 97; 108; 108; 111; 116]%N.
Proof.
  apply (app_xor_round_trip [8364; 98; 97; 108; 108; 111; 116]%N [107; 51; 121]%N).
  - discriminate.
  - repeat constructor.
  - repeat constructor.
Defined.

(** Beyond that range the XOR can leave the code points: U+100000 under
    the key U+0F0000 raises in [chr]; and an empty key raises on
    non-empty data. *)
Example app_xor_encrypt_errors :
  AppText.xor_encrypt [1048576]%N [983040]%N =
    Raise (ValueError "chr() arg not in range(0x110000)") ∧
  AppText.xor_encrypt [49]%N [] = Raise ZeroDivisionError.
Proof. split; reflexivity. Qed.

(** ** quantegrity_app.py: signatures of strings of any code points *)

Section text_signature.
Import AppText AppExtra PyStr.

Lemma all_hex_append (a b : string) :
  all_hex (a ++ b) = (all_hex a && all_hex b)%bool.
Proof. induction a as [| c a IH]; simpl; [done | by rewrite IH, andb_assoc]. Qed.

Lemma all_hex_zeros n : all_hex (replicate_char n "0") = true.
Proof. induction n as [| n IH]; simpl; [done | exact IH]. Qed.

Lemma length_of_string (s : string) :
  List.length (of_string s) = String.length s.
Proof. induction s as [| c s IH]; simpl; [done | by rewrite IH]. Qed.

Lemma of_string_hex (s : string) :
  all_hex s = true → Forall (fun c => (c < 128)%N) (of_string s).
Proof.
  induction s as [| c s IH]; simpl; [constructor |].
  intros [Hc Hs]%andb_prop. constructor; [| by apply IH].
  unfold is_hex_digit in Hc.
  apply orb_prop in Hc as [H1 | H1]; apply andb_prop in H1 as [_ H2];
    apply N.leb_le in H2; lia.
Qed.

(** A character below 128 changes the seven low bits only. *)
Lemma lxor_low_bits (c k : N) :
  (c <= max_code_point)%N → (k < 128)%N → (N.lxor c k <= max_code_point)%N.
Proof.
  intros Hc Hk. unfold max_code_point in *.
  assert (Hhigh : (N.lxor c k / 128 = c / 128)%N).
  { change 128%N with (2 ^ 7)%N. rewrite <- !N.shiftr_div_pow2, N.shiftr_lxor.
    rewrite (N.shiftr_div_pow2 k), N.div_small by done. apply N.lxor_0_r. }
  pose proof (N.Div0.div_le_mono c 1114111 128 Hc) as Hdiv.
  change (1114111 / 128)%N with 8703%N in Hdiv.
  pose proof (N.div_mod (N.lxor c k) 128 ltac:(done)) as Hdm.
  pose proof (N.mod_lt (N.lxor c k) 128 ltac:(done)) as Hmod.
  lia.
Qed.

(** With a key of characters below 128 the loop never raises. *)
Lemma xor_chars_low_key data key :
  List.length key = List.length data →
  is_text data → Forall (fun c => (c < 128)%N) key →
  ∃ e, xor_chars data key = Ok e ∧ List.length e = List.length data ∧
       (Forall (fun c => (c < 256)%N) data → Forall (fun c => (c < 256)%N) e).
Proof.
  unfold is_text.
  revert key. induction data as [| d data IH]; intros key Hlen Hd Hk.
  - exists []. done.
  - destruct key as [| k key]; [done |].
    apply Forall_cons in Hd as [Hd0 Hd]. apply Forall_cons in Hk as [Hk0 Hk].
    destruct (IH key) as (e & He & Hl & Hsmall); [by injection Hlen | done | done |].
    exists (N.lxor d k :: e). cbn [xor_chars].
    rewrite chr_code_point by (by apply lxor_low_bits).
    rewrite He. split; [done |]. split; [simpl; by rewrite Hl |].
    intros [Hd256 Hrest]%Forall_cons. constructor; [| by apply Hsmall].
    apply (lxor_lt_pow2 d k 8); [done | lia].
Qed.

Lemma hex_digits_hex fuel n : all_hex (hex_digits fuel n) = true.
Proof.
  revert n. induction fuel as [| fuel IH]; intros n; simpl; [done |].
  destruct (N.ltb_spec n 16) as [Hlt | Hge].
  - destruct (hex_char_small n Hlt) as (ch & -> & Hch). simpl. by rewrite Hch.
  - rewrite all_hex_append, IH.
    destruct (hex_char_small (n mod 16)) as (ch & -> & Hch);
      [by apply N.mod_lt |].
    simpl. by rewrite Hch.
Qed.

Lemma hex_digits_length fuel n :
  1 ≤ String.length (hex_digits (S fuel) n).
Proof.
  simpl. destruct (N.ltb_spec n 16) as [Hlt | Hge].
  - by destruct (hex_char_small n Hlt) as (ch & -> & _).
  - rewrite string_length_app.
    destruct (hex_char_small (n mod 16)) as (ch & -> & _);
      [by apply N.mod_lt |].
    simpl. lia.
Qed.

Lemma size_nat_two n : (16 <= n)%N → ∃ fuel, N.size_nat n + 1 = S (S fuel).
Proof.
  intros Hn. destruct (N.size_nat n) as [| m] eqn:Hsize.
  - destruct n as [| p]; [lia |]. simpl in Hsize. destruct p; discriminate.
  - exists m. lia.
Qed.

Lemma hex02_shape_text n :
  all_hex (hex02 n) = true ∧ 2 ≤ String.length (hex02 n) ∧
  ((n < 256)%N → String.length (hex02 n) = 2).
Proof.
  unfold hex02. split; [| split].
  - by rewrite all_hex_append, all_hex_zeros, hex_digits_hex.
  - rewrite string_length_app, length_replicate_char. lia.
  - intros Hn. rewrite string_length_app, length_replicate_char.
    destruct (N.ltb_spec n 16) as [Hlt | Hge].
    + rewrite Nat.add_1_r. simpl.
      destruct (N.ltb_spec n 16); [| lia].
      by destruct (hex_char_small n Hlt) as (ch & -> & _).
    + destruct (size_nat_two n Hge) as [fuel ->].
      change (hex_digits (S (S fuel)) n)
        with (if (n <? 16)%N then App.hex_char n
              else (if (n / 16 <? 16)%N then App.hex_char (n / 16)
                    else hex_digits fuel (n / 16 / 16) ++ App.hex_char (n / 16 mod 16))
                   ++ App.hex_char (n mod 16)).
      destruct (N.ltb_spec n 16); [lia |].
      assert (Hq : (n / 16 < 16)%N) by (apply N.Div0.div_lt_upper_bound; lia).
      destruct (N.ltb_spec (n / 16) 16); [| lia].
      rewrite string_length_app.
      destruct (hex_char_small (n / 16) Hq) as (ch & -> & _).
      destruct (hex_char_small (n mod 16)) as (cl & -> & _);
        [by apply N.mod_lt |].
      done.
Qed.

Lemma hex_of_text_shape (t : text) :
  all_hex (hex_of_text t) = true ∧
  2 * List.length t ≤ String.length (hex_of_text t) ∧
  (Forall (fun c => (c < 256)%N) t →
   String.length (hex_of_text t) = 2 * List.length t).
Proof.
  induction t as [| c t (IHh & IHl & IHs)]; simpl; [done |].
  destruct (hex02_shape_text c) as (Hh & Hl & Hs).
  rewrite all_hex_append, string_length_app, Hh, IHh.
  split; [done |]. split; [lia |].
  intros [Hc Ht]%Forall_cons. rewrite (Hs Hc), (IHs Ht). lia.
Qed.

Lemma length_ljust0 (t : text) w : List.length t ≤ w → List.length (ljust0 t w) = w.
Proof. intros Hle. unfold ljust0. rewrite List.length_app, repeat_length. lia. Qed.

Lemma ljust0_Forall (P : N → Prop) (t : text) w :
  P 48%N → Forall P t → Forall P (ljust0 t w).
Proof.
  intros H0 Ht. unfold ljust0. apply Forall_app. split; [done |].
  induction (w - List.length t) as [| n IH]; simpl; by constructor.
Qed.

End text_signature.

(** X8. [generate_signature] never raises, whatever the string: it
    returns upper-case hexadecimal digits, two or more for each of the 32
    characters it signs, so at least 64; and exactly 64 when the first 32
    characters of the data have code points below 256.  (A character such
    as U+20AC takes four digits.) *)
Theorem generate_signature_shape {rng : Type} `{Quantum rng}
    (data : AppText.text) (s : rng) :
  AppText.is_text data →
  ∃ sig, fst (AppText.generate_signature data s) = Ok sig ∧
         AppExtra.all_hex sig = true ∧
         64 ≤ String.length sig ∧
         (Forall (fun c => (c < 256)%N) (take 32 data) → String.length sig = 64).
Proof.
  intros Hdata. unfold AppText.generate_signature.
  destruct (generate_qrng_string_ok 32 s) as [Hl Hh].
  destruct (App.generate_qrng_string 32 s) as [sig_key s']. simpl in Hl, Hh.
  assert (H32 : List.length (AppText.ljust0 (take 32 data) 32) = 32)
    by (apply length_ljust0; rewrite length_take; lia).
  assert (Hfit : AppText.fit_key 32 (AppText.of_string sig_key) =
                 Ok (AppText.of_string sig_key)).
  { unfold AppText.fit_key. rewrite length_of_string, Hl. reflexivity. }
  destruct (xor_chars_low_key (AppText.ljust0 (take 32 data) 32)
              (AppText.of_string sig_key)) as (e & He & Hlen & Hsmall).
  { by rewrite length_of_string, Hl, H32. }
  { apply ljust0_Forall; [unfold AppText.max_code_point; lia |].
    by apply Forall_take. }
  { by apply of_string_hex. }
  unfold AppText.xor_encrypt. rewrite H32, Hfit. simpl. rewrite He. simpl.
  destruct (hex_of_text_shape e) as (Hhex & Hlow & Hexact).
  exists (AppText.hex_of_text e). split; [done |]. split; [done |].
  rewrite Hlen, H32 in *. split; [lia |].
  intros Hd. rewrite Hexact; [done |].
  apply Hsmall. apply ljust0_Forall; [lia | done].
Qed.

Lemma generate_signature_shape_witness :
  AppText.is_text [8364]%N ∧
  fst (AppText.generate_signature [8364]%N Demo.tape) =
    Ok "20ED01760000000000000000000000000000000000000000000000000000000000" ∧
  ∃ sig, fst (AppText.generate_signature [8364]%N Demo.tape) = Ok sig ∧
         AppExtra.all_hex sig = true ∧
         64 ≤ String.length sig ∧
         (Forall (fun c => (c < 256)%N) (take 32 [8364]%N) → String.length sig = 64).
Proof.
  assert (Ht : AppText.is_text [8364]%N) by (repeat constructor; discriminate).
  split; [exact Ht |]. split; [reflexivity |].
  exact (generate_signature_shape [8364]%N Demo.tape Ht).
Defined.

(** The format [02X] on sample code points. *)
Example hex02_examples :
  AppText.hex02 10 = "0A" ∧ AppText.hex02 255 = "FF" ∧
  AppText.hex02 8364 = "20AC" ∧ AppText.hex02 1114111 = "10FFFF".
Proof. repeat split; reflexivity. Qed.

(** ** quantegrity_app.py: the strings of [App] among all strings

    On strings whose code points are below 256 the functions of [AppText]
    are those of [App]. *)

Section text_of_bytes.
Import AppText PyStr.

Lemma of_string_app (a b : string) :
  of_string (a ++ b) = (of_string a ++ of_string b)%list.
Proof. induction a as [| c a IH]; simpl; [done | by rewrite IH]. Qed.

Lemma of_string_substring_0 n (s : string) :
  of_string (substring 0 n s) = take n (of_string s).
Proof.
  revert n. induction s as [| c s IH]; intros [| n]; simpl; try done.
  by rewrite IH.
Qed.

Lemma of_string_str_repeat (key : string) n :
  of_string (App.str_repeat key n) = text_repeat (of_string key) n.
Proof. induction n as [| n IH]; simpl; [done |]. by rewrite of_string_app, IH. Qed.

Lemma of_string_bytes (s : string) : Forall (fun c => (c < 256)%N) (of_string s).
Proof.
  induction s as [| c s IH]; simpl; constructor; [apply N_ascii_bounded | done].
Qed.

Lemma xor_chars_of_string (data key : string) :
  xor_chars (of_string data) (of_string key) =
  match App.xor_chars data key with
  | Ok r => Ok (of_string r)
  | Raise e => Raise e
  end.
Proof.
  revert key. induction data as [| d data IH]; intros key; simpl; [done |].
  destruct key as [| k key]; simpl; [done |].
  pose proof (lxor_byte_bound (N_of_ascii d) (N_of_ascii k)
                (N_ascii_bounded d) (N_ascii_bounded k)) as Hx.
  rewrite chr_code_point by (unfold max_code_point; lia).
  simpl. rewrite IH. destruct (App.xor_chars data key) as [r | e]; simpl; [| done].
  by rewrite N_ascii_embedding.
Qed.

Lemma xor_encrypt_of_string (data key : string) :
  xor_encrypt (of_string data) (of_string key) =
  match App.xor_encrypt data key with
  | Ok r => Ok (of_string r)
  | Raise e => Raise e
  end.
Proof.
  unfold xor_encrypt, fit_key, App.xor_encrypt. rewrite !length_of_string.
  destruct (String.length key <? String.length data).
  - destruct (String.length key =? 0); simpl; [done |].
    rewrite <- of_string_str_repeat, <- of_string_substring_0.
    apply xor_chars_of_string.
  - destruct (String.length data <? String.length key); simpl.
    + rewrite <- of_string_substring_0. apply xor_chars_of_string.
    + apply xor_chars_of_string.
Qed.

Lemma hex02_byte (n : N) : (n < 256)%N → hex02 n = App.hex02 n.
Proof.
  intros Hn. unfold hex02, App.hex02.
  destruct (N.ltb_spec n 16) as [Hlt | Hge].
  - rewrite Nat.add_1_r. simpl. destruct (N.ltb_spec n 16); [| lia].
    rewrite N.div_small, N.mod_small by done.
    by destruct (hex_char_small n Hlt) as (ch & -> & _).
  - destruct (size_nat_two n Hge) as [fuel ->].
    change (hex_digits (S (S fuel)) n)
      with (if (n <? 16)%N then App.hex_char n
            else (if (n / 16 <? 16)%N then App.hex_char (n / 16)
                  else hex_digits fuel (n / 16 / 16) ++ App.hex_char (n / 16 mod 16))
                 ++ App.hex_char (n mod 16)).
    destruct (N.ltb_spec n 16); [lia |].
    assert (Hq : (n / 16 < 16)%N) by (apply N.Div0.div_lt_upper_bound; lia).
    destruct (N.ltb_spec (n / 16) 16); [| lia].
    destruct (hex_char_small (n / 16) Hq) as (ch & -> & _).
    by destruct (hex_char_small (n mod 16)) as (cl & -> & _);
      [by apply N.mod_lt |].
Qed.

Lemma hex_of_text_of_string (s : string) :
  hex_of_text (of_string s) = App.hex_of_string s.
Proof.
  induction s as [| c s IH]; simpl; [done |].
  by rewrite hex02_byte, IH by apply N_ascii_bounded.
Qed.

Lemma of_string_ljust0 (s : string) w :
  of_string (App.ljust0 s w) = ljust0 (of_string s) w.
Proof.
  unfold App.ljust0, ljust0. rewrite of_string_app, length_of_string. f_equal.
  induction (w - String.length s) as [| n IH]; simpl; [done | by rewrite IH].
Qed.

(** The signature of a string of [App] is the signature computed in
    [App]. *)
Lemma generate_signature_of_string {rng : Type} `{Quantum rng}
    (data : string) (s : rng) :
  generate_signature (of_string data) s = App.generate_signature data s.
Proof.
  unfold generate_signature, App.generate_signature.
  destruct (App.generate_qrng_string 32 s) as [sig_key s'].
  rewrite <- of_string_substring_0, <- of_string_ljust0, xor_encrypt_of_string.
  destruct (App.xor_encrypt _ sig_key) as [r | e]; simpl; [| done].
  by rewrite hex_of_text_of_string.
Qed.

End text_of_bytes.

(** ** Insertion-ordered dictionaries *)

Section pydict_facts.
Context {V : Type}.
Implicit Types (d : PyDict.t V) (k : string) (v : V).

Lemma pydict_get_set_eq d k v : PyDict.get (PyDict.set d k v) k = Some v.
Proof.
  induction d as [| [k' v'] d IH]; simpl.
  - by rewrite String.eqb_refl.
  - destruct (String.eqb_spec k' k) as [-> | Hne]; simpl.
    + by rewrite String.eqb_refl.
    + destruct (String.eqb_spec k' k); [done | apply IH].
Qed.

Lemma pydict_get_set_ne d k k' v :
  k ≠ k' → PyDict.get (PyDict.set d k v) k' = PyDict.get d k'.
Proof.
  intros Hne. induction d as [| [k0 v0] d IH]; simpl.
  - destruct (String.eqb_spec k k'); [done | done].
  - destruct (String.eqb_spec k0 k) as [-> | Hne0]; simpl.
    + destruct (String.eqb_spec k k'); done.
    + destruct (String.eqb_spec k0 k'); [done | apply IH].
Qed.

Lemma pydict_get_None d k : PyDict.get d k = None ↔ k ∉ PyDict.keys d.
Proof.
  unfold PyDict.keys. induction d as [| [k' v'] d IH]; simpl.
  - split; [intros _; apply not_elem_of_nil | done].
  - rewrite not_elem_of_cons. destruct (String.eqb_spec k' k) as [-> | Hne].
    + split; [done | intros [Hk _]; done].
    + rewrite IH. split; [intros Hk; split; [congruence | done] | by intros [_ Hk]].
Qed.

Lemma pydict_keys_set d k v :
  PyDict.keys (PyDict.set d k v) =
  if PyDict.contains d k then PyDict.keys d else (PyDict.keys d ++ [k])%list.
Proof.
  unfold PyDict.keys, PyDict.contains.
  induction d as [| [k' v'] d IH]; [done |]. cbn [PyDict.set PyDict.get].
  destruct (String.eqb_spec k' k) as [-> | Hne]; [done |].
  rewrite !fmap_cons, IH. by destruct (PyDict.get d k).
Qed.

Lemma pydict_set_NoDup d k v :
  NoDup (PyDict.keys d) → NoDup (PyDict.keys (PyDict.set d k v)).
Proof.
  intros Hnd. rewrite pydict_keys_set. unfold PyDict.contains.
  destruct (PyDict.get d k) eqn:Hg; [done |].
  apply pydict_get_None in Hg.
  apply NoDup_app. split; [done |]. split; [| apply NoDup_singleton].
  intros x Hx Hx'. apply list_elem_of_singleton in Hx' as ->. done.
Qed.

End pydict_facts.

(** ** quantegrity_app.py: shuffling and table Q *)

Section mixnet_shuffle.
Import App.Mixnet MixnetInv.
Context {rng : Type} `{Quantum rng}.

Lemma swap_Permutation {A} (items : list A) i j : swap items i j ≡ₚ items.
Proof.
  unfold swap. destruct (items !! i) as [x |] eqn:Hi; [| done].
  destruct (items !! j) as [y |] eqn:Hj; [| done].
  by apply Permutation_insert_swap.
Qed.

Lemma quantum_shuffle_from_Permutation {A} i (items : list A) (s : rng) :
  fst (quantum_shuffle_from i items s) ≡ₚ items.
Proof.
  revert items s. induction i as [| i IH]; intros items s; [done |].
  cbn [quantum_shuffle_from].
  destruct (Qrng.qrng_bits 8 s) as [random_bits s1].
  etrans; [apply IH | apply swap_Permutation].
Qed.

Lemma quantum_shuffle_Permutation {A} (items : list A) (s : rng) :
  fst (_quantum_shuffle items s) ≡ₚ items.
Proof. apply quantum_shuffle_from_Permutation. Qed.

Lemma gen_table_q_other (items : list (string * PyDict.t string)) tq (s : rng) b :
  b ∉ items.*1 →
  PyDict.get (fst (gen_table_q items tq s)) b = PyDict.get tq b.
Proof.
  revert tq s. induction items as [| [b0 row0] items IH]; intros tq s Hb; simpl;
    [done |].
  apply not_elem_of_cons in Hb as [Hne Hb].
  destruct (_quantum_shuffle (PyDict.values row0) s) as [codes s1].
  rewrite IH by done. by apply pydict_get_set_ne.
Qed.

Lemma gen_table_q_rows (items : list (string * PyDict.t string)) tq (s : rng) b row :
  NoDup items.*1 → PyDict.get items b = Some row →
  ∃ codes, PyDict.get (fst (gen_table_q items tq s)) b = Some codes ∧
           codes ≡ₚ PyDict.values row.
Proof.
  revert tq s. induction items as [| [b0 row0] items IH]; intros tq s Hnd Hb;
    simpl in *; [done |].
  apply NoDup_cons in Hnd as [Hb0 Hnd].
  pose proof (quantum_shuffle_Permutation (PyDict.values row0) s) as Hperm.
  destruct (_quantum_shuffle (PyDict.values row0) s) as [codes s1]. simpl in Hperm.
  destruct (String.eqb_spec b0 b) as [-> | Hne].
  - injection Hb as <-. exists codes. split; [| done].
    rewrite gen_table_q_other by done. apply pydict_get_set_eq.
  - by apply IH.
Qed.

Lemma gen_table_p_NoDup ids cands tp all (s : rng) :
  NoDup (PyDict.keys tp) →
  NoDup (PyDict.keys (fst (fst (gen_table_p ids cands tp all s)))).
Proof.
  revert tp all s. induction ids as [| i ids IH]; intros tp all s Hnd; simpl;
    [done |].
  destruct (gen_row (ballot_str i) cands PyDict.empty all s) as [[row all1] s1].
  apply IH. by apply pydict_set_NoDup.
Qed.

End mixnet_shuffle.

(** X11. [_quantum_shuffle] returns a permutation of the list it is given,
    whatever the source measures. *)
Theorem quantum_shuffle_permutes {rng : Type} `{Quantum rng} {A : Type}
    (items : list A) (s : rng) :
  fst (App.Mixnet._quantum_shuffle items s) ≡ₚ items.
Proof. apply quantum_shuffle_from_Permutation. Qed.

(** X12. In every generated table set, table Q lists for each ballot of
    table P exactly the codes of that ballot's row, in some order. *)
Theorem table_q_permutes_table_p {rng : Type} `{Quantum rng}
    (g0 g : App.Mixnet.MixnetGenerator) (s s' : rng) (t : App.Mixnet.MixnetTables)
    (b : string) (row : PyDict.t string) :
  App.Mixnet.generate_tables g0 s = ((g, s'), Ok t) →
  PyDict.get (App.Mixnet.table_p t) b = Some row →
  ∃ codes, PyDict.get (App.Mixnet.table_q t) b = Some codes ∧
           codes ≡ₚ PyDict.values row.
Proof.
  unfold App.Mixnet.generate_tables.
  pose proof (gen_table_p_NoDup (seq 0 (App.Mixnet.num_ballots g0))
                (App.Mixnet.candidates g0) PyDict.empty [] s (NoDup_nil_2)) as Hnd.
  destruct (App.Mixnet.gen_table_p _ _ _ _ s) as [[tp all] s1]. simpl in Hnd.
  pose proof (fun row Hrow => gen_table_q_rows (PyDict.items tp) PyDict.empty s1 b row
                                Hnd Hrow) as Hq.
  destruct (App.Mixnet.gen_table_q (PyDict.items tp) PyDict.empty s1) as [tq s2].
  destruct (App.Mixnet.gen_table_r all tq 0 all []) as [tr | e]; [| done].
  intros [= <- <- <-] Hrow. simpl in *. by apply Hq.
Qed.

Lemma table_q_permutes_table_p_witness :
  ∃ g s' t,
    App.Mixnet.generate_tables Demo.generator Demo.tape_colliding = ((g, s'), Ok t) ∧
    PyDict.get (App.Mixnet.table_p t) "ballot_000001" =
      Some [("A", "5E6F"); ("B", "A1F0")] ∧
    ∃ codes, PyDict.get (App.Mixnet.table_q t) "ballot_000001" = Some codes ∧
             codes ≡ₚ PyDict.values [("A", "5E6F"); ("B", "A1F0")].
Proof.
  destruct (App.Mixnet.generate_tables Demo.generator Demo.tape_colliding)
    as [[g s'] [t | e]] eqn:Hgen.
  - exists g, s', t.
    assert (Hrow : PyDict.get (App.Mixnet.table_p t) "ballot_000001" =
                   Some [("A", "5E6F"); ("B", "A1F0")]).
    { vm_compute in Hgen. injection Hgen as <- <- <-. reflexivity. }
    split; [reflexivity |]. split; [exact Hrow |].
    exact (table_q_permutes_table_p Demo.generator g Demo.tape_colliding s' t
             "ballot_000001" [("A", "5E6F"); ("B", "A1F0")] Hgen Hrow).
  - vm_compute in Hgen. discriminate Hgen.
Defined.

(** X13. Flagging a code that no row of table R carries changes nothing
    and returns [False]; so does flagging before any tables exist. *)
Theorem flag_vote_unknown_code (g : App.Mixnet.MixnetGenerator) (c : string) :
  (∀ t, App.Mixnet.tables g = Some t →
        c ∉ map App.Mixnet.code (App.Mixnet.table_r t)) →
  App.Mixnet.flag_vote g c = (g, Ok false).
Proof.
  intros Hc. unfold App.Mixnet.flag_vote.
  destruct g as [cands n [t |]]; simpl in *; [| done].
  specialize (Hc t eq_refl). destruct t as [tp tq tr ts]. simpl in *.
  assert (Hf : App.Mixnet.flag_in tr ts c = (tr, ts, Ok false)).
  { induction tr as [| e tr IH]; simpl; [done |].
    apply not_elem_of_cons in Hc as [Hne Hc].
    destruct (String.eqb_spec (App.Mixnet.code e) c); [congruence |].
    by rewrite IH. }
  by rewrite Hf.
Qed.

Lemma flag_vote_unknown_code_witness :
  ∃ g s' t,
    App.Mixnet.generate_tables Demo.generator Demo.tape_colliding = ((g, s'), Ok t) ∧
    App.Mixnet.tables g = Some t ∧
    map App.Mixnet.code (App.Mixnet.table_r t) = ["A1F0"; "3C4D"; "5E6F"; "A1F0"] ∧
    App.Mixnet.flag_vote g "FFFF" = (g, Ok false).
Proof.
  destruct (App.Mixnet.generate_tables Demo.generator Demo.tape_colliding)
    as [[g s'] [t | e]] eqn:Hgen.
  - exists g, s', t.
    assert (Ht : App.Mixnet.tables g = Some t ∧
                 map App.Mixnet.code (App.Mixnet.table_r t) =
                   ["A1F0"; "3C4D"; "5E6F"; "A1F0"]).
    { vm_compute in Hgen. injection Hgen as <- <- <-. split; reflexivity. }
    destruct Ht as [Hg Hcodes].
    split; [reflexivity |]. split; [exact Hg |]. split; [exact Hcodes |].
    apply (flag_vote_unknown_code g "FFFF").
    intros t' Ht'. rewrite Hg in Ht'. injection Ht' as <-. rewrite Hcodes.
    intros Hin.
    repeat (apply elem_of_cons in Hin as [Hin | Hin]; [discriminate Hin |]).
    by apply elem_of_nil in Hin.
  - vm_compute in Hgen. discriminate Hgen.
Defined.

(** ** quantegrity_app.py: the tally counts the flagged rows *)

Section mixnet_counting.
Import App.Mixnet MixnetInv MixnetExtra.
Context {rng : Type} `{Quantum rng}.

Lemma map_take {A B} (f : A → B) n (l : list A) :
  map f (take n l) = take n (map f l).
Proof. revert n. induction l as [| x l IH]; intros [| n]; simpl; by rewrite ?IH. Qed.

Lemma cand_rows_app c l1 l2 :
  cand_rows c (l1 ++ l2)%list = (cand_rows c l1 ++ cand_rows c l2)%list.
Proof. apply List.filter_app. Qed.

Lemma cand_rows_length_keys c (l l' : list REntry) :
  map candidate l = map candidate l' →
  List.length (cand_rows c l) = List.length (cand_rows c l').
Proof.
  revert l'. induction l as [| e l IH]; intros [| e' l'] Hm; simpl in Hm; try done.
  injection Hm as He Hm. unfold cand_rows in *. simpl. rewrite He.
  destruct (String.eqb (candidate e') c); simpl; by rewrite (IH l').
Qed.

Lemma row_key_candidate (l l' : list REntry) :
  map row_key l = map row_key l' → map candidate l = map candidate l'.
Proof.
  intros Hk. apply (f_equal (map (fun k => snd (fst k)))) in Hk.
  by rewrite !map_map in Hk.
Qed.

Lemma pointers_ok_transfer tr tr' :
  map row_key tr' = map row_key tr → pointers_ok tr → pointers_ok tr'.
Proof.
  intros Hk Hp i e' He'.
  assert (Hi : (map row_key tr') !! i = Some (row_key e'))
    by by rewrite list_lookup_fmap, He'.
  rewrite Hk, list_lookup_fmap in Hi.
  destruct (tr !! i) as [e |] eqn:He; [| done]. injection Hi as Hc Hcand Hptr.
  rewrite <- Hptr, <- Hcand, (Hp i e He).
  apply cand_rows_length_keys. rewrite !map_take.
  f_equal. symmetry. by apply row_key_candidate.
Qed.

(** What the scan of table R finds. *)
Lemma flag_in_cases tr ts c :
  ((c ∉ map code tr) ∧ flag_in tr ts c = (tr, ts, Ok false)) ∨
  (∃ l1 e l2, tr = (l1 ++ e :: l2)%list ∧ code e = c ∧
     flag_in tr ts c =
       match ts !! candidate e with
       | None => ((l1 ++ set_flag e :: l2)%list, ts, Raise KeyError)
       | Some flags =>
           if snd (s_pointer e) <? List.length flags
           then ((l1 ++ set_flag e :: l2)%list,
                 <[candidate e := <[snd (s_pointer e) := true]> flags]> ts, Ok true)
           else ((l1 ++ set_flag e :: l2)%list, ts, Raise IndexError)
       end).
Proof.
  induction tr as [| e tr IH]; simpl.
  - left. split; [apply not_elem_of_nil | done].
  - destruct (String.eqb_spec (code e) c) as [Heq | Hne].
    + right. exists [], e, tr. split; [done |]. split; [done |].
      destruct (ts !! candidate e) as [flags |]; [| done].
      by destruct (snd (s_pointer e) <? List.length flags).
    + destruct IH as [[Hnot ->] | (l1 & e' & l2 & -> & Hc & ->)].
      * left. split; [| done]. apply not_elem_of_cons. done.
      * right. exists (e :: l1), e', l2. split; [done |]. split; [done |].
        destruct (ts !! candidate e') as [flags |]; [| done].
        by destruct (snd (s_pointer e') <? List.length flags).
Qed.

Lemma columns_ok_flag l1 e l2 ts flags :
  columns_ok (l1 ++ e :: l2) ts → pointers_ok (l1 ++ e :: l2) →
  ts !! candidate e = Some flags →
  columns_ok (l1 ++ set_flag e :: l2)
             (<[candidate e := <[snd (s_pointer e) := true]> flags]> ts).
Proof.
  intros Hcol Hptr Hfl cand fl Hl.
  assert (Hpos : snd (s_pointer e) = List.length (cand_rows (candidate e) l1)).
  { rewrite (Hptr (List.length l1) e).
    - by rewrite take_app_length.
    - by rewrite list_lookup_middle. }
  rewrite cand_rows_app. unfold cand_rows at 2. simpl. fold (cand_rows cand l2).
  destruct (decide (candidate e = cand)) as [<- | Hne].
  - rewrite lookup_insert_eq in Hl. injection Hl as <-.
    rewrite (Hcol _ _ Hfl), cand_rows_app. unfold cand_rows at 2. simpl.
    fold (cand_rows (candidate e) l2). rewrite String.eqb_refl.
    rewrite !map_app. simpl. rewrite Hpos, <- (length_map flag).
    by rewrite insert_app_r_alt, Nat.sub_diag by lia.
  - rewrite lookup_insert_ne in Hl by done.
    rewrite (Hcol _ _ Hl), cand_rows_app. unfold cand_rows at 2. simpl.
    fold (cand_rows cand l2).
    by destruct (String.eqb_spec (candidate e) cand).
Qed.

Lemma flag_in_counting tr ts c tr1 ts1 r :
  slots_ok tr ts → columns_ok tr ts → pointers_ok tr →
  flag_in tr ts c = (tr1, ts1, r) →
  slots_ok tr1 ts1 ∧ columns_ok tr1 ts1 ∧ pointers_ok tr1 ∧ same_shape ts ts1.
Proof.
  intros Hok Hcol Hptr Hf.
  assert (Hk : map row_key tr1 = map row_key tr) by by eapply flag_in_keys.
  assert (Hs : same_shape ts ts1) by by eapply flag_in_shape.
  split; [by eapply slots_ok_transfer |]. split; [| split; [| done]].
  - destruct (flag_in_cases tr ts c) as [[_ Hnf] | (l1 & e & l2 & -> & Hc & Hfound)].
    + rewrite Hnf in Hf. by injection Hf as <- <- <-.
    + rewrite Hfound in Hf.
      assert (He : ∃ flags, ts !! candidate e = Some flags ∧
                            snd (s_pointer e) < List.length flags).
      { unfold slots_ok in Hok. rewrite Forall_forall in Hok. apply Hok.
        apply elem_of_app. right. apply list_elem_of_here. }
      destruct He as (flags & Hfl & Hlt). rewrite Hfl in Hf.
      apply Nat.ltb_lt in Hlt. rewrite Hlt in Hf. injection Hf as <- <- <-.
      by apply columns_ok_flag.
  - by eapply pointers_ok_transfer.
Qed.

Lemma flag_votes_counting g t cs :
  tables g = Some t →
  slots_ok (table_r t) (table_s t) → columns_ok (table_r t) (table_s t) →
  pointers_ok (table_r t) →
  ∃ t', tables (flag_votes g cs) = Some t' ∧
        columns_ok (table_r t') (table_s t') ∧
        same_shape (table_s t) (table_s t').
Proof.
  revert g t. induction cs as [| c cs IH]; intros g t Ht Hok Hcol Hptr; simpl.
  - exists t. split; [done |]. split; [done | apply same_shape_refl].
  - unfold flag_vote. rewrite Ht.
    destruct (flag_in (table_r t) (table_s t) c) as [[tr1 ts1] r] eqn:Hf. simpl.
    destruct (flag_in_counting _ _ _ _ _ _ Hok Hcol Hptr Hf)
      as (Hok1 & Hcol1 & Hptr1 & Hs1).
    match goal with
    | |- context [flag_votes ?g1 cs] =>
        destruct (IH g1 {| table_p := table_p t; table_q := table_q t;
                           table_r := tr1; table_s := ts1 |}
                    eq_refl Hok1 Hcol1 Hptr1) as (t' & Ht' & Hcol' & Hs')
    end.
    exists t'. split; [exact Ht' |]. split; [done |].
    eapply same_shape_trans; [exact Hs1 | exact Hs'].
Qed.

(** The rows built by [gen_table_r], one per drawn code. *)
Lemma gen_table_r_struct all tq i todo tr0 tr' :
  gen_table_r all tq i todo tr0 = Ok tr' →
  ∃ new, tr' = (tr0 ++ new)%list ∧
         map candidate new = map ci_candidate todo ∧
         Forall (fun e => flag e = false) new ∧
         ∀ k e, new !! k = Some e →
           snd (s_pointer e) = count_candidate (take (i + k) all) (candidate e).
Proof.
  revert i tr0. induction todo as [| ci rest IH]; intros i tr0 Hg; simpl in Hg.
  - injection Hg as <-. exists []. rewrite app_nil_r. repeat split; done.
  - destruct (PyDict.get tq (ci_ballot_id ci)) as [codes |]; [| done].
    destruct (list_index codes (ci_code ci)) as [q_position |]; [| done].
    destruct (IH _ _ Hg) as (new & -> & Hc & Hfl & Hp).
    eexists (_ :: new). split; [by rewrite <- app_assoc |].
    split; [simpl; by rewrite Hc |]. split; [by apply Forall_cons |].
    intros [| k] e Hk; simpl in Hk.
    + injection Hk as <-. simpl. by rewrite Nat.add_0_r.
    + rewrite (Hp k e Hk). f_equal. f_equal. lia.
Qed.

Lemma count_candidate_rows c (tr : list REntry) (all : list CodeInfo) :
  map candidate tr = map ci_candidate all →
  List.length (cand_rows c tr) = count_candidate all c.
Proof.
  revert all. induction tr as [| e tr IH]; intros [| ci all] Hm; simpl in Hm;
    try done.
  injection Hm as He Hm. unfold cand_rows, count_candidate in *. simpl.
  rewrite He. destruct (String.eqb (ci_candidate ci) c); simpl; by rewrite (IH all).
Qed.

Lemma gen_table_s_values cands all cand flags :
  gen_table_s cands all !! cand = Some flags →
  flags = repeat false (count_candidate all cand).
Proof.
  unfold gen_table_s.
  assert (Hgen : ∀ acc : gmap string (list bool),
            (∀ c f, acc !! c = Some f → f = repeat false (count_candidate all c)) →
            ∀ c f, foldl (fun ts cand =>
                     <[cand := repeat false (count_candidate all cand)]> ts)
                     acc cands !! c = Some f →
                   f = repeat false (count_candidate all c)).
  { induction cands as [| x cands IH]; intros acc Hacc c f; simpl; [apply Hacc |].
    apply IH. intros c' f' Hl. destruct (decide (x = c')) as [-> | Hne].
    - rewrite lookup_insert_eq in Hl. by injection Hl as <-.
    - rewrite lookup_insert_ne in Hl by done. by apply Hacc. }
  apply Hgen. intros c f Hl. by rewrite lookup_empty in Hl.
Qed.

Lemma map_flag_false (l : list REntry) :
  Forall (fun e => flag e = false) l → map flag l = repeat false (List.length l).
Proof.
  induction 1 as [| e l He _ IH]; simpl; [done | by rewrite He, IH].
Qed.

Lemma sum_flags_rows (l : list REntry) :
  sum_flags (map flag l) = List.length (List.filter flag l).
Proof.
  induction l as [| e l IH]; simpl; [done |].
  destruct (flag e); simpl; by rewrite IH.
Qed.

Lemma generate_tables_counting g0 (s : rng) g s' t :
  generate_tables g0 s = ((g, s'), Ok t) →
  columns_ok (table_r t) (table_s t) ∧ pointers_ok (table_r t) ∧
  Forall (fun e => flag e = false) (table_r t) ∧
  ∀ cand, cand ∈ candidates g0 → is_Some (table_s t !! cand).
Proof.
  unfold generate_tables.
  destruct (gen_table_p (seq 0 (num_ballots g0)) (candidates g0) PyDict.empty [] s)
    as [[tp all] s1].
  destruct (gen_table_q (PyDict.items tp) PyDict.empty s1) as [tq s2].
  destruct (gen_table_r all tq 0 all []) as [tr | e] eqn:Hr; [| done].
  intros [= <- <- <-]. simpl.
  destruct (gen_table_r_struct _ _ _ _ _ _ Hr) as (new & -> & Hc & Hfl & Hp).
  rewrite app_nil_l. split; [| split; [| split; [done |]]].
  - intros cand flags Hl. apply gen_table_s_values in Hl as ->.
    rewrite <- (count_candidate_rows cand new all Hc).
    rewrite map_flag_false; [done |].
    unfold cand_rows. rewrite Forall_forall in Hfl. apply Forall_forall.
    intros e He. apply Hfl. apply list_elem_of_In in He.
    apply List.filter_In in He as [He _]. by apply list_elem_of_In.
  - intros i e He. rewrite (Hp i e He). simpl.
    symmetry. apply count_candidate_rows. by rewrite !map_take, Hc.
  - intros cand Hin. rewrite gen_table_s_lookup by done. eauto.
Qed.

End mixnet_counting.

(** X14. The tally counts exactly the flagged rows. For every generated
    table set, after any calls of [flag_vote], the tally of each candidate
    of the election equals the number of rows of table R of that candidate
    whose flag is set; on the freshly generated tables it is 0. *)
Theorem tally_counts_flagged_rows {rng : Type} `{Quantum rng}
    (g0 g : App.Mixnet.MixnetGenerator) (s s' : rng)
    (t : App.Mixnet.MixnetTables) (cs : list string) (cand : string) :
  App.Mixnet.generate_tables g0 s = ((g, s'), Ok t) →
  cand ∈ App.Mixnet.candidates g0 →
  App.Mixnet.get_tally g !! cand = Some 0 ∧
  ∃ t', App.Mixnet.tables (MixnetInv.flag_votes g cs) = Some t' ∧
        App.Mixnet.get_tally (MixnetInv.flag_votes g cs) !! cand =
          Some (MixnetExtra.flagged_rows cand (App.Mixnet.table_r t')).
Proof.
  intros Hgen Hcand.
  destruct (generate_tables_slots_ok _ _ _ _ _ Hgen) as [Ht Hok].
  destruct (generate_tables_counting _ _ _ _ _ Hgen) as (Hcol & Hptr & Hfl & Hdom).
  assert (Htally : ∀ g1 t1, App.Mixnet.tables g1 = Some t1 →
            MixnetExtra.columns_ok (App.Mixnet.table_r t1) (App.Mixnet.table_s t1) →
            is_Some (App.Mixnet.table_s t1 !! cand) →
            App.Mixnet.get_tally g1 !! cand =
              Some (MixnetExtra.flagged_rows cand (App.Mixnet.table_r t1))).
  { intros g1 t1 Ht1 Hcol1 [flags Hfl1]. unfold App.Mixnet.get_tally.
    rewrite Ht1, lookup_fmap, Hfl1. simpl.
    by rewrite (Hcol1 _ _ Hfl1), sum_flags_rows. }
  split.
  - rewrite (Htally g t Ht Hcol (Hdom cand Hcand)). f_equal.
    unfold MixnetExtra.flagged_rows.
    assert (Hnone : ∀ l, Forall (fun e => App.Mixnet.flag e = false) l →
                         List.filter App.Mixnet.flag l = []).
    { induction 1 as [| e l He _ IH]; simpl; [done | by rewrite He]. }
    rewrite Hnone; [done |].
    unfold MixnetExtra.cand_rows. rewrite Forall_forall in Hfl. apply Forall_forall.
    intros e He. apply Hfl. apply list_elem_of_In in He.
    apply List.filter_In in He as [He _]. by apply list_elem_of_In.
  - destruct (flag_votes_counting g t cs Ht Hok Hcol Hptr) as (t' & Ht' & Hcol' & Hs').
    exists t'. split; [done |]. apply Htally; [done | done |].
    destruct (Hdom cand Hcand) as [flags Hflags].
    destruct (Hs' _ _ Hflags) as (flags' & Hflags' & _). eauto.
Qed.

Lemma tally_counts_flagged_rows_witness :
  ∃ g s' t,
    App.Mixnet.generate_tables Demo.generator Demo.tape_colliding = ((g, s'), Ok t) ∧
    App.Mixnet.get_tally g !! "A" = Some 0 ∧
    ∃ t', App.Mixnet.tables (MixnetInv.flag_votes g ["3C4D"; "A1F0"]) = Some t' ∧
          App.Mixnet.get_tally (MixnetInv.flag_votes g ["3C4D"; "A1F0"]) !! "A" =
            Some (MixnetExtra.flagged_rows "A" (App.Mixnet.table_r t')).
Proof.
  destruct (App.Mixnet.generate_tables Demo.generator Demo.tape_colliding)
    as [[g s'] [t | e]] eqn:Hgen.
  - exists g, s', t. split; [reflexivity |].
    apply (tally_counts_flagged_rows Demo.generator g Demo.tape_colliding s' t
             ["3C4D"; "A1F0"] "A" Hgen).
    apply list_elem_of_here.
  - vm_compute in Hgen. discriminate Hgen.
Defined.

(** ** quantegrity_app.py: the bulletin board as a ledger *)

Section board_ledger.
Import App.Board BoardRuns BoardExtra.
Context {rng : Type} `{Quantum rng}.

(** A call either leaves the board as it is or publishes one entry whose
    ballot was not published before. *)
Lemma step_cases (st : BulletinBoard * rng) op :
  fst (step st op) = fst st ∨
  fst (step st op) = seal_board (fst st) ∨
  ∃ e ty, fst (step st op) = publish (fst st) e ty ∧
          published_ballots (fst st) !! ballot_id e = None ∧
          entry_type e = ty ∧ (ty = "vote" ∨ ty = "audit").
Proof.
  destruct st as [bb s].
  destruct op as [bid codes proof now | bid all_codes now |]; simpl.
  - unfold post_vote. destruct (is_sealed bb); [by left |].
    destruct (published_ballots bb !! bid) eqn:Hp; [by left |].
    destruct (_generate_entry_id s) as [eid s1].
    destruct (_generate_signature bid codes s1) as [[sig | e] s2]; [| by left].
    right. right. simpl. eexists _, _. split; [done |]. simpl. eauto.
  - unfold post_audit.
    destruct (published_ballots bb !! bid) eqn:Hp; [by left |].
    destruct (_generate_entry_id s) as [eid s1].
    destruct (_generate_signature bid (PyDict.values all_codes) s1)
      as [[sig | e] s2]; [| by left].
    right. right. simpl. eexists _, _. split; [done |]. simpl. eauto.
  - right. by left.
Qed.

Lemma step_prefix (st : BulletinBoard * rng) op :
  entries (fst st) `prefix_of` entries (fst (step st op)).
Proof.
  destruct (step_cases st op) as [-> | [-> | (e & ty & -> & _)]]; simpl; try done.
  by apply prefix_app_r.
Qed.

Lemma run_prefix ops (st : BulletinBoard * rng) :
  entries (fst st) `prefix_of` entries (fst (run ops st)).
Proof.
  revert st. induction ops as [| op ops IH]; intros st; simpl; [done |].
  etrans; [apply step_prefix | apply IH].
Qed.

Lemma index_agrees_new : index_agrees new_board.
Proof.
  intros bid ty. simpl. split.
  - by rewrite lookup_empty.
  - intros (e & He & _). by apply elem_of_nil in He.
Qed.

Lemma index_agrees_publish bb e :
  index_agrees bb → published_ballots bb !! ballot_id e = None →
  index_agrees (publish bb e (entry_type e)).
Proof.
  intros Hidx Hfresh bid ty. simpl. split.
  - destruct (decide (ballot_id e = bid)) as [<- | Hne].
    + rewrite lookup_insert_eq. intros [= <-]. exists e.
      split; [| done]. apply elem_of_app. right. apply list_elem_of_here.
    + rewrite lookup_insert_ne by done. intros Hl.
      apply Hidx in Hl as (e' & He' & Hb & Ht). exists e'.
      split; [| done]. apply elem_of_app. by left.
  - intros (e' & He' & Hb & Ht). apply elem_of_app in He' as [He' | He'].
    + assert (Hold : published_ballots bb !! bid = Some ty)
        by (apply Hidx; eauto).
      destruct (decide (ballot_id e = bid)) as [Heq | Hne]; [congruence |].
      by rewrite lookup_insert_ne.
    + apply list_elem_of_singleton in He' as ->. subst. apply lookup_insert_eq.
Qed.

Lemma run_index_agrees ops (st : BulletinBoard * rng) :
  index_agrees (fst st) → index_agrees (fst (run ops st)).
Proof.
  revert st. induction ops as [| op ops IH]; intros st Hidx; simpl; [done |].
  apply IH.
  destruct (step_cases st op) as [-> | [-> | (e & ty & -> & Hfresh & <- & _)]];
    [done | done |].
  by apply index_agrees_publish.
Qed.

Lemma find_app_last {A} (f : A → bool) (l : list A) (x : A) :
  (∀ y, y ∈ l → f y = false) → f x = true →
  List.find f (l ++ [x]) = Some x.
Proof.
  intros Hl Hx. induction l as [| y l IH]; simpl; [by rewrite Hx |].
  rewrite (Hl y) by apply list_elem_of_here.
  apply IH. intros z Hz. apply Hl. by apply list_elem_of_further.
Qed.

End board_ledger.

(** X15. The bulletin board is append-only: whatever calls of
    [post_vote], [post_audit] and [seal_board] are made, on any board,
    the entries present before are still there afterwards, unchanged and
    in the same order, at the front of the list. *)
Theorem board_is_append_only {rng : Type} `{Quantum rng}
    (ops : list BoardRuns.board_op) (st : App.Board.BulletinBoard * rng) :
  App.Board.entries (fst st) `prefix_of`
  App.Board.entries (fst (BoardRuns.run ops st)).
Proof. apply run_prefix. Qed.

(** X16. The index agrees with the ledger: after any calls on a new
    board, [published_ballots] maps a ballot to an entry type exactly when
    the board holds an entry of that type for that ballot. *)
Theorem board_index_agrees_with_entries {rng : Type} `{Quantum rng}
    (ops : list BoardRuns.board_op) (s : rng) (bid ty : string) :
  let bb := fst (BoardRuns.run ops (App.Board.new_board, s)) in
  App.Board.published_ballots bb !! bid = Some ty ↔
  ∃ e, e ∈ App.Board.entries bb ∧ App.Board.ballot_id e = bid ∧
       App.Board.entry_type e = ty.
Proof.
  intros bb. apply (run_index_agrees ops (App.Board.new_board, s)).
  apply index_agrees_new.
Qed.

(** X17. A posted vote is found again: when [post_vote] succeeds on a
    board reached from a new one, [get_ballot_entry] for that ballot
    returns the entry just posted, with the returned entry id, the codes,
    the proof and the time given, and of type "vote". *)
Theorem posted_vote_is_found {rng : Type} `{Quantum rng}
    (ops : list BoardRuns.board_op) (s0 s s' : rng)
    (bid : string) (codes : list string) (proof : option string) (now : N)
    (bb' : App.Board.BulletinBoard) (eid : string) :
  App.Board.post_vote (fst (BoardRuns.run ops (App.Board.new_board, s0)))
    bid codes proof now s = ((bb', s'), Ok eid) →
  ∃ e, App.Board.get_ballot_entry bb' bid = Some e ∧
       App.Board.entry_id e = eid ∧
       App.Board.confirmation_codes e = codes ∧
       App.Board.quantum_proof e = proof ∧
       App.Board.timestamp e = now ∧
       App.Board.entry_type e = "vote".
Proof.
  set (bb := fst (BoardRuns.run ops (App.Board.new_board, s0))).
  assert (Hidx : BoardExtra.index_agrees bb)
    by apply (run_index_agrees ops (App.Board.new_board, s0)), index_agrees_new.
  unfold App.Board.post_vote. destruct (App.Board.is_sealed bb); [done |].
  destruct (App.Board.published_ballots bb !! bid) eqn:Hp; [done |].
  destruct (App.Board._generate_entry_id s) as [eid' s1].
  destruct (App.Board._generate_signature bid codes s1) as [[sig | e] s2]; [| done].
  intros [= <- <- <-]. eexists. split.
  { unfold App.Board.get_ballot_entry. simpl. apply find_app_last.
    - intros y Hy.
      destruct (String.eqb_spec (App.Board.ballot_id y) bid) as [Heq | Hne]; [| done].
      assert (Hsome : App.Board.published_ballots bb !! bid =
                      Some (App.Board.entry_type y)) by (apply Hidx; eauto).
      congruence.
    - simpl. apply String.eqb_refl. }
  done.
Qed.

Lemma posted_vote_is_found_witness :
  ∃ bb' s' eid,
    App.Board.post_vote
      (fst (BoardRuns.run
              [BoardRuns.PostAudit "ballot_000000" [("A", "1A2B")] 1%N]
              (App.Board.new_board, Demo.tape)))
      "ballot_000001" ["3C4D"] None 2%N Demo.tape = ((bb', s'), Ok eid) ∧
    ∃ e, App.Board.get_ballot_entry bb' "ballot_000001" = Some e ∧
         App.Board.entry_id e = eid ∧
         App.Board.confirmation_codes e = ["3C4D"] ∧
         App.Board.quantum_proof e = None ∧
         App.Board.timestamp e = 2%N ∧
         App.Board.entry_type e = "vote".
Proof.
  destruct (App.Board.post_vote
      (fst (BoardRuns.run
              [BoardRuns.PostAudit "ballot_000000" [("A", "1A2B")] 1%N]
              (App.Board.new_board, Demo.tape)))
      "ballot_000001" ["3C4D"] None 2%N Demo.tape) as [[bb' s'] [eid | e]] eqn:Hpost.
  - exists bb', s', eid. split; [reflexivity |].
    exact (posted_vote_is_found
             [BoardRuns.PostAudit "ballot_000000" [("A", "1A2B")] 1%N]
             Demo.tape Demo.tape s' "ballot_000001" ["3C4D"] None 2%N bb' eid Hpost).
  - vm_compute in Hpost. discriminate Hpost.
Defined.

(** ** shared_state.py: the ballot pool and its allocation *)

Section ballot_pool.
Import SharedState SharedExtra PyStr.
Context {rng : Type} `{Quantum rng}.

Lemma qrng_shape n (s : rng) :
  String.length (fst (Qrng.qrng n s)) = n ∧ all_in_01 (fst (Qrng.qrng n s)) = true.
Proof.
  unfold Qrng.qrng. revert s. induction n as [| n IH]; intros s; simpl; [done |].
  destruct (next_bit s) as [b s1]. specialize (IH s1).
  destruct (Qrng.qrng_bits n s1) as [bs s2]. simpl in *.
  destruct IH as [-> ->]. by destruct b.
Qed.

Lemma draw_codes_get cands codes (s : rng) cand :
  (cand ∈ cands ∨
   ∃ c, PyDict.get codes cand = Some c ∧ String.length c = 16 ∧ all_in_01 c = true) →
  ∃ c, PyDict.get (fst (draw_codes cands codes s)) cand = Some c ∧
       String.length c = 16 ∧ all_in_01 c = true.
Proof.
  revert codes s. induction cands as [| x cands IH]; intros codes s Hc; simpl.
  - destruct Hc as [Hc | Hc]; [by apply elem_of_nil in Hc | done].
  - pose proof (qrng_shape 16 s) as [Hl Hb].
    unfold QuantumCore.generate_confirmation_code, QuantumCore.qrng.
    destruct (Qrng.qrng 16 s) as [c s1]. simpl in Hl, Hb.
    apply IH. destruct (decide (x = cand)) as [-> | Hne].
    + right. exists c. by rewrite pydict_get_set_eq.
    + destruct Hc as [Hc | Hc].
      * apply elem_of_cons in Hc as [-> | Hc]; [done | by left].
      * right. by rewrite pydict_get_set_ne.
Qed.

Lemma draw_pool_shape n eid cands pool (s : rng) :
  Forall (fresh_ballot eid cands) pool →
  List.length (fst (draw_pool n eid cands pool s)) = List.length pool + n ∧
  Forall (fresh_ballot eid cands) (fst (draw_pool n eid cands pool s)).
Proof.
  revert pool s. induction n as [| n IH]; intros pool s Hpool; simpl.
  - split; [lia | done].
  - pose proof (qrng_shape 12 s) as [Hl Hb].
    unfold QuantumCore.generate_ballot_id, QuantumCore.qrng.
    destruct (Qrng.qrng 12 s) as [bid s1]. simpl in Hl, Hb.
    pose proof (fun cand Hc => draw_codes_get cands PyDict.empty s1 cand (or_introl Hc))
      as Hcodes.
    destruct (draw_codes cands PyDict.empty s1) as [codes s2]. simpl in Hcodes.
    match goal with
    | |- context [draw_pool n eid cands ?p s2] => destruct (IH p s2) as [Hlen Hall]
    end.
    + apply Forall_app. split; [done |]. apply Forall_singleton.
      unfold fresh_ballot. simpl. repeat split; done.
    + split; [| done]. rewrite Hlen, length_app. simpl. lia.
Qed.

Lemma allocate_first_free pool vid now :
  free_ballots pool = 0 → allocate_first pool vid now = None.
Proof.
  unfold free_ballots. induction pool as [| b pool IH]; simpl; [done |].
  destruct (is_allocated b); simpl; [| done]. intros Hf. by rewrite IH.
Qed.

Lemma allocate_first_some pool vid now :
  0 < free_ballots pool →
  ∃ i b, pool !! i = Some b ∧ is_allocated b = false ∧
         (∀ j b', j < i → pool !! j = Some b' → is_allocated b' = true) ∧
         allocate_first pool vid now =
           Some (<[i := set_allocated b vid now]> pool, set_allocated b vid now) ∧
         free_ballots (<[i := set_allocated b vid now]> pool) = free_ballots pool - 1.
Proof.
  unfold free_ballots. induction pool as [| b pool IH]; simpl; [lia |].
  destruct (is_allocated b) eqn:Hb; simpl.
  - intros Hf. destruct (IH Hf) as (i & b0 & Hi & Hb0 & Hbefore & -> & Hfree).
    exists (S i), b0. simpl. rewrite Hb. simpl. repeat split; try done.
    intros [| j] b' Hj Hl; simpl in Hl; [by injection Hl as <- |].
    apply (Hbefore j); [lia | done].
  - intros _. exists 0, b. simpl. repeat split; try done; [| lia].
    intros j b' Hj. lia.
Qed.

Lemma allocations_served st eid now vids pool :
  ballot_pools st !! eid = Some pool →
  map served (snd (allocations st eid now vids)) =
  (repeat true (Nat.min (List.length vids) (free_ballots pool)) ++
   repeat false (List.length vids - free_ballots pool))%list.
Proof.
  revert st pool. induction vids as [| vid vids IH]; intros st pool Hpool; [done |].
  cbn [allocations]. unfold allocate_ballot_from_pool. rewrite Hpool.
  destruct (Nat.eq_dec (free_ballots pool) 0) as [H0 | Hpos].
  - rewrite (allocate_first_free pool vid now H0).
    specialize (IH st pool Hpool).
    destruct (allocations st eid now vids) as [st2 rs]. simpl in *.
    rewrite IH, H0. rewrite !Nat.min_0_r, !Nat.sub_0_r. done.
  - destruct (allocate_first_some pool vid now) as (i & b & _ & _ & _ & -> & Hfree);
      [lia |].
    match goal with
    | |- context [allocations ?st1 eid now vids] =>
        specialize (IH st1 (<[i := set_allocated b vid now]> pool))
    end.
    specialize (IH ltac:(simpl; apply lookup_insert_eq)).
    match goal with
    | |- context [allocations ?st1 eid now vids] =>
        destruct (allocations st1 eid now vids) as [st2 rs]
    end.
    simpl in *. rewrite IH, Hfree.
    destruct (free_ballots pool) as [| m]; [done |].
    simpl. by rewrite Nat.sub_0_r.
Qed.

End ballot_pool.

(** X18. [_create_ballot_pool] stores under the election a pool of exactly
    [pool_size] ballots, each unallocated, uncast and unspoiled, owned by
    nobody, with a 12-bit ballot id and, for every candidate of the
    election, a 16-bit confirmation code. *)
Theorem ballot_pool_shape {rng : Type} `{Quantum rng}
    (st : SharedState.State) (eid : string) (cands : list string)
    (pool_size : nat) (s : rng) :
  ∃ pool,
    SharedState.ballot_pools
      (fst (SharedState._create_ballot_pool st eid cands pool_size s)) !! eid
      = Some pool ∧
    List.length pool = pool_size ∧
    Forall (SharedExtra.fresh_ballot eid cands) pool.
Proof.
  unfold SharedState._create_ballot_pool.
  destruct (draw_pool_shape pool_size eid cands [] s (Forall_nil_2 _)) as [Hlen Hall].
  destruct (SharedState.draw_pool pool_size eid cands [] s) as [pool s'].
  exists pool. simpl in *. split; [apply lookup_insert_eq | done].
Qed.

(** X19. [allocate_ballot_from_pool] hands out the first unallocated
    ballot of the pool: every ballot before it is allocated, the ballot is
    returned marked as allocated to the voter, it replaces the pool slot,
    it is stored under its ballot id, and the pool has one unallocated
    ballot fewer. *)
Theorem allocation_takes_first_free (st : SharedState.State)
    (vid eid now : string) (pool : list SharedState.Ballot) :
  SharedState.ballot_pools st !! eid = Some pool →
  0 < SharedExtra.free_ballots pool →
  ∃ i b st',
    pool !! i = Some b ∧ SharedState.is_allocated b = false ∧
    (∀ j b', j < i → pool !! j = Some b' → SharedState.is_allocated b' = true) ∧
    SharedExtra.allocate_ballot_from_pool st vid eid now =
      (st', Some (SharedExtra.set_allocated b vid now)) ∧
    SharedState.ballot_pools st' !! eid =
      Some (<[i := SharedExtra.set_allocated b vid now]> pool) ∧
    SharedState.get_ballot st' (SharedState.ballot_id b) =
      Some (SharedExtra.set_allocated b vid now) ∧
    SharedExtra.free_ballots (<[i := SharedExtra.set_allocated b vid now]> pool) =
      SharedExtra.free_ballots pool - 1.
Proof.
  intros Hpool Hfree.
  destruct (allocate_first_some pool vid now Hfree)
    as (i & b & Hi & Hb & Hbefore & Hfirst & Hcount).
  exists i, b. eexists. split; [done |]. split; [done |]. split; [done |].
  unfold SharedExtra.allocate_ballot_from_pool. rewrite Hpool, Hfirst.
  split; [reflexivity |]. simpl. split; [apply lookup_insert_eq |].
  split; [| done]. unfold SharedState.get_ballot. simpl. apply lookup_insert_eq.
Qed.

Lemma allocation_takes_first_free_witness :
  ∃ pool,
    SharedState.ballot_pools
      (fst (SharedState._create_ballot_pool Demo.empty_state "e1" ["A"; "B"] 2
              Demo.tape_pool)) !! "e1" = Some pool ∧
    0 < SharedExtra.free_ballots pool ∧
    ∃ i b st',
      pool !! i = Some b ∧ SharedState.is_allocated b = false ∧
      (∀ j b', j < i → pool !! j = Some b' → SharedState.is_allocated b' = true) ∧
      SharedExtra.allocate_ballot_from_pool
        (fst (SharedState._create_ballot_pool Demo.empty_state "e1" ["A"; "B"] 2
                Demo.tape_pool)) "v1" "e1" "t1" =
        (st', Some (SharedExtra.set_allocated b "v1" "t1")) ∧
      SharedState.ballot_pools st' !! "e1" =
        Some (<[i := SharedExtra.set_allocated b "v1" "t1"]> pool) ∧
      SharedState.get_ballot st' (SharedState.ballot_id b) =
        Some (SharedExtra.set_allocated b "v1" "t1") ∧
      SharedExtra.free_ballots (<[i := SharedExtra.set_allocated b "v1" "t1"]> pool) =
        SharedExtra.free_ballots pool - 1.
Proof.
  destruct (SharedState.ballot_pools
      (fst (SharedState._create_ballot_pool Demo.empty_state "e1" ["A"; "B"] 2
              Demo.tape_pool)) !! "e1") as [pool |] eqn:Hpool.
  - exists pool.
    assert (Hfree : 0 < SharedExtra.free_ballots pool).
    { vm_compute in Hpool. injection Hpool as <-. vm_compute. lia. }
    split; [reflexivity |]. split; [exact Hfree |].
    exact (allocation_takes_first_free _ "v1" "e1" "t1" pool Hpool Hfree).
  - vm_compute in Hpool. discriminate Hpool.
Defined.

(** X20. A pool serves exactly its unallocated ballots: when ballots are
    requested for a list of voters in turn, the first requests, as many as
    the pool has unallocated ballots, each receive a ballot and every
    later request receives [None]. *)
Theorem pool_serves_its_free_ballots (st : SharedState.State)
    (eid now : string) (vids : list string) (pool : list SharedState.Ballot) :
  SharedState.ballot_pools st !! eid = Some pool →
  map SharedExtra.served (snd (SharedExtra.allocations st eid now vids)) =
  (repeat true (Nat.min (List.length vids) (SharedExtra.free_ballots pool)) ++
   repeat false (List.length vids - SharedExtra.free_ballots pool))%list.
Proof. apply allocations_served. Qed.

Lemma pool_serves_its_free_ballots_witness :
  ∃ pool,
    SharedState.ballot_pools
      (fst (SharedState._create_ballot_pool Demo.empty_state "e1" ["A"; "B"] 2
              Demo.tape_pool)) !! "e1" = Some pool ∧
    map SharedExtra.served
      (snd (SharedExtra.allocations
              (fst (SharedState._create_ballot_pool Demo.empty_state "e1" ["A"; "B"] 2
                      Demo.tape_pool)) "e1" "t1" ["v1"; "v2"; "v3"])) =
    (repeat true (Nat.min (List.length ["v1"; "v2"; "v3"]) (SharedExtra.free_ballots pool)) ++
     repeat false (List.length ["v1"; "v2"; "v3"] - SharedExtra.free_ballots pool))%list.
Proof.
  destruct (SharedState.ballot_pools
      (fst (SharedState._create_ballot_pool Demo.empty_state "e1" ["A"; "B"] 2
              Demo.tape_pool)) !! "e1") as [pool |] eqn:Hpool.
  - exists pool. split; [reflexivity |].
    exact (pool_serves_its_free_ballots _ "e1" "t1" ["v1"; "v2"; "v3"] pool Hpool).
  - vm_compute in Hpool. discriminate Hpool.
Defined.

(** ** shared_state.py: registration, device verification, authentication *)

Section voter_flow.
Context {rng : Type} `{Quantum rng}.
Import SharedState VoterFlow PyStr XorRef.

Lemma get_voter_update st v now :
  get_voter (update_voter st v now) (voter_id v) = Some v.
Proof. unfold get_voter, update_voter. simpl. apply lookup_insert_eq. Qed.

Lemma xor_encrypt_ok_binary a b e :
  QuantumCore.xor_encrypt a b = Ok e → all_in_01 a = true ∧ all_in_01 b = true.
Proof.
  unfold QuantumCore.xor_encrypt.
  destruct (all_in_01 a), (all_in_01 b); simpl; by try discriminate.
Qed.

(** What a key no longer than the one-time password does to it. *)
Lemma otp_round_trip otp k :
  all_in_01 otp = true → all_in_01 k = true →
  String.length k ≤ String.length otp →
  ∃ enc, QuantumCore.xor_encrypt otp k = Ok enc ∧
         QuantumCore.xor_decrypt enc k = Ok otp.
Proof.
  intros Ho Hk Hle. eexists. split.
  - rewrite xor_encrypt_binary by done. apply binary_xor_bits; done.
  - rewrite xor_decrypt_binary by (done || apply xor_bits_binary).
    pose proof (xor_decrypt_encrypt_padded otp k Ho Hk) as Hd. simpl in Hd.
    rewrite Hd. f_equal. apply pad0_id. lia.
Qed.

(** What a longer key does to it. *)
Lemma otp_long_key otp k :
  all_in_01 otp = true → all_in_01 k = true →
  String.length otp < String.length k →
  ∃ enc d, QuantumCore.xor_encrypt otp k = Ok enc ∧
           QuantumCore.xor_decrypt enc k = Ok d ∧
           String.length d = String.length k.
Proof.
  intros Ho Hk Hlt. eexists. eexists. split; [| split].
  - rewrite xor_encrypt_binary by done. apply binary_xor_bits; done.
  - rewrite xor_decrypt_binary by (done || apply xor_bits_binary).
    pose proof (xor_decrypt_encrypt_padded otp k Ho Hk) as Hd. simpl in Hd.
    exact Hd.
  - rewrite pad0_length. lia.
Qed.

Lemma generate_otp_shape (s : rng) :
  String.length (fst (QuantumCore.generate_otp s)) = 16 ∧
  all_in_01 (fst (QuantumCore.generate_otp s)) = true.
Proof. apply (qrng_shape 16 s). Qed.

Lemma request_requested st v fp now :
  get_voter st (voter_id v) = Some v →
  request_device_verification st (voter_id v) fp now =
  (update_voter st
     (set_device v "requested" (requested_device (device_info v) fp now)) now,
   true).
Proof. intros Hv. unfold request_device_verification. by rewrite Hv. Qed.

Lemma approve_pending st v now (s : rng) enc :
  get_voter st (voter_id v) = Some v →
  device_status v = "requested" →
  QuantumCore.xor_encrypt (fst (QuantumCore.generate_otp s)) (q_k2 (quantum_keys v))
    = Ok enc →
  approve_device_verification st (voter_id v) now s =
  ((update_voter st
      (set_device v "pending_verification"
         (approved_device (device_info v) (fst (QuantumCore.generate_otp s)) enc))
      now,
    Ok (true, enc)), snd (QuantumCore.generate_otp s)).
Proof.
  intros Hv Hs Henc. unfold approve_device_verification. rewrite Hv, Hs.
  rewrite String.eqb_refl. unfold perform_device_verification_crypto.
  destruct (QuantumCore.generate_otp s) as [otp s']. simpl in *. by rewrite Henc.
Qed.

Lemma verify_cases st v input now :
  get_voter st (voter_id v) = Some v →
  device_status v = "pending_verification" →
  verify_device_with_otp st (voter_id v) input now =
  if String.eqb input (verification_otp (device_info v))
  then (update_voter st
          (set_device v "verified" (verified_device (device_info v))) now, true)
  else (st, false).
Proof.
  intros Hv Hs. unfold verify_device_with_otp. rewrite Hv, Hs.
  by rewrite String.eqb_refl.
Qed.

Lemma authentication_cases st v input now (s : rng) :
  get_voter st (voter_id v) = Some v →
  device_status v = "verified" →
  q_k1 (quantum_keys v) ≠ "" →
  QuantumCore.encrypt_q_k1_with_biometric (q_k1 (quantum_keys v))
    (signature (biometric_data v)) = Ok (encrypted_q_k1 (quantum_keys v)) →
  String.length (q_k1 (quantum_keys v)) =
    String.length (signature (biometric_data v)) →
  (input ≠ signature (biometric_data v) →
   perform_biometric_authentication st (voter_id v) input now s =
     ((st, Ok (false, "", "", "")), s)) ∧
  ∃ aq s',
    perform_biometric_authentication st (voter_id v)
      (signature (biometric_data v)) now s =
      ((update_voter st (authenticated_voter v aq aq now) now,
        Ok (true, q_k1 (quantum_keys v), aq, aq)), s').
Proof.
  intros Hv Hs Hk Henc Hlen. split.
  - intros Hne. unfold perform_biometric_authentication. rewrite Hv, Hs.
    rewrite String.eqb_refl.
    by destruct (String.eqb_spec input (signature (biometric_data v))).
  - destruct (xor_encrypt_ok_binary _ _ _ Henc) as [Hq Hb].
    destruct (xor_round_trip_bits _ _ Hq Hb Hlen) as [Henc' Hdec].
    unfold QuantumCore.encrypt_q_k1_with_biometric in Henc.
    rewrite Henc' in Henc. injection Henc as Henc.
    rewrite Henc in Hdec.
    unfold perform_biometric_authentication. rewrite Hv, Hs.
    rewrite !String.eqb_refl.
    rewrite (perform_authentication_crypto_identical _ _ _ s Hdec Hk).
    eexists. eexists. reflexivity.
Qed.

Lemma registration_keys_shape (s : rng) :
  let '(q_k1, q_k2, biometric) := fst (generate_registration_keys s) in
  (String.length q_k1 = 16 ∧ all_in_01 q_k1 = true) ∧
  (String.length q_k2 = 16 ∧ all_in_01 q_k2 = true) ∧
  (String.length biometric = 16 ∧ all_in_01 biometric = true).
Proof.
  unfold generate_registration_keys, qrng_with_logging, QuantumCore.qrng.
  pose proof (qrng_shape 16 s) as H1.
  destruct (Qrng.qrng 16 s) as [a s1].
  pose proof (qrng_shape 16 s1) as H2.
  destruct (Qrng.qrng 16 s1) as [b s2].
  pose proof (qrng_shape 16 s2) as H3.
  destruct (Qrng.qrng 16 s2) as [c s3].
  done.
Qed.

Lemma register_enrols st name nid q k b now (s : rng) :
  all_in_01 q = true → all_in_01 b = true →
  String.length q = String.length b →
  ∃ v,
    register_voter_with_quantum_keys st name nid q k b now s =
      ((update_voter st v now, Ok v), snd (QuantumCore.generate_voter_id s)) ∧
    q_k1 (quantum_keys v) = q ∧ q_k2 (quantum_keys v) = k ∧
    signature (biometric_data v) = b ∧
    QuantumCore.encrypt_q_k1_with_biometric q b
      = Ok (encrypted_q_k1 (quantum_keys v)) ∧
    device_status v = "not_requested".
Proof.
  intros Hq Hb Hlen.
  destruct (xor_round_trip_bits q b Hq Hb Hlen) as [Henc _].
  unfold register_voter_with_quantum_keys, QuantumCore.encrypt_q_k1_with_biometric.
  destruct (QuantumCore.generate_voter_id s) as [vid s']. rewrite Henc.
  eexists. split; [reflexivity |]. done.
Qed.

End voter_flow.

(** X21. The device handshake: for a stored voter whose device
    verification is requested and whose Q_K2 is a binary string of at most
    16 digits, [approve_device_verification] succeeds with an encrypted
    OTP; decrypting it with Q_K2, as the voter portal does, gives an OTP
    that [verify_device_with_otp] accepts, leaving the voter's device
    verified; every other input is refused and leaves the store as it
    is. *)
Theorem device_handshake {rng : Type} `{Quantum rng}
    (st : SharedState.State) (v : SharedState.Voter) (now : string) (s : rng) :
  SharedState.get_voter st (SharedState.voter_id v) = Some v →
  SharedState.device_status v = "requested" →
  PyStr.all_in_01 (SharedState.q_k2 (SharedState.quantum_keys v)) = true →
  String.length (SharedState.q_k2 (SharedState.quantum_keys v)) ≤ 16 →
  ∃ st1 enc otp s',
    VoterFlow.approve_device_verification st (SharedState.voter_id v) now s =
      ((st1, Ok (true, enc)), s') ∧
    QuantumCore.xor_decrypt enc (SharedState.q_k2 (SharedState.quantum_keys v))
      = Ok otp ∧
    (∀ input now', input ≠ otp →
       VoterFlow.verify_device_with_otp st1 (SharedState.voter_id v) input now' =
         (st1, false)) ∧
    (∀ now', ∃ st2 v2,
       VoterFlow.verify_device_with_otp st1 (SharedState.voter_id v) otp now' =
         (st2, true) ∧
       SharedState.get_voter st2 (SharedState.voter_id v) = Some v2 ∧
       SharedState.device_status v2 = "verified" ∧
       SharedState.is_verified (SharedState.device_info v2) = true).
Proof.
  intros Hv Hs Hk Hle.
  destruct (generate_otp_shape s) as [Hlen Hbin].
  destruct (otp_round_trip _ _ Hbin Hk ltac:(lia)) as (enc & Henc & Hdec).
  pose (v1 := VoterFlow.set_device v "pending_verification"
                (VoterFlow.approved_device (SharedState.device_info v)
                   (fst (QuantumCore.generate_otp s)) enc)).
  pose proof (get_voter_update st v1 now) as Hv1.
  exists (SharedState.update_voter st v1 now), enc,
    (fst (QuantumCore.generate_otp s)), (snd (QuantumCore.generate_otp s)).
  split; [by apply approve_pending |]. split; [done |]. split.
  - intros input now' Hne.
    pose proof (verify_cases _ v1 input now' Hv1 eq_refl) as Hc.
    change (SharedState.voter_id v1) with (SharedState.voter_id v) in Hc.
    rewrite Hc. simpl.
    by destruct (String.eqb_spec input (fst (QuantumCore.generate_otp s))).
  - intros now'.
    pose proof (verify_cases _ v1 (fst (QuantumCore.generate_otp s)) now' Hv1
                  eq_refl) as Hc.
    change (SharedState.voter_id v1) with (SharedState.voter_id v) in Hc.
    rewrite Hc. simpl. rewrite String.eqb_refl.
    eexists. eexists. split; [reflexivity |].
    split.
    { apply (get_voter_update _
               (VoterFlow.set_device v1 "verified"
                  (VoterFlow.verified_device (SharedState.device_info v1)))). }
    done.
Qed.

Lemma device_handshake_witness :
  ∃ st1 enc otp s',
    VoterFlow.approve_device_verification
      (DemoVoter.store "requested" "0011001111001100")
      "0101010101010101" "t1" Demo.tape = ((st1, Ok (true, enc)), s') ∧
    QuantumCore.xor_decrypt enc "0011001111001100" = Ok otp ∧
    (∀ input now', input ≠ otp →
       VoterFlow.verify_device_with_otp st1 "0101010101010101" input now' =
         (st1, false)) ∧
    (∀ now', ∃ st2 v2,
       VoterFlow.verify_device_with_otp st1 "0101010101010101" otp now' =
         (st2, true) ∧
       SharedState.get_voter st2 "0101010101010101" = Some v2 ∧
       SharedState.device_status v2 = "verified" ∧
       SharedState.is_verified (SharedState.device_info v2) = true).
Proof.
  apply (device_handshake (DemoVoter.store "requested" "0011001111001100")
           (DemoVoter.voter "requested" "0011001111001100") "t1" Demo.tape).
  - apply get_voter_update.
  - reflexivity.
  - reflexivity.
  - simpl. lia.
Defined.

(** X22. A device key longer than the OTP breaks the handshake: when
    Q_K2 is a binary string of more than 16 digits,
    [approve_device_verification] still succeeds, but decrypting the
    encrypted OTP with Q_K2 gives a string as long as Q_K2, which
    [verify_device_with_otp] refuses. *)
Theorem long_device_key_breaks_handshake {rng : Type} `{Quantum rng}
    (st : SharedState.State) (v : SharedState.Voter) (now : string) (s : rng) :
  SharedState.get_voter st (SharedState.voter_id v) = Some v →
  SharedState.device_status v = "requested" →
  PyStr.all_in_01 (SharedState.q_k2 (SharedState.quantum_keys v)) = true →
  16 < String.length (SharedState.q_k2 (SharedState.quantum_keys v)) →
  ∃ st1 enc d s',
    VoterFlow.approve_device_verification st (SharedState.voter_id v) now s =
      ((st1, Ok (true, enc)), s') ∧
    QuantumCore.xor_decrypt enc (SharedState.q_k2 (SharedState.quantum_keys v))
      = Ok d ∧
    String.length d =
      String.length (SharedState.q_k2 (SharedState.quantum_keys v)) ∧
    ∀ now',
      VoterFlow.verify_device_with_otp st1 (SharedState.voter_id v) d now' =
        (st1, false).
Proof.
  intros Hv Hs Hk Hlt.
  destruct (generate_otp_shape s) as [Hlen Hbin].
  destruct (otp_long_key _ _ Hbin Hk ltac:(lia)) as (enc & d & Henc & Hdec & Hd).
  pose (v1 := VoterFlow.set_device v "pending_verification"
                (VoterFlow.approved_device (SharedState.device_info v)
                   (fst (QuantumCore.generate_otp s)) enc)).
  pose proof (get_voter_update st v1 now) as Hv1.
  exists (SharedState.update_voter st v1 now), enc, d,
    (snd (QuantumCore.generate_otp s)).
  split; [by apply approve_pending |]. split; [done |]. split; [done |].
  intros now'.
  pose proof (verify_cases _ v1 d now' Hv1 eq_refl) as Hc.
  change (SharedState.voter_id v1) with (SharedState.voter_id v) in Hc.
  rewrite Hc. simpl.
  destruct (String.eqb_spec d (fst (QuantumCore.generate_otp s))) as [-> | Hne];
    [lia | done].
Qed.

Lemma long_device_key_breaks_handshake_witness :
  ∃ st1 enc d s',
    VoterFlow.approve_device_verification
      (DemoVoter.store "requested" "10110011001111001100")
      "0101010101010101" "t1" Demo.tape = ((st1, Ok (true, enc)), s') ∧
    QuantumCore.xor_decrypt enc "10110011001111001100" = Ok d ∧
    String.length d = String.length "10110011001111001100" ∧
    ∀ now',
      VoterFlow.verify_device_with_otp st1 "0101010101010101" d now' =
        (st1, false).
Proof.
  apply (long_device_key_breaks_handshake
           (DemoVoter.store "requested" "10110011001111001100")
           (DemoVoter.voter "requested" "10110011001111001100") "t1" Demo.tape).
  - apply get_voter_update.
  - reflexivity.
  - reflexivity.
  - simpl. lia.
Defined.

(** X23. Biometric authentication of a stored voter with a verified
    device, whose Q_K1 is not empty and whose stored ciphertext is Q_K1
    encrypted under the enrolled signature of the same length: with the
    enrolled signature
    [perform_biometric_authentication] returns Q_K1 and two equal
    authentication keys, stores them, sets the status to
    "aq_k1_generated" and clears the device OTPs; with any other input it
    returns (False, "", "", "") and leaves the store as it is. *)
Theorem biometric_authentication {rng : Type} `{Quantum rng}
    (st : SharedState.State) (v : SharedState.Voter) (now : string) (s : rng) :
  SharedState.get_voter st (SharedState.voter_id v) = Some v →
  SharedState.device_status v = "verified" →
  SharedState.q_k1 (SharedState.quantum_keys v) ≠ "" →
  QuantumCore.encrypt_q_k1_with_biometric
    (SharedState.q_k1 (SharedState.quantum_keys v))
    (SharedState.signature (SharedState.biometric_data v))
    = Ok (SharedState.encrypted_q_k1 (SharedState.quantum_keys v)) →
  String.length (SharedState.q_k1 (SharedState.quantum_keys v)) =
    String.length (SharedState.signature (SharedState.biometric_data v)) →
  (∀ input, input ≠ SharedState.signature (SharedState.biometric_data v) →
     VoterFlow.perform_biometric_authentication st (SharedState.voter_id v)
       input now s = ((st, Ok (false, "", "", "")), s)) ∧
  ∃ aq st1 s' v1,
    VoterFlow.perform_biometric_authentication st (SharedState.voter_id v)
      (SharedState.signature (SharedState.biometric_data v)) now s =
      ((st1, Ok (true, SharedState.q_k1 (SharedState.quantum_keys v), aq, aq)),
       s') ∧
    SharedState.get_voter st1 (SharedState.voter_id v) = Some v1 ∧
    SharedState.auth_status v1 = "aq_k1_generated" ∧
    SharedState.aq_k1_alice (SharedState.quantum_keys v1) = aq ∧
    SharedState.aq_k1_bob (SharedState.quantum_keys v1) = aq ∧
    SharedState.verification_otp (SharedState.device_info v1) = "" ∧
    SharedState.encrypted_otp (SharedState.device_info v1) = "".
Proof.
  intros Hv Hs Hk Henc Hlen.
  split.
  - intros input Hne.
    by apply (authentication_cases st v input now s Hv Hs Hk Henc Hlen).
  - destruct (authentication_cases st v "" now s Hv Hs Hk Henc Hlen)
      as (_ & aq & s' & Hauth).
    exists aq. eexists. exists s'. eexists. split; [exact Hauth |].
    split.
    { apply (get_voter_update st (VoterFlow.authenticated_voter v aq aq now)). }
    done.
Qed.

Lemma biometric_authentication_witness :
  (∀ input, input ≠ "0110101001011100" →
     VoterFlow.perform_biometric_authentication
       (DemoVoter.store "verified" "0011001111001100") "0101010101010101"
       input "t1" Demo.tape =
     ((DemoVoter.store "verified" "0011001111001100", Ok (false, "", "", "")),
      Demo.tape)) ∧
  ∃ aq st1 s' v1,
    VoterFlow.perform_biometric_authentication
      (DemoVoter.store "verified" "0011001111001100") "0101010101010101"
      "0110101001011100" "t1" Demo.tape =
      ((st1, Ok (true, "1010110011110000", aq, aq)), s') ∧
    SharedState.get_voter st1 "0101010101010101" = Some v1 ∧
    SharedState.auth_status v1 = "aq_k1_generated" ∧
    SharedState.aq_k1_alice (SharedState.quantum_keys v1) = aq ∧
    SharedState.aq_k1_bob (SharedState.quantum_keys v1) = aq ∧
    SharedState.verification_otp (SharedState.device_info v1) = "" ∧
    SharedState.encrypted_otp (SharedState.device_info v1) = "".
Proof.
  apply (biometric_authentication (DemoVoter.store "verified" "0011001111001100")
           (DemoVoter.voter "verified" "0011001111001100") "t1" Demo.tape).
  - apply get_voter_update.
  - reflexivity.
  - discriminate.
  - reflexivity.
  - reflexivity.
Defined.

(** X24. An honest enrolment goes through: on any store, with the three
    keys drawn by [generate_registration_keys], registering the voter,
    requesting and approving device verification, decrypting the OTP with
    Q_K2, verifying the device with it and authenticating with the
    enrolled biometric signature all succeed, and the authentication
    returns the registered Q_K1 with two equal authentication keys. *)
Theorem enrolled_voter_reaches_authentication {rng : Type} `{Quantum rng}
    (st : SharedState.State) (name national_id fingerprint : string)
    (t1 t2 t3 t4 t5 : string) (s : rng) :
  ∃ q_k1 q_k2 biometric v enc otp aq st1 st2 st3 st4 st5 s1 s2 s3 s4,
    VoterFlow.generate_registration_keys s = ((q_k1, q_k2, biometric), s1) ∧
    VoterFlow.register_voter_with_quantum_keys st name national_id
      q_k1 q_k2 biometric t1 s1 = ((st1, Ok v), s2) ∧
    VoterFlow.request_device_verification st1 (SharedState.voter_id v)
      fingerprint t2 = (st2, true) ∧
    VoterFlow.approve_device_verification st2 (SharedState.voter_id v) t3 s2 =
      ((st3, Ok (true, enc)), s3) ∧
    QuantumCore.xor_decrypt enc q_k2 = Ok otp ∧
    VoterFlow.verify_device_with_otp st3 (SharedState.voter_id v) otp t4 =
      (st4, true) ∧
    VoterFlow.perform_biometric_authentication st4 (SharedState.voter_id v)
      biometric t5 s3 = ((st5, Ok (true, q_k1, aq, aq)), s4).
Proof.
  pose proof (registration_keys_shape s) as Hk.
  destruct (VoterFlow.generate_registration_keys s) as [[[q k] b] s1].
  simpl in Hk. destruct Hk as ((Hq1 & Hq2) & (Hk1 & Hk2) & (Hb1 & Hb2)).
  destruct (register_enrols st name national_id q k b t1 s1 Hq2 Hb2
              ltac:(congruence))
    as (v & Hreg & Hvq & Hvk & Hvb & Henc & Hst).
  pose (st1 := SharedState.update_voter st v t1).
  pose (v2 := VoterFlow.set_device v "requested"
                (VoterFlow.requested_device (SharedState.device_info v)
                   fingerprint t2)).
  pose (st2 := SharedState.update_voter st1 v2 t2).
  destruct (generate_otp_shape (snd (QuantumCore.generate_voter_id s1)))
    as [Hlen Hbin].
  destruct (otp_round_trip _ k Hbin Hk2 ltac:(lia)) as (enc & Hxe & Hxd).
  pose (otp := fst (QuantumCore.generate_otp (snd (QuantumCore.generate_voter_id s1)))).
  pose (v3 := VoterFlow.set_device v2 "pending_verification"
                (VoterFlow.approved_device (SharedState.device_info v2) otp enc)).
  pose (st3 := SharedState.update_voter st2 v3 t3).
  pose (v4 := VoterFlow.set_device v3 "verified"
                (VoterFlow.verified_device (SharedState.device_info v3))).
  pose (st4 := SharedState.update_voter st3 v4 t4).
  assert (Henc4 :
    QuantumCore.encrypt_q_k1_with_biometric
      (SharedState.q_k1 (SharedState.quantum_keys v4))
      (SharedState.signature (SharedState.biometric_data v4))
    = Ok (SharedState.encrypted_q_k1 (SharedState.quantum_keys v4))).
  { change (QuantumCore.encrypt_q_k1_with_biometric
              (SharedState.q_k1 (SharedState.quantum_keys v))
              (SharedState.signature (SharedState.biometric_data v))
            = Ok (SharedState.encrypted_q_k1 (SharedState.quantum_keys v))).
    by rewrite Hvq, Hvb. }
  assert (Hlen4 :
    String.length (SharedState.q_k1 (SharedState.quantum_keys v4)) =
    String.length (SharedState.signature (SharedState.biometric_data v4))).
  { change (String.length (SharedState.q_k1 (SharedState.quantum_keys v)) =
            String.length (SharedState.signature (SharedState.biometric_data v))).
    rewrite Hvq, Hvb. congruence. }
  assert (Hk4 : SharedState.q_k1 (SharedState.quantum_keys v4) ≠ "").
  { change (SharedState.q_k1 (SharedState.quantum_keys v) ≠ "").
    rewrite Hvq. intros ->. discriminate Hq1. }
  destruct (authentication_cases st4 v4 "" t5
              (snd (QuantumCore.generate_otp (snd (QuantumCore.generate_voter_id s1))))
              (get_voter_update st3 v4 t4) eq_refl Hk4 Henc4 Hlen4)
    as (_ & aq & s4 & Hauth).
  exists q, k, b, v, enc, otp, aq, st1, st2, st3, st4.
  eexists. exists s1. eexists. eexists. exists s4.
  split; [reflexivity |].
  split; [exact Hreg |].
  split; [exact (request_requested st1 v fingerprint t2 (get_voter_update st v t1)) |].
  split.
  { apply (approve_pending st2 v2 t3 _ enc (get_voter_update st1 v2 t2) eq_refl).
    change (SharedState.q_k2 (SharedState.quantum_keys v2))
      with (SharedState.q_k2 (SharedState.quantum_keys v)).
    by rewrite Hvk. }
  split; [exact Hxd |].
  split.
  { pose proof (verify_cases st3 v3 otp t4 (get_voter_update st2 v3 t3) eq_refl)
      as Hc.
    change (SharedState.verification_otp (SharedState.device_info v3))
      with otp in Hc.
    rewrite String.eqb_refl in Hc. exact Hc. }
  change (SharedState.voter_id v4) with (SharedState.voter_id v) in Hauth.
  change (SharedState.signature (SharedState.biometric_data v4))
    with (SharedState.signature (SharedState.biometric_data v)) in Hauth.
  change (SharedState.q_k1 (SharedState.quantum_keys v4))
    with (SharedState.q_k1 (SharedState.quantum_keys v)) in Hauth.
  rewrite Hvq, Hvb in Hauth. exact Hauth.
Qed.

(** ** shared_state.py: casting a vote and counting the board *)

Section voting.
Import SharedState Voting PyStr XorRef.

Lemma candidate_round_trip candidate name vq_k1 :
  all_in_01 vq_k1 = true →
  CoreExtra.canonical_name candidate = Some name →
  ∃ e, CoreExtra.encrypt_candidate_vote candidate vq_k1 = Ok e ∧
       CoreExtra.decrypt_candidate_vote e vq_k1 = Ok name.
Proof.
  intros Hk Hname. unfold CoreExtra.canonical_name in Hname.
  unfold CoreExtra.encrypt_candidate_vote.
  destruct (PyDict.get CoreExtra.encrypt_map candidate) as [b |] eqn:Hb; [| done].
  assert (Hcases : b = "0001" ∨ b = "0010" ∨ b = "0011" ∨ b = "0100").
  { unfold CoreExtra.encrypt_map in Hb. cbn [PyDict.get] in Hb.
    repeat (destruct (String.eqb _ candidate); [injection Hb as <-; tauto |]).
    done. }
  set (cb := zfill b 16).
  assert (Hcb : all_in_01 cb = true)
    by (unfold cb; destruct Hcases as [-> | [-> | [-> | ->]]]; reflexivity).
  set (n := Nat.max (String.length cb) (String.length vq_k1)).
  exists (xor_bits (pad0 n cb) (pad0 n vq_k1)). split.
  - by apply binary_xor_bits.
  - unfold CoreExtra.decrypt_candidate_vote.
    unfold n. rewrite xor_decrypt_encrypt_padded by done. simpl.
    rewrite lstrip0_pad0. unfold cb.
    destruct Hcases as [-> | [-> | [-> | ->]]]; vm_compute in Hname;
      injection Hname as <-; reflexivity.
Qed.

Lemma unlisted_candidate candidate vq_k1 :
  PyDict.get CoreExtra.encrypt_map candidate = None →
  CoreExtra.encrypt_candidate_vote candidate vq_k1 =
    Raise (CoreExtra.name_error "string_to_binary").
Proof. intros Hnone. unfold CoreExtra.encrypt_candidate_vote. by rewrite Hnone. Qed.

Lemma confirmation_round_trip code k :
  all_in_01 code = true → all_in_01 k = true →
  ∃ enc, QuantumCore.xor_encrypt code k = Ok enc ∧
         QuantumCore.xor_decrypt enc k = Ok (pad0 (String.length k) code).
Proof.
  intros Hc Hk. eexists. split.
  - rewrite xor_encrypt_binary by done. apply binary_xor_bits; done.
  - rewrite xor_decrypt_binary by (done || apply xor_bits_binary).
    pose proof (xor_decrypt_encrypt_padded code k Hc Hk) as Hd. simpl in Hd.
    rewrite Hd. f_equal. unfold pad0. f_equal. f_equal. lia.
Qed.

Lemma get_ballot_update st b now :
  get_ballot (update_ballot st b now) (ballot_id b) = Some b.
Proof. unfold get_ballot, update_ballot. simpl. apply lookup_insert_eq. Qed.

(** The store a successful [cast_encrypted_vote] leaves. *)
Lemma cast_succeeds st v b candidate now e enc :
  get_voter st (voter_id v) = Some v →
  get_ballot st (ballot_id b) = Some b →
  nonempty (vq_k1_alice (quantum_keys v)) = true →
  CoreExtra.encrypt_candidate_vote candidate (vq_k1_alice (quantum_keys v)) = Ok e →
  QuantumCore.xor_encrypt
    (default "" (PyDict.get (confirmation_codes b) candidate))
    (vq_k1_bob (quantum_keys v)) = Ok enc →
  cast_encrypted_vote st (voter_id v) (ballot_id b) candidate now =
  (update_voter (update_ballot st (set_cast b e now) now)
     (set_vote_status v "voted") now,
   Ok (true, default "" (PyDict.get (confirmation_codes b) candidate), enc)).
Proof.
  intros Hv Hb Hne He Henc. unfold cast_encrypted_vote.
  by rewrite Hv, Hb, Hne, He, Henc.
Qed.

Lemma insert_by_timestamp_Permutation e l : insert_by_timestamp e l ≡ₚ e :: l.
Proof.
  induction l as [| y l IH]; simpl; [done |].
  destruct (String.ltb (timestamp y) (timestamp e)); [| done].
  rewrite IH. apply perm_swap.
Qed.

Lemma sorted_by_timestamp_Permutation l : sorted_by_timestamp l ≡ₚ l.
Proof.
  induction l as [| e l IH]; simpl; [done |].
  by rewrite insert_by_timestamp_Permutation, IH.
Qed.

Lemma length_filter_Permutation {A : Type} (f : A → bool) (l l' : list A) :
  l ≡ₚ l' → List.length (List.filter f l) = List.length (List.filter f l').
Proof.
  induction 1 as [| x l l' _ IH | x y l | l l' l'' _ IH1 _ IH2]; simpl.
  - done.
  - destruct (f x); simpl; by rewrite IH.
  - by destruct (f x), (f y).
  - by rewrite IH1.
Qed.

Lemma count_entry_get st eid r e c :
  PyDict.get (count_entry st eid r e) c =
  (fun n => n + (if bool_decide (counted_for st eid e = Some c) then 1 else 0))
    <$> PyDict.get r c.
Proof.
  assert (Hsame : ∀ x : option nat, x = (fun n => n + 0) <$> x).
  { intros [n |]; simpl; [f_equal; lia | done]. }
  unfold count_entry, counted_for.
  destruct (String.eqb (entry_type e) "vote"); [| apply Hsame].
  destruct (get_ballot st (e_ballot_id e)) as [ballot |]; [| apply Hsame].
  destruct (String.eqb (election_id ballot) eid); [| apply Hsame].
  destruct (first_posted (confirmation_codes ballot) (e_confirmation_codes e))
    as [cand |]; [| apply Hsame].
  destruct (decide (cand = c)) as [-> | Hne].
  - rewrite bool_decide_eq_true_2 by done.
    destruct (PyDict.get r c) as [n |] eqn:Hr.
    + by rewrite pydict_get_set_eq.
    + by rewrite Hr.
  - rewrite bool_decide_eq_false_2 by congruence.
    destruct (PyDict.get r cand) as [n |]; [| apply Hsame].
    rewrite pydict_get_set_ne by done. apply Hsame.
Qed.

Lemma foldl_count_get st eid l r c :
  PyDict.get (foldl (count_entry st eid) r l) c =
  (fun n => n + List.length
                 (List.filter
                    (fun e => bool_decide (counted_for st eid e = Some c)) l))
    <$> PyDict.get r c.
Proof.
  revert r. induction l as [| e l IH]; intros r; simpl.
  - destruct (PyDict.get r c); simpl; [f_equal; lia | done].
  - rewrite IH, count_entry_get.
    destruct (PyDict.get r c) as [n |]; simpl; [| done].
    destruct (bool_decide (counted_for st eid e = Some c)); simpl; f_equal; lia.
Qed.

Lemma init_results_get (cands : list string) (r0 : PyDict.t nat) c :
  PyDict.get (foldl (fun r candidate => PyDict.set r candidate 0) r0 cands) c =
  if bool_decide (c ∈ cands) then Some 0 else PyDict.get r0 c.
Proof.
  revert r0. induction cands as [| a cands IH]; intros r0; simpl.
  - done.
  - rewrite IH. destruct (decide (c ∈ cands)) as [Hin | Hnin].
    + rewrite !bool_decide_eq_true_2; [done | by right | done].
    + rewrite (bool_decide_eq_false_2 (c ∈ cands)) by done.
      destruct (decide (a = c)) as [-> | Hne].
      * rewrite pydict_get_set_eq, bool_decide_eq_true_2; [done | by left].
      * rewrite pydict_get_set_ne by done.
        rewrite bool_decide_eq_false_2; [done |].
        intros Hc. apply elem_of_cons in Hc as [-> | Hc]; done.
Qed.

Lemma results_get elections st eid now e c :
  elections !! eid = Some e →
  PyDict.get (snd (get_election_results elections st eid now)) c =
  if bool_decide (c ∈ candidates e) then Some (votes_for st eid c) else None.
Proof.
  intros He. unfold get_election_results. rewrite He. simpl.
  rewrite foldl_count_get, init_results_get.
  destruct (bool_decide (c ∈ candidates e)); simpl; [| done].
  f_equal. unfold votes_for, get_all_bulletin_entries.
  apply length_filter_Permutation, sorted_by_timestamp_Permutation.
Qed.

Lemma first_posted_single (codes : PyDict.t string) cand code :
  PyDict.get codes cand = Some code →
  (∀ cand', (cand', code) ∈ PyDict.items codes → cand' = cand) →
  first_posted codes [code] = Some cand.
Proof.
  unfold first_posted, PyDict.items.
  induction codes as [| [k v] codes IH]; intros Hget Hfirst; [done |].
  cbn [PyDict.get] in Hget. cbn [List.find existsb snd].
  destruct (String.eqb_spec v code) as [-> | Hv]; simpl.
  - f_equal. apply Hfirst. by left.
  - destruct (String.eqb_spec k cand) as [-> | Hk].
    + congruence.
    + apply IH; [done |]. intros cand' Hin. apply Hfirst. by right.
Qed.

Lemma pydict_values_set_fresh {V : Type} (d : PyDict.t V) k v :
  PyDict.get d k = None →
  PyDict.values (PyDict.set d k v) = (PyDict.values d ++ [v])%list.
Proof.
  unfold PyDict.values.
  induction d as [| [k' v'] d IH]; intros Hget; [done |].
  cbn [PyDict.get PyDict.set] in *.
  destruct (String.eqb k' k); [done |].
  rewrite !fmap_cons, IH by done. done.
Qed.

Lemma counted_for_same st st' eid x :
  (∀ bid,
     match get_ballot st' bid, get_ballot st bid with
     | Some b', Some b =>
         election_id b' = election_id b ∧
         confirmation_codes b' = confirmation_codes b
     | None, None => True
     | _, _ => False
     end) →
  counted_for st' eid x = counted_for st eid x.
Proof.
  intros Hsame. unfold counted_for.
  destruct (String.eqb (entry_type x) "vote"); [| done].
  specialize (Hsame (e_ballot_id x)).
  destruct (get_ballot st' (e_ballot_id x)) as [b' |],
    (get_ballot st (e_ballot_id x)) as [b |]; try done.
  destruct Hsame as [-> ->]. done.
Qed.

(** The store after the portal's "Cast Vote". *)
Lemma cast_vote_submitted_succeeds st v b candidate entry_id now e enc :
  get_voter st (voter_id v) = Some v →
  get_ballot st (ballot_id b) = Some b →
  nonempty (vq_k1_alice (quantum_keys v)) = true →
  CoreExtra.encrypt_candidate_vote candidate (vq_k1_alice (quantum_keys v)) = Ok e →
  QuantumCore.xor_encrypt
    (default "" (PyDict.get (confirmation_codes b) candidate))
    (vq_k1_bob (quantum_keys v)) = Ok enc →
  ∃ st',
    cast_vote_submitted st (voter_id v) (ballot_id b) candidate entry_id now =
      (st', Ok true) ∧
    ballots st' = <[ballot_id b := set_cast b e now]> (ballots st) ∧
    bulletin_board st' =
      PyDict.set (bulletin_board st) entry_id
        (vote_entry entry_id (ballot_id b)
           (default "" (PyDict.get (confirmation_codes b) candidate)) now).
Proof.
  intros Hv Hb Hne He Henc. unfold cast_vote_submitted.
  rewrite (cast_succeeds st v b candidate now e enc Hv Hb Hne He Henc).
  pose proof (get_voter_update (update_ballot st (set_cast b e now) now)
                (set_vote_status v "voted") now) as Hv'.
  change (voter_id (set_vote_status v "voted")) with (voter_id v) in Hv'.
  rewrite Hv'. eexists. split; [reflexivity |]. done.
Qed.

End voting.

Lemma listed_candidate_encrypts candidate vq_k1 :
  candidate ∈ PyDict.keys CoreExtra.encrypt_map →
  PyStr.all_in_01 vq_k1 = true →
  ∃ e, CoreExtra.encrypt_candidate_vote candidate vq_k1 = Ok e.
Proof.
  intros Hin Hk.
  assert (∃ name, CoreExtra.canonical_name candidate = Some name) as [name Hname].
  { unfold CoreExtra.encrypt_map, PyDict.keys in Hin. simpl in Hin.
    repeat (apply elem_of_cons in Hin as [-> | Hin]; [by eexists |]).
    by apply elem_of_nil in Hin. }
  destruct (candidate_round_trip candidate name vq_k1 Hk Hname) as (e & He & _).
  by exists e.
Qed.

(** X25. A vote cast with [cast_encrypted_vote] can be read back: for a
    stored voter with binary voting keys and a stored ballot, whatever the
    ballot's flags and owner, casting for a candidate with a canonical
    name succeeds; the stored ballot is marked cast, keeps no plaintext
    candidate, and its encrypted vote decrypts under VQ_K1 to the
    canonical name; the returned encrypted confirmation decrypts to the
    confirmation code padded to the key's length; and the voter is marked
    as having voted. *)
Theorem cast_vote_round_trip (st : SharedState.State) (v : SharedState.Voter)
    (b : SharedState.Ballot) (candidate name now : string) :
  SharedState.get_voter st (SharedState.voter_id v) = Some v →
  SharedState.get_ballot st (SharedState.ballot_id b) = Some b →
  Voting.nonempty (SharedState.vq_k1_alice (SharedState.quantum_keys v)) = true →
  PyStr.all_in_01 (SharedState.vq_k1_alice (SharedState.quantum_keys v)) = true →
  PyStr.all_in_01 (SharedState.vq_k1_bob (SharedState.quantum_keys v)) = true →
  CoreExtra.canonical_name candidate = Some name →
  PyStr.all_in_01
    (default "" (PyDict.get (SharedState.confirmation_codes b) candidate)) = true →
  ∃ st' enc b' v',
    Voting.cast_encrypted_vote st (SharedState.voter_id v)
      (SharedState.ballot_id b) candidate now =
      (st', Ok (true,
                default "" (PyDict.get (SharedState.confirmation_codes b) candidate),
                enc)) ∧
    QuantumCore.xor_decrypt enc
      (SharedState.vq_k1_bob (SharedState.quantum_keys v)) =
      Ok (XorRef.pad0
            (String.length (SharedState.vq_k1_bob (SharedState.quantum_keys v)))
            (default "" (PyDict.get (SharedState.confirmation_codes b) candidate))) ∧
    SharedState.get_ballot st' (SharedState.ballot_id b) = Some b' ∧
    SharedState.is_cast b' = true ∧
    SharedState.selected_candidate b' = "" ∧
    CoreExtra.decrypt_candidate_vote (SharedState.encrypted_vote b')
      (SharedState.vq_k1_alice (SharedState.quantum_keys v)) = Ok name ∧
    SharedState.get_voter st' (SharedState.voter_id v) = Some v' ∧
    SharedState.vote_status v' = "voted".
Proof.
  intros Hv Hb Hne Hka Hkb Hname Hcode.
  destruct (candidate_round_trip candidate name _ Hka Hname) as (e & He & Hde).
  destruct (confirmation_round_trip _ _ Hcode Hkb) as (enc & Henc & Hdec).
  exists (SharedState.update_voter
            (SharedState.update_ballot st (Voting.set_cast b e now) now)
            (SharedState.set_vote_status v "voted") now),
    enc, (Voting.set_cast b e now), (SharedState.set_vote_status v "voted").
  split; [by apply cast_succeeds |]. split; [done |].
  split.
  { unfold SharedState.get_ballot. simpl. apply lookup_insert_eq. }
  split; [done |]. split; [done |]. split; [done |].
  split; [| done].
  apply (get_voter_update _ (SharedState.set_vote_status v "voted")).
Qed.

Lemma cast_vote_round_trip_witness :
  ∃ st' enc b' v',
    Voting.cast_encrypted_vote DemoVoting.store "0101010101010101"
      "101010101010" "Bob" "t1" = (st', Ok (true, "1111111100000000", enc)) ∧
    QuantumCore.xor_decrypt enc "1111000011110000" = Ok "1111111100000000" ∧
    SharedState.get_ballot st' "101010101010" = Some b' ∧
    SharedState.is_cast b' = true ∧
    SharedState.selected_candidate b' = "" ∧
    CoreExtra.decrypt_candidate_vote (SharedState.encrypted_vote b')
      "1111000011110000" = Ok "Candidate B" ∧
    SharedState.get_voter st' "0101010101010101" = Some v' ∧
    SharedState.vote_status v' = "voted".
Proof.
  apply (cast_vote_round_trip DemoVoting.store DemoVoting.voter DemoVoting.ballot
           "Bob" "Candidate B" "t1").
  - vm_compute. reflexivity.
  - vm_compute. reflexivity.
  - reflexivity.
  - reflexivity.
  - reflexivity.
  - reflexivity.
  - reflexivity.
Defined.

(** X26. A vote for a candidate outside the eight names of the
    encryption map cannot be cast: for a stored voter with a voting key
    and a stored ballot, [cast_encrypted_vote] raises at the undefined
    [string_to_binary] and leaves the store as it was, and so does the
    portal's cast handler, which posts nothing. *)
Theorem cast_unlisted_candidate_raises (st : SharedState.State)
    (v : SharedState.Voter) (b : SharedState.Ballot)
    (candidate entry_id now : string) :
  SharedState.get_voter st (SharedState.voter_id v) = Some v →
  SharedState.get_ballot st (SharedState.ballot_id b) = Some b →
  Voting.nonempty (SharedState.vq_k1_alice (SharedState.quantum_keys v)) = true →
  candidate ∉ PyDict.keys CoreExtra.encrypt_map →
  Voting.cast_encrypted_vote st (SharedState.voter_id v)
    (SharedState.ballot_id b) candidate now =
    (st, Raise (CoreExtra.name_error "string_to_binary")) ∧
  Voting.cast_vote_submitted st (SharedState.voter_id v)
    (SharedState.ballot_id b) candidate entry_id now =
    (st, Raise (CoreExtra.name_error "string_to_binary")).
Proof.
  intros Hv Hb Hne Hnot.
  apply pydict_get_None in Hnot.
  assert (Hcast :
    Voting.cast_encrypted_vote st (SharedState.voter_id v)
      (SharedState.ballot_id b) candidate now =
    (st, Raise (CoreExtra.name_error "string_to_binary"))).
  { unfold Voting.cast_encrypted_vote. rewrite Hv, Hb, Hne.
    by rewrite (unlisted_candidate candidate _ Hnot). }
  split; [exact Hcast |].
  unfold Voting.cast_vote_submitted. by rewrite Hcast.
Qed.

Lemma cast_unlisted_candidate_raises_witness :
  Voting.cast_encrypted_vote DemoVoting.store "0101010101010101"
    "101010101010" "Erin" "t1" =
    (DemoVoting.store, Raise (CoreExtra.name_error "string_to_binary")) ∧
  Voting.cast_vote_submitted DemoVoting.store "0101010101010101"
    "101010101010" "Erin" "r1" "t1" =
    (DemoVoting.store, Raise (CoreExtra.name_error "string_to_binary")).
Proof.
  apply (cast_unlisted_candidate_raises DemoVoting.store DemoVoting.voter
           DemoVoting.ballot "Erin" "r1" "t1").
  - vm_compute. reflexivity.
  - vm_compute. reflexivity.
  - reflexivity.
  - apply pydict_get_None. reflexivity.
Defined.

(** X27. [get_election_results] counts the board: for a known election
    the result holds exactly the election's candidates, and the figure of
    each is the number of bulletin entries of type "vote" whose ballot is
    stored, belongs to the election and has that candidate as the first
    one, in the ballot's order, whose confirmation code is among the
    posted codes; sorting the entries by timestamp has no bearing on
    it. *)
Theorem election_results_count_the_board (elections : gmap string Voting.Election)
    (st : SharedState.State) (election_id now : string) (e : Voting.Election)
    (c : string) :
  elections !! election_id = Some e →
  PyDict.get (snd (Voting.get_election_results elections st election_id now)) c =
  if bool_decide (c ∈ Voting.candidates e)
  then Some (Voting.votes_for st election_id c)
  else None.
Proof.
  intros He. rewrite (results_get elections st election_id now e c He).
  reflexivity.
Qed.

Lemma election_results_count_the_board_witness :
  PyDict.get
    (snd (Voting.get_election_results DemoVoting.elections
            (fst (Voting.cast_vote_submitted DemoVoting.store "0101010101010101"
                    "101010101010" "Bob" "r1" "t1")) "e1" "t2")) "Bob" =
  if bool_decide ("Bob" ∈ Voting.candidates DemoVoting.election)
  then Some (Voting.votes_for
               (fst (Voting.cast_vote_submitted DemoVoting.store "0101010101010101"
                       "101010101010" "Bob" "r1" "t1")) "e1" "Bob")
  else None.
Proof.
  apply (election_results_count_the_board DemoVoting.elections _ "e1" "t2"
           DemoVoting.election "Bob").
  vm_compute. reflexivity.
Defined.

(** X28. A cast vote is counted once, for the chosen candidate: for a
    stored voter with binary voting keys and a stored ballot on which the
    chosen, listed candidate has a binary confirmation code that no other
    candidate of the ballot shares, the portal's cast with an entry id not
    yet on the board succeeds, and afterwards [get_election_results]
    gives, for every election and candidate, the figure it gave before,
    plus one exactly for the ballot's election and the chosen
    candidate. *)
Theorem cast_vote_is_counted (elections : gmap string Voting.Election)
    (st : SharedState.State) (v : SharedState.Voter) (b : SharedState.Ballot)
    (candidate code entry_id now now' : string) :
  SharedState.get_voter st (SharedState.voter_id v) = Some v →
  SharedState.get_ballot st (SharedState.ballot_id b) = Some b →
  Voting.nonempty (SharedState.vq_k1_alice (SharedState.quantum_keys v)) = true →
  PyStr.all_in_01 (SharedState.vq_k1_alice (SharedState.quantum_keys v)) = true →
  PyStr.all_in_01 (SharedState.vq_k1_bob (SharedState.quantum_keys v)) = true →
  candidate ∈ PyDict.keys CoreExtra.encrypt_map →
  PyDict.get (SharedState.confirmation_codes b) candidate = Some code →
  PyStr.all_in_01 code = true →
  (∀ candidate',
     (candidate', code) ∈ PyDict.items (SharedState.confirmation_codes b) →
     candidate' = candidate) →
  PyDict.get (SharedState.bulletin_board st) entry_id = None →
  ∃ st',
    Voting.cast_vote_submitted st (SharedState.voter_id v)
      (SharedState.ballot_id b) candidate entry_id now = (st', Ok true) ∧
    ∀ election_id c,
      PyDict.get (snd (Voting.get_election_results elections st' election_id now')) c =
      (fun n =>
         n + (if bool_decide (election_id = SharedState.election_id b ∧ c = candidate)
              then 1 else 0))
        <$> PyDict.get
              (snd (Voting.get_election_results elections st election_id now')) c.
Proof.
  intros Hv Hb Hne Hka Hkb Hlisted Hcode Hbin Hfirst Hfresh.
  destruct (listed_candidate_encrypts candidate _ Hlisted Hka) as [e He].
  assert (Hdef :
    default "" (PyDict.get (SharedState.confirmation_codes b) candidate) = code)
    by (by rewrite Hcode).
  destruct (confirmation_round_trip code _ Hbin Hkb) as (enc & Henc & _).
  rewrite <- Hdef in Henc.
  destruct (cast_vote_submitted_succeeds st v b candidate entry_id now e enc
              Hv Hb Hne He Henc) as (st' & Hcast & Hballots & Hboard).
  rewrite Hdef in Hboard.
  exists st'. split; [exact Hcast |].
  intros eid c.
  destruct (elections !! eid) as [el |] eqn:Hel.
  2: { unfold Voting.get_election_results. by rewrite Hel. }
  rewrite !(results_get elections _ eid now' el c Hel).
  destruct (bool_decide (c ∈ Voting.candidates el)); [| done].
  simpl. f_equal. unfold Voting.votes_for.
  rewrite Hboard, pydict_values_set_fresh by done.
  rewrite List.filter_app, List.length_app.
  assert (Hold : ∀ x, Voting.counted_for st' eid x = Voting.counted_for st eid x).
  { intros x. apply counted_for_same. intros bid.
    unfold SharedState.get_ballot. rewrite Hballots.
    destruct (decide (bid = SharedState.ballot_id b)) as [-> | Hbid].
    - rewrite lookup_insert_eq. unfold SharedState.get_ballot in Hb.
      by rewrite Hb.
    - rewrite lookup_insert_ne by done.
      by destruct (SharedState.ballots st !! bid). }
  rewrite (List.filter_ext _
             (fun entry => bool_decide (Voting.counted_for st eid entry = Some c)))
    by (intros x; by rewrite Hold).
  f_equal.
  assert (Hnew :
    Voting.counted_for st' eid
      (Voting.vote_entry entry_id (SharedState.ballot_id b) code now) =
    if String.eqb (SharedState.election_id b) eid then Some candidate else None).
  { rewrite Hold. unfold Voting.counted_for. simpl. rewrite Hb.
    destruct (String.eqb (SharedState.election_id b) eid); [| done].
    by apply first_posted_single. }
  cbn [List.filter]. rewrite Hnew.
  destruct (String.eqb_spec (SharedState.election_id b) eid) as [Heq | Hneq].
  - destruct (decide (c = candidate)) as [-> | Hc].
    + by rewrite !bool_decide_eq_true_2.
    + rewrite !bool_decide_eq_false_2; [done | tauto | congruence].
  - rewrite !bool_decide_eq_false_2; [done | | done].
    intros [-> _]. done.
Qed.

Lemma cast_vote_is_counted_witness :
  ∃ st',
    Voting.cast_vote_submitted DemoVoting.store "0101010101010101"
      "101010101010" "Bob" "r1" "t1" = (st', Ok true) ∧
    ∀ election_id c,
      PyDict.get
        (snd (Voting.get_election_results DemoVoting.elections st' election_id "t2")) c =
      (fun n =>
         n + (if bool_decide (election_id = "e1" ∧ c = "Bob") then 1 else 0))
        <$> PyDict.get
              (snd (Voting.get_election_results DemoVoting.elections
                      DemoVoting.store election_id "t2")) c.
Proof.
  apply (cast_vote_is_counted DemoVoting.elections DemoVoting.store
           DemoVoting.voter DemoVoting.ballot "Bob" "1111111100000000"
           "r1" "t1" "t2").
  - vm_compute. reflexivity.
  - vm_compute. reflexivity.
  - reflexivity.
  - reflexivity.
  - reflexivity.
  - unfold PyDict.keys, CoreExtra.encrypt_map. simpl. set_solver.
  - reflexivity.
  - reflexivity.
  - intros candidate' Hin. unfold PyDict.items in Hin. simpl in Hin.
    repeat (apply elem_of_cons in Hin as [Hin | Hin]; [by simplify_eq |]).
    by apply elem_of_nil in Hin.
  - reflexivity.
Defined.

(** ** Scantegrity_simplified.py: what a cast does to the tally *)

Section simplified_tally.
Import Simplified SimplifiedExtra.

Lemma votes_size es question opt :
  votes es question opt = size (codes_at (table_s es) question opt).
Proof.
  unfold votes, get_tally, codes_at. rewrite lookup_fmap.
  destruct (table_s es !! question) as [m |].
  2: { change (0 = size (∅ : gset string)). by rewrite size_empty. }
  simpl. rewrite lookup_fmap. destruct (m !! opt).
  - done.
  - change (0 = size (∅ : gset string)). by rewrite size_empty.
Qed.

Lemma adds_code_refl ts question opt c : adds_code ts ts question opt c.
Proof. intros q' o'. by left. Qed.

Lemma adds_code_trans ts1 ts2 ts3 question opt c :
  adds_code ts1 ts2 question opt c → adds_code ts2 ts3 question opt c →
  adds_code ts1 ts3 question opt c.
Proof.
  intros H12 H23 q' o'.
  pose proof (H23 q' o') as H2.
  destruct (H12 q' o') as [E12 | (-> & -> & E12)];
    destruct H2 as [E23 | (Hq & Ho & E23)].
  - left. congruence.
  - right. rewrite E23, E12. done.
  - right. rewrite E23, E12. done.
  - right. rewrite E23, E12. repeat split; try done.
    by rewrite (assoc_L (∪)), (idemp_L (∪)).
Qed.

Lemma table_s_add_adds ts ts' question opt c :
  table_s_add ts question opt c = Ok ts' → adds_code ts ts' question opt c.
Proof.
  unfold table_s_add.
  destruct (ts !! question) as [m |] eqn:Hm; [| done].
  destruct (m !! opt) as [cs |] eqn:Hcs; [| done].
  intros [= <-] q' o'. unfold codes_at.
  destruct (decide (q' = question)) as [-> | Hq].
  - rewrite lookup_insert_eq, Hm. simpl.
    destruct (decide (o' = opt)) as [-> | Ho].
    + right. rewrite lookup_insert_eq, Hcs. done.
    + left. by rewrite lookup_insert_ne.
  - left. by rewrite lookup_insert_ne.
Qed.

Lemma scan_table_r_adds tq bid question opt c table_r ts :
  match c with
  | Some cv =>
      adds_code ts (snd (fst (scan_table_r tq bid question opt c table_r ts)))
        question opt cv
  | None => snd (fst (scan_table_r tq bid question opt c table_r ts)) = ts
  end.
Proof.
  induction table_r as [| entry rest IH]; simpl.
  - destruct c; [apply adds_code_refl | done].
  - destruct (q_pointer entry) as [[eb eq] ei].
    destruct (scan_table_r tq bid question opt c rest ts) as [[rest' ts'] r].
    simpl in IH.
    destruct (String.eqb eb bid && String.eqb eq question)%bool; [| done].
    destruct (table_q_at tq bid question ei) as [c' | e]; simpl.
    2: { destruct c; [apply adds_code_refl | done]. }
    destruct c as [cv |]; [| done].
    destruct (String.eqb c' cv); [| done].
    destruct (table_s_add ts question opt cv) as [ts1 | e] eqn:Hadd; simpl.
    + by apply table_s_add_adds.
    + apply adds_code_refl.
Qed.

Lemma scan_tables_r_adds tq bid question opt c trs ts :
  match c with
  | Some cv =>
      adds_code ts (snd (fst (scan_tables_r tq bid question opt c trs ts)))
        question opt cv
  | None => snd (fst (scan_tables_r tq bid question opt c trs ts)) = ts
  end.
Proof.
  revert ts. induction trs as [| table_r rest IH]; intros ts; simpl.
  - destruct c; [apply adds_code_refl | done].
  - pose proof (scan_table_r_adds tq bid question opt c table_r ts) as H1.
    destruct (scan_table_r tq bid question opt c table_r ts) as [[table_r' ts1] r].
    simpl in H1. destruct r as [u | e]; simpl; [| done].
    specialize (IH ts1).
    destruct (scan_tables_r tq bid question opt c rest ts1) as [[rest' ts2] r2].
    simpl in *. destruct c as [cv |].
    + by apply adds_code_trans with ts1.
    + congruence.
Qed.

Lemma record_choices_adds b items es question opt :
  codes_at (table_s (fst (record_choices es b items))) question opt =
    codes_at (table_s es) question opt ∨
  ((question, opt) ∈ items ∧
   ∃ cv, get_code b question = Ok (Some cv) ∧
         codes_at (table_s (fst (record_choices es b items))) question opt =
           {[cv]} ∪ codes_at (table_s es) question opt).
Proof.
  revert es. induction items as [| [q o] rest IH]; intros es; simpl; [by left |].
  destruct (get_code b q) as [c | e] eqn:Hc; [| by left].
  pose proof (scan_tables_r_adds (table_q es) (ballot_id b) q o c
                (tables_r es) (table_s es)) as Hscan.
  destruct (scan_tables_r (table_q es) (ballot_id b) q o c
              (tables_r es) (table_s es)) as [[trs ts] r].
  simpl in Hscan.
  assert (Hfirst :
    codes_at ts question opt = codes_at (table_s es) question opt ∨
    (question = q ∧ opt = o ∧
     ∃ cv, get_code b question = Ok (Some cv) ∧
           codes_at ts question opt = {[cv]} ∪ codes_at (table_s es) question opt)).
  { destruct c as [cv |]; [| left; by rewrite Hscan].
    destruct (Hscan question opt) as [E | (-> & -> & E)]; [by left |].
    right. repeat split; try done. by exists cv. }
  destruct r as [u | e]; simpl.
  - specialize (IH (with_tables (append_cast_vote es (ballot_id b, q, c)) trs ts)).
    simpl in IH.
    destruct IH as [E2 | (Hin & cv2 & Hcv2 & E2)],
      Hfirst as [E1 | (-> & -> & cv1 & Hcv1 & E1)].
    + left. congruence.
    + right. split; [by left |]. exists cv1. split; [done |]. congruence.
    + right. split; [by right |]. exists cv2. split; [done |]. congruence.
    + right. split; [by left |]. exists cv1. split; [done |].
      assert (cv2 = cv1) as -> by congruence.
      rewrite E2, E1. by rewrite (assoc_L (∪)), (idemp_L (∪)).
  - destruct Hfirst as [E1 | (-> & -> & cv1 & Hcv1 & E1)]; [by left |].
    right. split; [by left |]. by exists cv1.
Qed.

Lemma size_add_code (c : string) (X : gset string) :
  size X ≤ size ({[c]} ∪ X) ≤ size X + 1.
Proof.
  split.
  - apply subseteq_size, union_subseteq_r.
  - destruct (decide (c ∈ X)) as [Hin | Hnin].
    + rewrite (subseteq_union_1_L {[c]} X) by (by apply singleton_subseteq_l). lia.
    + rewrite size_union by (by apply disjoint_singleton_l).
      rewrite size_singleton. lia.
Qed.

End simplified_tally.

(** X29. One cast moves each tally by at most one, and only where the
    voter chose: whatever the ballot, its state and the choices, and
    whether [cast_vote] returns or raises, every figure of [get_tally]
    afterwards is at least what it was and at most one more, and it is
    unchanged for every (question, option) that is not among the
    choices. *)
Theorem cast_vote_moves_tally_by_at_most_one (es : Simplified.ElectionSystem)
    (ref : nat) (choices : PyDict.t string) (question opt : string) :
  SimplifiedExtra.votes es question opt ≤
    SimplifiedExtra.votes (fst (Simplified.cast_vote es ref choices)) question opt ∧
  SimplifiedExtra.votes (fst (Simplified.cast_vote es ref choices)) question opt ≤
    SimplifiedExtra.votes es question opt +
    (if bool_decide ((question, opt) ∈ PyDict.items choices) then 1 else 0).
Proof.
  rewrite !votes_size.
  assert (Hcodes :
    SimplifiedExtra.codes_at
      (Simplified.table_s (fst (Simplified.cast_vote es ref choices))) question opt =
      SimplifiedExtra.codes_at (Simplified.table_s es) question opt ∨
    ((question, opt) ∈ PyDict.items choices ∧
     ∃ cv,
       SimplifiedExtra.codes_at
         (Simplified.table_s (fst (Simplified.cast_vote es ref choices)))
         question opt =
       {[cv]} ∪ SimplifiedExtra.codes_at (Simplified.table_s es) question opt)).
  { unfold Simplified.cast_vote.
    destruct (Simplified.ballots es !! ref) as [ballot |]; [| by left].
    destruct (Simplified.status_eqb (Simplified.status ballot) Simplified.NotCast);
      [| by left].
    match goal with
    | |- context [Simplified.record_choices ?es1 ?b ?items] =>
        destruct (record_choices_adds b items es1 question opt)
          as [E | (Hin & cv & _ & E)]
    end.
    - by left.
    - right. split; [done |]. by exists cv. }
  destruct Hcodes as [-> | (Hin & cv & ->)].
  - split; [done | lia].
  - rewrite bool_decide_eq_true_2 by done. apply size_add_code.
Qed.

(** An entry that is not a vote, posted under a new id, changes no
    result, as long as the stored ballots keep their election and
    codes. *)
Lemma results_unchanged (elections : gmap string Voting.Election)
    (st st' : SharedState.State) (entry : SharedState.BulletinEntry)
    (eid now c : string) :
  (∀ bid,
     match SharedState.get_ballot st' bid, SharedState.get_ballot st bid with
     | Some b', Some b =>
         SharedState.election_id b' = SharedState.election_id b ∧
         SharedState.confirmation_codes b' = SharedState.confirmation_codes b
     | None, None => True
     | _, _ => False
     end) →
  SharedState.bulletin_board st' =
    PyDict.set (SharedState.bulletin_board st) (SharedState.entry_id entry) entry →
  PyDict.get (SharedState.bulletin_board st) (SharedState.entry_id entry) = None →
  String.eqb (SharedState.entry_type entry) "vote" = false →
  PyDict.get (snd (Voting.get_election_results elections st' eid now)) c =
  PyDict.get (snd (Voting.get_election_results elections st eid now)) c.
Proof.
  intros Hballots Hboard Hfresh Htype.
  destruct (elections !! eid) as [el |] eqn:Hel.
  2: { unfold Voting.get_election_results. by rewrite Hel. }
  rewrite !(results_get elections _ eid now el c Hel).
  destruct (bool_decide (c ∈ Voting.candidates el)); [| done].
  f_equal. unfold Voting.votes_for.
  rewrite Hboard, pydict_values_set_fresh by done.
  rewrite List.filter_app, List.length_app.
  rewrite (List.filter_ext _
             (fun x => bool_decide (Voting.counted_for st eid x = Some c)))
    by (intros x; by rewrite (counted_for_same st st' eid x Hballots)).
  assert (Hnone : Voting.counted_for st' eid entry = None)
    by (unfold Voting.counted_for; by rewrite Htype).
  cbn [List.filter]. rewrite Hnone.
  rewrite bool_decide_eq_false_2 by done. simpl. lia.
Qed.

(** X30. Spoiling leaves the election results as they are: when the
    ballot, if stored, is stored under its own id and the entry id is not
    yet on the board, the portal's "Spoil Ballot", which posts an entry of
    type "spoiled" with all the ballot's codes, changes the figure of no
    candidate of any election in [get_election_results]. *)
Theorem spoiling_leaves_election_results (elections : gmap string Voting.Election)
    (st : SharedState.State) (voter_id ballot_id entry_id now now' : string) :
  (∀ b, SharedState.get_ballot st ballot_id = Some b →
        SharedState.ballot_id b = ballot_id) →
  PyDict.get (SharedState.bulletin_board st) entry_id = None →
  ∀ election_id c,
    PyDict.get
      (snd (Voting.get_election_results elections
              (fst (Spoiling.spoil_submitted st voter_id ballot_id entry_id now))
              election_id now')) c =
    PyDict.get (snd (Voting.get_election_results elections st election_id now')) c.
Proof.
  intros Hkey Hfresh eid c.
  unfold Spoiling.spoil_submitted, SharedState.spoil_ballot.
  destruct (SharedState.get_voter st voter_id) as [voter |]; [| done].
  destruct (SharedState.get_ballot st ballot_id) as [ballot |] eqn:Hb; [| done].
  specialize (Hkey ballot eq_refl).
  assert (Hballots : ∀ st1 : SharedState.State,
    SharedState.ballots st1 =
      <[ballot_id := SharedState.set_spoiled ballot now]> (SharedState.ballots st) →
    ∀ bid,
      match SharedState.get_ballot st1 bid, SharedState.get_ballot st bid with
      | Some b', Some b =>
          SharedState.election_id b' = SharedState.election_id b ∧
          SharedState.confirmation_codes b' = SharedState.confirmation_codes b
      | None, None => True
      | _, _ => False
      end).
  { intros st1 Hst1 bid. unfold SharedState.get_ballot. rewrite Hst1.
    destruct (decide (bid = ballot_id)) as [-> | Hbid].
    - rewrite lookup_insert_eq. unfold SharedState.get_ballot in Hb.
      by rewrite Hb.
    - rewrite lookup_insert_ne by done.
      by destruct (SharedState.ballots st !! bid). }
  match goal with
  | |- context [match SharedState.get_voter ?st1 voter_id with _ => _ end] =>
      destruct (SharedState.get_voter st1 voter_id) as [updated_voter |]
  end.
  - apply (results_unchanged elections st _
             (Spoiling.spoiled_entry entry_id ballot_id
                (PyDict.values (SharedState.confirmation_codes
                                  (SharedState.set_spoiled ballot now))) now)).
    + apply Hballots. simpl. by rewrite Hkey.
    + done.
    + done.
    + done.
  - apply (results_unchanged elections st _
             (Spoiling.spoiled_entry entry_id ballot_id
                (PyDict.values (SharedState.confirmation_codes
                                  (SharedState.set_spoiled ballot now))) now)).
    + apply Hballots. simpl. by rewrite Hkey.
    + done.
    + done.
    + done.
Qed.

Lemma spoiling_leaves_election_results_witness :
  PyDict.get
    (snd (Voting.get_election_results DemoVoting.elections
            (fst (Spoiling.spoil_submitted DemoVoting.store "0101010101010101"
                    "101010101010" "r2" "t1"))
            "e1" "t2")) "Bob" =
  PyDict.get
    (snd (Voting.get_election_results DemoVoting.elections DemoVoting.store
            "e1" "t2")) "Bob".
Proof.
  apply (spoiling_leaves_election_results DemoVoting.elections DemoVoting.store
           "0101010101010101" "101010101010" "r2" "t1" "t2").
  - intros b Hb. vm_compute in Hb. by injection Hb as <-.
  - reflexivity.
Defined.
